(** * Verification of the VM reconciliation engine of cluster-api-provider-ics

    The development embeds
    - [pkg/services/goclient/service.go]: [ReconcileVM], [DestroyVM],
      [reconcileNetworkStatus], [reconcilePowerState], [reconcileUUID],
      [getPowerState], [getNetworkStatus], [getBootstrapData];
    - the cluster controller's discovery poller,
      [reconcileICSClusterWhenAPIServerIsOnline] and
      [isControlPlaneInitialized];
    - the part of Go's [encoding/base64] that [getBootstrapData] and
      [ReconcileVM] go through.

    A reconcile pass is a computation in a state monad over the resource
    being reconciled, the state of the remote collaborators and the log of
    the calls the pass has issued. *)

From Stdlib Require Import ZArith Lia List Bool.
From Stdlib.Strings Require Import String Ascii Byte.
From stdpp Require Import base option strings gmap.
Import ListNotations.

Local Open Scope Z_scope.

(** ** Go's [encoding/base64], standard encoding with padding *)

Module Base64.

(** [const encodeStd] *)
Definition encodeStd : string :=
  "ABCDEFGHIJKLMNOPQRSTUVWXYZabcdefghijklmnopqrstuvwxyz0123456789+/".

(** [StdPadding] *)
Definition padChar : ascii := "="%char.

(** [enc.encode[i]]: every index the encoder uses is masked with [0x3F]. *)
Definition encode (i : Z) : ascii :=
  match String.get (Z.to_nat i) encodeStd with
  | Some c => c
  | None => Ascii.zero
  end.

Fixpoint index_from (c : ascii) (s : string) (i : Z) : Z :=
  match s with
  | EmptyString => 255
  | String d s' => if Ascii.eqb c d then i else index_from c s' (i + 1)
  end.

(** [enc.decodeMap[c]]: the position of [c] in the alphabet, [0xFF] for a
    byte outside of it. *)
Definition decodeMap (c : ascii) : Z := index_from c encodeStd 0.

(** [uint(b)] and the truncating conversion [byte(v)]. *)
Definition uint (b : byte) : Z := Z.of_N (Byte.to_N b).

Definition to_byte (v : Z) : byte :=
  match Byte.of_N (Z.to_N (v mod 256)) with
  | Some b => b
  | None => x00
  end.

(** [Encoding.Encode]: three source bytes give four characters; one or two
    remaining bytes give a padded quantum. *)
Fixpoint Encode (src : list byte) : list ascii :=
  match src with
  | [] => []
  | [b0] =>
      let val := Z.shiftl (uint b0) 16 in
      [ encode (Z.land (Z.shiftr val 18) 63);
        encode (Z.land (Z.shiftr val 12) 63);
        padChar; padChar ]
  | [b0; b1] =>
      let val := Z.lor (Z.shiftl (uint b0) 16) (Z.shiftl (uint b1) 8) in
      [ encode (Z.land (Z.shiftr val 18) 63);
        encode (Z.land (Z.shiftr val 12) 63);
        encode (Z.land (Z.shiftr val 6) 63);
        padChar ]
  | b0 :: b1 :: b2 :: rest =>
      let val := Z.lor (Z.lor (Z.shiftl (uint b0) 16) (Z.shiftl (uint b1) 8))
                       (uint b2) in
      encode (Z.land (Z.shiftr val 18) 63)
      :: encode (Z.land (Z.shiftr val 12) 63)
      :: encode (Z.land (Z.shiftr val 6) 63)
      :: encode (Z.land val 63)
      :: Encode rest
  end.

Definition EncodeToString (src : list byte) : string :=
  string_of_list_ascii (Encode src).

(** [CorruptInputError]; the byte offset it carries in Go is not kept. *)
Inductive DecodeError := CorruptInputError.

Definition isNewline (c : ascii) : bool :=
  Ascii.eqb c "010"%char || Ascii.eqb c "013"%char.

Definition quantumVal (d0 d1 d2 d3 : Z) : Z :=
  Z.lor (Z.lor (Z.lor (Z.shiftl d0 18) (Z.shiftl d1 12)) (Z.shiftl d2 6)) d3.

(** [Encoding.decodeQuantum], quantum after quantum, on an input from which
    the line breaks have been dropped: a character outside the alphabet is
    accepted only as the padding that ends the input. *)
Fixpoint decodeQuanta (src : list ascii) : list byte + DecodeError :=
  match src with
  | [] => inl []
  | c0 :: c1 :: c2 :: c3 :: rest =>
      let d0 := decodeMap c0 in
      let d1 := decodeMap c1 in
      let d2 := decodeMap c2 in
      let d3 := decodeMap c3 in
      if (d0 =? 255) || (d1 =? 255) then inr CorruptInputError
      else if d2 =? 255 then
        match rest with
        | [] =>
            if Ascii.eqb c2 padChar && Ascii.eqb c3 padChar
            then inl [to_byte (Z.shiftr (quantumVal d0 d1 0 0) 16)]
            else inr CorruptInputError
        | _ :: _ => inr CorruptInputError
        end
      else if d3 =? 255 then
        match rest with
        | [] =>
            if Ascii.eqb c3 padChar
            then let val := quantumVal d0 d1 d2 0 in
                 inl [to_byte (Z.shiftr val 16); to_byte (Z.shiftr val 8)]
            else inr CorruptInputError
        | _ :: _ => inr CorruptInputError
        end
      else
        let val := quantumVal d0 d1 d2 d3 in
        match decodeQuanta rest with
        | inl bs =>
            inl (to_byte (Z.shiftr val 16) :: to_byte (Z.shiftr val 8)
                 :: to_byte val :: bs)
        | inr e => inr e
        end
  | _ => inr CorruptInputError
  end.

(** [Encoding.DecodeString]: [\r] and [\n] are ignored wherever they are. *)
Definition DecodeString (s : string) : list byte + DecodeError :=
  decodeQuanta (List.filter (fun c => negb (isNewline c)) (list_ascii_of_string s)).

End Base64.


(** ** Data model *)

(** [infrav1.VirtualMachinePowerState]: a string type in Go, of which the
    service uses the three named constants and the empty string. *)
Inductive VirtualMachinePowerState :=
  | PowerStateEmpty
  | VirtualMachinePowerStatePoweredOn
  | VirtualMachinePowerStatePoweredOff
  | VirtualMachinePowerStateSuspended.

Inductive FmtArg :=
  | ArgString (s : string)
  | ArgPowerState (p : VirtualMachinePowerState)
  | ArgContext (s : string).

(** [error] values. A message built by [errors.Errorf] or [errors.Wrapf] is
    kept as its format and its arguments; an error handed back by a
    collaborator is opaque and carries that collaborator's text. *)
Inductive error :=
  | External (msg : string)
  | New (msg : string)
  | Errorf (format : string) (args : list FmtArg)
  | Wrapf (cause : error) (format : string) (args : list FmtArg)
  | Base64Error (e : Base64.DecodeError).

(** [infrav1.VirtualMachineState], the phase a pass reports. *)
Inductive VirtualMachineState :=
  | VirtualMachineStateNotFound
  | VirtualMachineStatePending
  | VirtualMachineStateReady.

(** Modelled from the spec: the constant [infrav1.PoweringOnFailedReason] is
    declared in the API package, not in [service.go]; the spec knows it by
    this name. *)
Definition PoweringOnFailedReason : string := "PoweringOnFailed".

Record NetworkStatus := {
  Connected : bool;
  IPAddrs : option (list string);
  MACAddr : string;
  NetworkName : string
}.

(** [infrav1.VirtualMachine], the result of a pass. *)
Module VirtualMachine.
Record t := {
  Name : string;
  BiosUUID : string;
  UID : string;
  State : VirtualMachineState;
  Network : list NetworkStatus
}.
Definition with_State (st : VirtualMachineState) (vm : t) : t :=
  {| Name := Name vm; BiosUUID := BiosUUID vm; UID := UID vm;
     State := st; Network := Network vm |}.
Definition with_IDs (uid uuid : string) (vm : t) : t :=
  {| Name := Name vm; BiosUUID := uuid; UID := uid;
     State := State vm; Network := Network vm |}.
Definition with_Network (n : list NetworkStatus) (vm : t) : t :=
  {| Name := Name vm; BiosUUID := BiosUUID vm; UID := UID vm;
     State := State vm; Network := n |}.
End VirtualMachine.

Record ObjectReference := { RefNamespace : string; RefName : string }.

(** [infrav1.ICSVM]: the fields of the resource that the service reads or
    writes. A nil slice is [None]. *)
Module ICSVM.
Record t := {
  GroupVersionKind : string;
  Namespace : string;
  Name : string;
  BootstrapRef : option ObjectReference;        (* Spec.BootstrapRef *)
  TaskRef : string;                             (* Status.TaskRef *)
  Addresses : option (list string);             (* Status.Addresses *)
  Network : list NetworkStatus;                 (* Status.Network *)
  Conditions : list string                      (* Status.Conditions *)
}.
Definition with_TaskRef (r : string) (v : t) : t :=
  {| GroupVersionKind := GroupVersionKind v; Namespace := Namespace v;
     Name := Name v; BootstrapRef := BootstrapRef v; TaskRef := r;
     Addresses := Addresses v; Network := Network v;
     Conditions := Conditions v |}.
Definition with_Conditions (c : list string) (v : t) : t :=
  {| GroupVersionKind := GroupVersionKind v; Namespace := Namespace v;
     Name := Name v; BootstrapRef := BootstrapRef v; TaskRef := TaskRef v;
     Addresses := Addresses v; Network := Network v;
     Conditions := c |}.
(** [VMContext.String] *)
Definition String (v : t) : string :=
  GroupVersionKind v +:+ " " +:+ Namespace v +:+ "/" +:+ Name v.
End ICSVM.

(** The platform SDK's view of a VM, a host and a task. *)
Record ManagedObjectReference := { Value : string }.

Record VMObject := {
  ID : string;
  UUID : string;
  Status : string;
  HostID : string;
  MemoryInByte : Z
}.

Record Host := {
  FreeMemoryInByte : Z;
  LogicFreeMemoryInByte : Z
}.

Record Task := { TaskId : string }.

Record TaskInfo := { TaskState : string; TaskError : string }.

Record Secret := { Data : gmap string (list byte) }.

Record Session := { Password : string }.

(** What the platform says about a stored task reference. *)
Inductive TaskProbe :=
  | TaskGone
  | TaskPending
  | TaskSucceeded
  | TaskFailed (msg : string).

(** The calls a pass can issue, in the order it issues them. *)
Inductive Call :=
  | CallGetTask (ref : string)
  | CallFindVM
  | CallSecretGet (namespace name : string)
  | CallCreateVM (payload : string)
  | CallGetVM (id : string)
  | CallGetHost (id : string)
  | CallGetNetworkStatus (id : string)
  | CallPatch
  | CallPowerOnVM (id : string)
  | CallPowerOffVM (id : string)
  | CallDeleteVM (id : string) (force cascade : bool) (password : string)
  | CallWaitForResult (task : string)
  | WatchTask (ref : string)
  | WatchNetwork (task : string).

(** The collaborators of the service: the platform SDK, the secret client
    and the helpers of the package that live outside [service.go]. [W] is
    whatever state they keep; every call may change it. *)
Record Platform (W : Type) := {
  getTask : string -> W -> TaskProbe * W;
  findVM : ICSVM.t -> W -> (ManagedObjectReference + error) * W;
  isNotFound : error -> bool;
  ClientGet : string -> string -> W -> (Secret + error) * W;
  CreateVM : ICSVM.t -> string -> W -> option error * W;
  GetVM : string -> W -> (VMObject + error) * W;
  GetHost : string -> W -> (Host + error) * W;
  PowerOnVM : string -> W -> (Task + error) * W;
  PowerOffVM : string -> W -> (Task + error) * W;
  DeleteVMWithCheckParams :
    string -> bool -> bool -> string -> W -> (Task + error) * W;
  WaitForResult : Task -> W -> (option TaskInfo * option error) * W;
  GetNetworkStatus :
    ICSVM.t -> ManagedObjectReference -> W -> (list NetworkStatus + error) * W;
  sanitizeIPAddrs : ICSVM.t -> option (list string) -> option (list string);
  UpdateNetworkInfo : ICSVM.t -> list NetworkStatus -> ICSVM.t;
  IsControlPlaneMachine : ICSVM.t -> bool;
  Patch : ICSVM.t -> W -> option error * W
}.

Arguments getTask {W}. Arguments findVM {W}. Arguments isNotFound {W}.
Arguments ClientGet {W}. Arguments CreateVM {W}. Arguments GetVM {W}.
Arguments GetHost {W}. Arguments PowerOnVM {W}. Arguments PowerOffVM {W}.
Arguments DeleteVMWithCheckParams {W}. Arguments WaitForResult {W}.
Arguments GetNetworkStatus {W}. Arguments sanitizeIPAddrs {W}.
Arguments UpdateNetworkInfo {W}. Arguments IsControlPlaneMachine {W}.
Arguments Patch {W}.

(** ** The monad of a reconcile pass *)

(** [VMContext]: the resource, the collaborators' state, the calls so far. *)
Record Ctx (W : Type) := {
  world : W;
  icsvm : ICSVM.t;
  calls : list Call
}.

Arguments world {W}. Arguments icsvm {W}. Arguments calls {W}.

Definition M (W A : Type) : Type := Ctx W -> A * Ctx W.

Definition ret {W A} (a : A) : M W A := fun s => (a, s).

Definition bind {W A B} (m : M W A) (k : A -> M W B) : M W B :=
  fun s => let (a, s') := m s in k a s'.

Declare Scope pass_scope.
Delimit Scope pass_scope with pass.
Notation "x <- m ;; k" := (bind m (fun x => k))
  (at level 100, m at next level, right associativity) : pass_scope.
Notation "m ;;; k" := (bind m (fun _ => k))
  (at level 100, right associativity) : pass_scope.

(** Reading and writing the resource. *)
Definition getICSVM {W} : M W ICSVM.t := fun s => (icsvm s, s).

Definition modifyICSVM {W} (f : ICSVM.t -> ICSVM.t) : M W unit :=
  fun s => (tt, {| world := world s; icsvm := f (icsvm s); calls := calls s |}).

(** A call to a collaborator: logged, answered, and the collaborator's
    state moved on. *)
Definition call {W A} (c : Call) (op : W -> A * W) : M W A :=
  fun s => let (a, w) := op (world s) in
           (a, {| world := w; icsvm := icsvm s; calls := calls s ++ [c] |}).

(** A line in the log that reaches no collaborator in this pass. *)
Definition note {W} (c : Call) : M W unit :=
  fun s => (tt, {| world := world s; icsvm := icsvm s; calls := calls s ++ [c] |}).

(** [defer d] ahead of [body]: [d] runs when [body] returns. *)
Definition defer {W A} (d : M W unit) (body : M W A) : M W A :=
  bind body (fun r => bind d (fun _ => ret r)).


(** ** The VM service, [service.go] *)

Section VMService.
Context {W : Type} (P : Platform W).
Local Open Scope pass_scope.

Definition ctxString : M W FmtArg :=
  v <- getICSVM ;; ret (ArgContext (ICSVM.String v)).

(** Modelled from the spec: [reconcileInFlightTask] is a helper of the
    package defined outside [service.go]. Task Guard: no stored reference, not in flight; a
    reference whose task the platform reports complete (or no longer knows)
    is cleared, a failure recorded, and the pass proceeds; a reference whose
    task is pending is in flight, and nothing is written. *)
Definition reconcileInFlightTask : M W (bool * option error) :=
  v <- getICSVM ;;
  if String.eqb (ICSVM.TaskRef v) "" then ret (false, None)
  else
    t <- call (CallGetTask (ICSVM.TaskRef v)) (getTask P (ICSVM.TaskRef v)) ;;
    match t with
    | TaskPending => ret (true, None)
    | TaskGone | TaskSucceeded =>
        modifyICSVM (ICSVM.with_TaskRef "") ;;; ret (false, None)
    | TaskFailed msg =>
        modifyICSVM (ICSVM.with_TaskRef "") ;;;
        modifyICSVM (fun v => ICSVM.with_Conditions (msg :: ICSVM.Conditions v) v) ;;;
        ret (false, None)
    end.

(** Modelled from the spec: [reconcileICSVMOnTaskCompletion] is a helper of
    the package defined outside [service.go]. Completion Notifier: interest is registered
    in the stored task, without waiting; with no task stored it does
    nothing. *)
Definition reconcileICSVMOnTaskCompletion : M W unit :=
  v <- getICSVM ;;
  if String.eqb (ICSVM.TaskRef v) "" then ret tt
  else note (WatchTask (ICSVM.TaskRef v)).

(** Modelled from the spec: [reconcileICSVMWhenNetworkIsReady] is a helper
    of the package defined outside [service.go]: a second, independent
    waiter is armed. *)
Definition reconcileICSVMWhenNetworkIsReady (task : Task) : M W unit :=
  note (WatchNetwork (TaskId task)).

Definition getBootstrapData : M W (string * option error) :=
  v <- getICSVM ;;
  match ICSVM.BootstrapRef v with
  | None =>
      ret (""%string,
           Some (New "error retrieving bootstrap data: linked icsvm's bootstrapRef is nil"))
  | Some ref =>
      r <- call (CallSecretGet (RefNamespace ref) (RefName ref))
                (ClientGet P (RefNamespace ref) (RefName ref)) ;;
      match r with
      | inr err =>
          c <- ctxString ;;
          ret (""%string,
               Some (Wrapf err "failed to retrieve bootstrap data secret for %s" [c]))
      | inl secret =>
          match Data secret !! "value"%string with
          | None =>
              ret (""%string,
                   Some (New "error retrieving bootstrap data: secret value key is missing"))
          | Some value => ret (Base64.EncodeToString value, None)
          end
      end
  end.

Definition getNetworkStatus (ref : ManagedObjectReference)
  : M W (list NetworkStatus * option error) :=
  v <- getICSVM ;;
  r <- call (CallGetNetworkStatus (Value ref)) (GetNetworkStatus P v ref) ;;
  match r with
  | inr err => ret ([], Some err)
  | inl allNetStatus =>
      ret (map (fun s => {| Connected := Connected s;
                            IPAddrs := sanitizeIPAddrs P v (IPAddrs s);
                            MACAddr := MACAddr s;
                            NetworkName := NetworkName s |}) allNetStatus,
           None)
  end.

Definition getPowerState (ref : ManagedObjectReference)
  : M W (VirtualMachinePowerState * option error) :=
  r <- call (CallGetVM (Value ref)) (GetVM P (Value ref)) ;;
  match r with
  | inr err => ret (PowerStateEmpty, Some err)
  | inl vmObj =>
      if String.eqb (Status vmObj) "STARTED" then
        ret (VirtualMachinePowerStatePoweredOn, None)
      else if String.eqb (Status vmObj) "STOPPED" then
        ret (VirtualMachinePowerStatePoweredOff, None)
      else if String.eqb (Status vmObj) "PAUSED" then
        ret (VirtualMachinePowerStateSuspended, None)
      else if String.eqb (Status vmObj) "RESTARTING" then
        ret (VirtualMachinePowerStateSuspended, None)
      else if String.eqb (Status vmObj) "PENDING" then
        ret (VirtualMachinePowerStateSuspended, None)
      else
        c <- ctxString ;;
        ret (PowerStateEmpty,
             Some (Errorf "unexpected power state %q for vm %s"
                          [ArgString (Status vmObj); c]))
  end.

Definition reconcileUUID (ref : ManagedObjectReference) (vm : VirtualMachine.t)
  : M W VirtualMachine.t :=
  r <- call (CallGetVM (Value ref)) (GetVM P (Value ref)) ;;
  match r with
  | inr _ => ret vm
  | inl o => ret (VirtualMachine.with_IDs (ID o) (UUID o) vm)
  end.

Definition reconcileNetworkStatus (ref : ManagedObjectReference)
    (vm : VirtualMachine.t) : M W (VirtualMachine.t * option error) :=
  r <- getNetworkStatus ref ;;
  match r with
  | (_, Some err) => ret (vm, Some err)
  | (netStatus, None) =>
      let vm' := VirtualMachine.with_Network netStatus vm in
      match netStatus with
      | s0 :: _ =>
          v <- getICSVM ;;
          match ICSVM.Addresses v, IPAddrs s0 with
          | None, Some _ =>
              modifyICSVM (fun v => UpdateNetworkInfo P v netStatus) ;;;
              v' <- getICSVM ;;
              if IsControlPlaneMachine P v'
              then _ <- call CallPatch (Patch P v') ;; ret (vm', None)
              else ret (vm', None)
          | _, _ => ret (vm', None)
          end
      | [] => ret (vm', None)
      end
  end.

Definition reconcilePowerState (ref : ManagedObjectReference)
  : M W (bool * option error) :=
  r <- getPowerState ref ;;
  match r with
  | (_, Some err) => ret (false, Some err)
  | (powerState, None) =>
      match powerState with
      | VirtualMachinePowerStatePoweredOff =>
          rv <- call (CallGetVM (Value ref)) (GetVM P (Value ref)) ;;
          match rv with
          | inr _ => ret (false, None)
          | inl vm =>
              rh <- call (CallGetHost (HostID vm)) (GetHost P (HostID vm)) ;;
              match rh with
              | inr _ => ret (false, None)
              | inl host =>
                  if (MemoryInByte vm >=? FreeMemoryInByte host)
                     || (MemoryInByte vm >=? LogicFreeMemoryInByte host)
                  then ret (false, Some (New PoweringOnFailedReason))
                  else
                    rt <- call (CallPowerOnVM (Value ref))
                               (PowerOnVM P (Value ref)) ;;
                    match rt with
                    | inr err =>
                        c <- ctxString ;;
                        ret (false,
                             Some (Wrapf err
                                     "failed to trigger power on op for vm %s" [c]))
                    | inl task =>
                        modifyICSVM (ICSVM.with_TaskRef (TaskId task)) ;;;
                        reconcileICSVMWhenNetworkIsReady task ;;;
                        ti <- call (CallWaitForResult (TaskId task))
                                   (WaitForResult P task) ;;
                        match fst ti with
                        | Some taskInfo =>
                            if String.eqb (TaskState taskInfo) "ERROR"
                            then ret (false, Some (New PoweringOnFailedReason))
                            else ret (false, None)
                        | None => ret (false, None)
                        end
                    end
              end
          end
      | VirtualMachinePowerStatePoweredOn => ret (true, None)
      | _ =>
          c <- ctxString ;;
          ret (false,
               Some (Errorf "unexpected power state %q for vm %s"
                            [ArgPowerState powerState; c]))
      end
  end.

(** [err != nil] *)
Definition notNil (e : option error) : bool :=
  match e with Some _ => true | None => false end.

(** The result a pass starts from. *)
Definition initialVM : M W VirtualMachine.t :=
  v <- getICSVM ;;
  ret {| VirtualMachine.Name := ICSVM.Name v;
         VirtualMachine.BiosUUID := "";
         VirtualMachine.UID := "";
         VirtualMachine.State := VirtualMachineStatePending;
         VirtualMachine.Network := [] |}.

Definition ReconcileVM : M W (VirtualMachine.t * option error) :=
  vm <- initialVM ;;
  g <- reconcileInFlightTask ;;
  if notNil (snd g) || fst g then ret (vm, snd g)
  else
    defer reconcileICSVMOnTaskCompletion (
      v <- getICSVM ;;
      f <- call CallFindVM (findVM P v) ;;
      match f with
      | inr _ =>
          b <- getBootstrapData ;;
          match b with
          | (_, Some err) => ret (vm, Some err)
          | (metadata, None) =>
              match Base64.DecodeString metadata with
              | inr e => ret (vm, Some (Base64Error e))
              | inl metadataBytes =>
                  v <- getICSVM ;;
                  e <- call (CallCreateVM (string_of_list_byte metadataBytes))
                            (CreateVM P v (string_of_list_byte metadataBytes)) ;;
                  ret (vm, e)
              end
          end
      | inl vmRef =>
          vm <- reconcileUUID vmRef vm ;;
          n <- reconcileNetworkStatus vmRef vm ;;
          match n with
          | (vm, Some err) => ret (vm, Some err)
          | (vm, None) =>
              p <- reconcilePowerState vmRef ;;
              if notNil (snd p) || negb (fst p)
              then ret (vm, snd p)
              else ret (VirtualMachine.with_State VirtualMachineStateReady vm, None)
          end
      end).

Definition DestroyVM (session : Session) : M W (VirtualMachine.t * option error) :=
  vm <- initialVM ;;
  g <- reconcileInFlightTask ;;
  if notNil (snd g) || fst g then ret (vm, snd g)
  else
    defer reconcileICSVMOnTaskCompletion (
      v <- getICSVM ;;
      f <- call CallFindVM (findVM P v) ;;
      match f with
      | inr err =>
          if isNotFound P err
          then ret (VirtualMachine.with_State VirtualMachineStateNotFound vm, None)
          else ret (vm, Some err)
      | inl vmRef =>
          p <- getPowerState vmRef ;;
          match p with
          | (_, Some err) => ret (vm, Some err)
          | (powerState, None) =>
              match powerState with
              | VirtualMachinePowerStatePoweredOn =>
                  t <- call (CallPowerOffVM (Value vmRef))
                            (PowerOffVM P (Value vmRef)) ;;
                  match t with
                  | inr err => ret (vm, Some err)
                  | inl task =>
                      modifyICSVM (ICSVM.with_TaskRef (TaskId task)) ;;;
                      ret (vm, None)
                  end
              | _ =>
                  t <- call (CallDeleteVM (Value vmRef) true true (Password session))
                            (DeleteVMWithCheckParams P (Value vmRef) true true
                               (Password session)) ;;
                  match t with
                  | inr err => ret (vm, Some err)
                  | inl task =>
                      modifyICSVM (ICSVM.with_TaskRef (TaskId task)) ;;;
                      ret (vm, None)
                  end
              end
          end
      end).

End VMService.

(** A pass starts with an empty log. *)
Definition startPass {W} (w : W) (v : ICSVM.t) : Ctx W :=
  {| world := w; icsvm := v; calls := [] |}.

(** The calls that change the platform: create, power on, power off and
    delete. *)
Definition isMutation (c : Call) : bool :=
  match c with
  | CallCreateVM _ | CallPowerOnVM _ | CallPowerOffVM _
  | CallDeleteVM _ _ _ _ => true
  | _ => false
  end.

Definition mutations (log : list Call) : list Call := List.filter isMutation log.

Definition isDelete (c : Call) : bool :=
  match c with CallDeleteVM _ _ _ _ => true | _ => false end.

Section Passes.
Context {W : Type} (P : Platform W).

(** The pass from [s0] is not held back by the task guard and the probe
    finds the remote VM: [s] is the state in which its power state is read
    next. *)
Definition findsVM (s0 : Ctx W) (ref : ManagedObjectReference) (s : Ctx W)
  : Prop :=
  exists s1 w2,
    reconcileInFlightTask P s0 = ((false, None), s1) /\
    findVM P (icsvm s1) (world s1) = (inl ref, w2) /\
    s = {| world := w2; icsvm := icsvm s1; calls := calls s1 ++ [CallFindVM] |}.

(** The pass from [s0] is not held back by the task guard and the probe
    fails with [err]: [s] is the state after the probe. *)
Definition missesVM (s0 : Ctx W) (err : error) (s : Ctx W) : Prop :=
  exists s1 w2,
    reconcileInFlightTask P s0 = ((false, None), s1) /\
    findVM P (icsvm s1) (world s1) = (inr err, w2) /\
    s = {| world := w2; icsvm := icsvm s1; calls := calls s1 ++ [CallFindVM] |}.

(** A [ReconcileVM] pass from [s0] finds the VM and gets through the identity
    and network syncs: [s] is the state at the power sync, [vm] the result so
    far. *)
Definition reachesPowerSync (s0 : Ctx W) (ref : ManagedObjectReference)
    (vm : VirtualMachine.t) (s : Ctx W) : Prop :=
  exists s2 vm1 s3,
    findsVM s0 ref s2 /\
    reconcileUUID P ref (fst (initialVM s0)) s2 = (vm1, s3) /\
    reconcileNetworkStatus P ref vm1 s3 = ((vm, None), s).

End Passes.

(** The remote states that [getPowerState] maps to Suspended, and the ones
    it knows at all. *)
Definition transitional (status : string) : bool :=
  String.eqb status "PAUSED" || String.eqb status "RESTARTING"
  || String.eqb status "PENDING".

Definition recognized (status : string) : bool :=
  String.eqb status "STARTED" || String.eqb status "STOPPED"
  || transitional status.

(** The outcome of a pass that the task guard stopped: phase Pending, no
    error, the resource [v] as it was, and the query of the task the only
    call. *)
Definition shortCircuited {W} (v : ICSVM.t)
    (r : VirtualMachine.t * option error * Ctx W) : Prop :=
  VirtualMachine.State (fst (fst r)) = VirtualMachineStatePending /\
  snd (fst r) = None /\
  icsvm (snd r) = v /\
  calls (snd r) = [CallGetTask (ICSVM.TaskRef v)].

(** ** A scripted platform, for running passes on concrete inputs *)

Module Fake.

Record Script := {
  task : TaskProbe;
  find : ManagedObjectReference + error;
  notFound : error -> bool;
  secret : Secret + error;
  create : option error;
  vms : list (VMObject + error);     (* the answers of successive GetVM calls *)
  host : Host + error;
  powerOn : Task + error;
  powerOff : Task + error;
  delete : Task + error;
  wait : option TaskInfo * option error;
  net : list NetworkStatus + error
}.

(** The state of the scripted platform is the number of [GetVM] calls it
    has answered; past the end of [vms] the last answer repeats. *)
Definition platform (sc : Script) : Platform nat :=
  {| getTask := fun _ n => (task sc, n);
     findVM := fun _ n => (find sc, n);
     isNotFound := notFound sc;
     ClientGet := fun _ _ n => (secret sc, n);
     CreateVM := fun _ _ n => (create sc, n);
     GetVM := fun _ n =>
       (nth n (vms sc) (List.last (vms sc) (inr (External "no such vm"))), S n);
     GetHost := fun _ n => (host sc, n);
     PowerOnVM := fun _ n => (powerOn sc, n);
     PowerOffVM := fun _ n => (powerOff sc, n);
     DeleteVMWithCheckParams := fun _ _ _ _ n => (delete sc, n);
     WaitForResult := fun _ n => (wait sc, n);
     GetNetworkStatus := fun _ _ n => (net sc, n);
     sanitizeIPAddrs := fun _ a => a;
     UpdateNetworkInfo := fun v _ => v;
     IsControlPlaneMachine := fun _ => false;
     Patch := fun _ n => (None, n) |}.

Definition isErrNotFound (e : error) : bool :=
  match e with External "not found" => true | _ => false end.

Definition vmObject (status : string) (memory : Z) : VMObject :=
  {| ID := "vm-8"; UUID := "4c4c4544"; Status := status; HostID := "host-1";
     MemoryInByte := memory |}.

Definition script : Script :=
  {| task := TaskPending;
     find := inl {| Value := "vm-8" |};
     notFound := isErrNotFound;
     secret := inl {| Data := {[ "value"%string := [x68; x69] ]} |};
     create := None;
     vms := [inl (vmObject "STOPPED" 4096)];
     host := inl {| FreeMemoryInByte := 8192; LogicFreeMemoryInByte := 8192 |};
     powerOn := inl {| TaskId := "task-on" |};
     powerOff := inl {| TaskId := "task-off" |};
     delete := inl {| TaskId := "task-del" |};
     wait := (Some {| TaskState := "RUNNING"; TaskError := "" |}, None);
     net := inl [] |}.

Definition with_find (f : ManagedObjectReference + error) (sc : Script) :=
  {| task := task sc; find := f; notFound := notFound sc; secret := secret sc;
     create := create sc; vms := vms sc; host := host sc;
     powerOn := powerOn sc; powerOff := powerOff sc; delete := delete sc;
     wait := wait sc; net := net sc |}.

Definition with_secret (x : Secret + error) (sc : Script) :=
  {| task := task sc; find := find sc; notFound := notFound sc; secret := x;
     create := create sc; vms := vms sc; host := host sc;
     powerOn := powerOn sc; powerOff := powerOff sc; delete := delete sc;
     wait := wait sc; net := net sc |}.

Definition with_vms (x : list (VMObject + error)) (sc : Script) :=
  {| task := task sc; find := find sc; notFound := notFound sc;
     secret := secret sc; create := create sc; vms := x; host := host sc;
     powerOn := powerOn sc; powerOff := powerOff sc; delete := delete sc;
     wait := wait sc; net := net sc |}.

Definition with_host (x : Host + error) (sc : Script) :=
  {| task := task sc; find := find sc; notFound := notFound sc;
     secret := secret sc; create := create sc; vms := vms sc; host := x;
     powerOn := powerOn sc; powerOff := powerOff sc; delete := delete sc;
     wait := wait sc; net := net sc |}.

Definition with_powerOff (x : Task + error) (sc : Script) :=
  {| task := task sc; find := find sc; notFound := notFound sc;
     secret := secret sc; create := create sc; vms := vms sc; host := host sc;
     powerOn := powerOn sc; powerOff := x; delete := delete sc;
     wait := wait sc; net := net sc |}.

(** A resource with a bootstrap reference and no task stored, and the same
    resource with a task stored. *)
Definition machine : ICSVM.t :=
  {| ICSVM.GroupVersionKind := "infrastructure.cluster.x-k8s.io/v1beta1, Kind=ICSVM";
     ICSVM.Namespace := "default";
     ICSVM.Name := "worker-0";
     ICSVM.BootstrapRef := Some {| RefNamespace := "default"; RefName := "worker-0-boot" |};
     ICSVM.TaskRef := "";
     ICSVM.Addresses := None;
     ICSVM.Network := [];
     ICSVM.Conditions := [] |}.

Definition busyMachine : ICSVM.t := ICSVM.with_TaskRef "task-7" machine.

Definition bareMachine : ICSVM.t :=
  {| ICSVM.GroupVersionKind := ICSVM.GroupVersionKind machine;
     ICSVM.Namespace := "default";
     ICSVM.Name := "worker-0";
     ICSVM.BootstrapRef := None;
     ICSVM.TaskRef := "";
     ICSVM.Addresses := None;
     ICSVM.Network := [];
     ICSVM.Conditions := [] |}.

Definition session : Session := {| Password := "s3cret" |}.

(** Where a [ReconcileVM] pass on [machine] stands at the power sync, after
    the probe and the identity and network syncs. *)
Definition syncedVM : VirtualMachine.t :=
  {| VirtualMachine.Name := "worker-0";
     VirtualMachine.BiosUUID := "4c4c4544";
     VirtualMachine.UID := "vm-8";
     VirtualMachine.State := VirtualMachineStatePending;
     VirtualMachine.Network := [] |}.

Definition atPowerSync : Ctx nat :=
  {| world := 1%nat; icsvm := machine;
     calls := [CallFindVM; CallGetVM "vm-8"; CallGetNetworkStatus "vm-8"] |}.

(** Where a pass on [v] stands after the probe. *)
Definition afterProbe (v : ICSVM.t) : Ctx nat :=
  {| world := 0%nat; icsvm := v; calls := [CallFindVM] |}.

Definition vm8 : ManagedObjectReference := {| Value := "vm-8" |}.

Definition pendingVM : VirtualMachine.t :=
  {| VirtualMachine.Name := "worker-0";
     VirtualMachine.BiosUUID := "";
     VirtualMachine.UID := "";
     VirtualMachine.State := VirtualMachineStatePending;
     VirtualMachine.Network := [] |}.

Definition machineString : string :=
  "infrastructure.cluster.x-k8s.io/v1beta1, Kind=ICSVM default/worker-0".

End Fake.

(** ** The discovery poller of the cluster controller *)

Module Poller.

Definition UID := string.

(** What [ctx.Client.Get] answers for the cluster object. *)
Inductive GetResult := GetOk | GetNotFound | GetFailed.

(** What a goroutine sees of the outside when it takes a step. *)
Record Observation := {
  kubeClientOk : bool;        (* NewKubeClient returns no error *)
  nodesListOk : bool;         (* Nodes().List returns no error *)
  clusterGet : GetResult;     (* ctx.Client.Get of the cluster *)
  ctxInitialized : bool       (* conditions.IsTrue(ctx.Cluster, ControlPlaneInitialized) *)
}.

Definition isAPIServerOnline (o : Observation) : bool :=
  kubeClientOk o && nodesListOk o.

Definition isControlPlaneInitialized (o : Observation) : bool :=
  match clusterGet o with
  | GetFailed => false
  | GetNotFound => true
  | GetOk => ctxInitialized o
  end.

(** Where the goroutine of [reconcileICSClusterWhenAPIServerIsOnline] stands.
    [Unregister] remembers the observation that ended the second poll. *)
Inductive Location :=
  | PollAPIServer
  | SendEvent
  | PollInitialized
  | Unregister (seen : Observation).

(** The registry [apiServerTriggers], the running goroutines and the events
    sent so far. A section under [apiServerTriggersMu] is one step. *)
Record System := {
  apiServerTriggers : gset UID;
  goroutines : list (UID * Location);
  events : list UID
}.

Definition initial : System :=
  {| apiServerTriggers := ∅; goroutines := []; events := [] |}.

(** The body of [reconcileICSClusterWhenAPIServerIsOnline] up to and
    including the [go] statement; [initialized] is the condition on
    [ctx.Cluster] at the call. *)
Definition reconcileICSClusterWhenAPIServerIsOnline
    (uid : UID) (initialized : bool) (s : System) : System :=
  if initialized then s
  else if decide (uid ∈ apiServerTriggers s) then s
  else {| apiServerTriggers := {[uid]} ∪ apiServerTriggers s;
          goroutines := goroutines s ++ [(uid, PollAPIServer)];
          events := events s |}.

Definition moveTo (i : nat) (uid : UID) (l : Location) (s : System) : System :=
  {| apiServerTriggers := apiServerTriggers s;
     goroutines := <[i := (uid, l)]> (goroutines s);
     events := events s |}.

(** One step of the goroutine at index [i]: a round of a poll, the send on
    the event channel, or the locked [delete]. *)
Definition runGoroutine (i : nat) (o : Observation) (s : System)
  : option System :=
  match goroutines s !! i with
  | None => None
  | Some (uid, PollAPIServer) =>
      Some (if isAPIServerOnline o then moveTo i uid SendEvent s else s)
  | Some (uid, SendEvent) =>
      Some {| apiServerTriggers := apiServerTriggers s;
              goroutines := <[i := (uid, PollInitialized)]> (goroutines s);
              events := events s ++ [uid] |}
  | Some (uid, PollInitialized) =>
      Some (if isControlPlaneInitialized o then moveTo i uid (Unregister o) s
            else s)
  | Some (uid, Unregister _) =>
      Some {| apiServerTriggers := apiServerTriggers s ∖ {[uid]};
              goroutines := delete i (goroutines s);
              events := events s |}
  end.

Inductive Action :=
  | Start (uid : UID) (initialized : bool)
  | Run (i : nat) (o : Observation).

Definition exec (a : Action) (s : System) : option System :=
  match a with
  | Start uid initialized =>
      Some (reconcileICSClusterWhenAPIServerIsOnline uid initialized s)
  | Run i o => runGoroutine i o s
  end.

Fixpoint execAll (acts : list Action) (s : System) : option System :=
  match acts with
  | [] => Some s
  | a :: acts' =>
      match exec a s with
      | Some s' => execAll acts' s'
      | None => None
      end
  end.

Definition reachable (s : System) : Prop :=
  exists acts, execAll acts initial = Some s.

(** The pollers running for a cluster. *)
Definition pollersOf (uid : UID) (s : System) : list (UID * Location) :=
  List.filter (fun g => String.eqb (fst g) uid) (goroutines s).

Definition registered (uid : UID) (s : System) : bool :=
  bool_decide (uid ∈ apiServerTriggers s).

(** What keeps the registry and the goroutines in step: no two goroutines
    for one cluster, a registry entry exactly for the clusters with a
    goroutine, and a goroutine about to unregister has seen its second poll
    answer true. *)
Definition consistent (s : System) : Prop :=
  NoDup (goroutines s).*1 /\
  (forall uid, uid ∈ apiServerTriggers s <-> uid ∈ (goroutines s).*1) /\
  (forall i uid o, goroutines s !! i = Some (uid, Unregister o) ->
                   isControlPlaneInitialized o = true).

(** One cluster with its poller just started. *)
Definition polling : System :=
  reconcileICSClusterWhenAPIServerIsOnline "c1" false initial.

(** An observation of a cluster that is gone while the context's copy
    still lacks the condition. *)
Definition clusterGone : Observation :=
  {| kubeClientOk := true; nodesListOk := true;
     clusterGet := GetNotFound; ctxInitialized := false |}.

End Poller.

(** ** Counting what a run of the controller did *)

Module PollerRuns.
Import Poller.

(** The calls of [reconcileICSClusterWhenAPIServerIsOnline] for [uid], among
    the actions of a run, made while the cluster was not yet initialized. *)
Definition startsOf (uid : UID) (acts : list Action) : nat :=
  length (List.filter
            (fun a => match a with
                      | Start u initialized =>
                          String.eqb u uid && negb initialized
                      | Run _ _ => false
                      end) acts).

(** The events sent for [uid]. *)
Definition eventsOf (uid : UID) (s : System) : nat :=
  length (List.filter (String.eqb uid) (events s)).

(** The goroutines of [uid] that have not sent their event yet. *)
Definition unsent (uid : UID) (g : UID * Location) : bool :=
  String.eqb (fst g) uid &&
  match snd g with
  | PollAPIServer | SendEvent => true
  | _ => false
  end.

Definition toSend (uid : UID) (s : System) : nat :=
  length (List.filter (unsent uid) (goroutines s)).


(** An observation of a workload cluster that is up and initialized. *)
Definition settled : Observation :=
  {| kubeClientOk := true; nodesListOk := true;
     clusterGet := GetOk; ctxInitialized := true |}.

End PollerRuns.

(** ** The cluster controller: endpoint discovery and deletion *)

Module ClusterController.

(** [clusterv1.APIEndpoint] and its [IsZero]. *)
Record APIEndpoint := { Host : string; Port : Z }.

Definition IsZero (e : APIEndpoint) : bool :=
  String.eqb (Host e) "" && (Port e =? 0).

Definition defaultAPIEndpointPort : Z := 6443.

(** What [GetMachinePreferredIPAddress] answers for a machine. *)
Inductive PreferredIP :=
  | IPAddress (ip : string)
  | ErrNoMachineIPAddr
  | IPError (e : error).

Record ICSMachine := {
  ICSMachineGVK : string;
  ICSMachineNamespace : string;
  ICSMachineName : string;
  preferredIP : PreferredIP
}.

(** A CAPI machine of the cluster, with what the helpers answer for it. *)
Record Machine := {
  MachineGVK : string;
  MachineNamespace : string;
  MachineName : string;
  controlPlane : bool;                     (* clusterutilv1.IsControlPlaneMachine *)
  DataSecretName : option string;          (* Spec.Bootstrap.DataSecretName *)
  icsMachine : ICSMachine + error          (* infrautilv1.GetICSMachineByName *)
}.

(** The part of [ClusterContext] that the endpoint discovery reads. *)
Record ClusterView := {
  ClusterUID : string;
  ClusterInitialized : bool;               (* ControlPlaneInitialized on ctx.Cluster *)
  ClusterEndpoint : APIEndpoint;           (* Cluster.Spec.ControlPlaneEndpoint *)
  ICSClusterNamespace : string;
  ICSClusterName : string;
  ContextString : string                   (* ctx.String() *)
}.

(** How the loop over the machines ends. *)
Inductive Discovery :=
  | Discovered (e : APIEndpoint)
  | Failed (err : error)
  | Undetermined.

(** The loop of [reconcileControlPlaneEndpoint] over the cluster's machines. *)
Fixpoint discover (machines : list Machine) : Discovery :=
  match machines with
  | [] => Undetermined
  | machine :: rest =>
      if negb (controlPlane machine) then discover rest
      else match DataSecretName machine with
           | None => discover rest
           | Some _ =>
               match icsMachine machine with
               | inr err =>
                   Failed (Wrapf err "failed to get ICSMachine for Machine %s/%s/%s"
                             [ArgString (MachineGVK machine);
                              ArgString (MachineNamespace machine);
                              ArgString (MachineName machine)])
               | inl m =>
                   match preferredIP m with
                   | IPAddress ipAddr =>
                       Discovered {| Host := ipAddr;
                                     Port := defaultAPIEndpointPort |}
                   | ErrNoMachineIPAddr => discover rest
                   | IPError err =>
                       Failed (Wrapf err
                                 "failed to get preferred IP address for ICSMachine %s %s/%s"
                                 [ArgString (ICSMachineGVK m);
                                  ArgString (ICSMachineNamespace m);
                                  ArgString (ICSMachineName m)])
                   end
               end
           end
  end.

(** [reconcileControlPlaneEndpoint]: from the endpoint of the ICSCluster and
    the answer of [GetMachinesInCluster], the result, the endpoint of the
    ICSCluster afterwards, and the pollers after the deferred
    [reconcileICSClusterWhenAPIServerIsOnline]. *)
Definition reconcileControlPlaneEndpoint (c : ClusterView)
    (endpoint : APIEndpoint) (machines : list Machine + error)
    (pollers : Poller.System)
  : (bool * option error) * APIEndpoint * Poller.System :=
  let pollers' :=
    Poller.reconcileICSClusterWhenAPIServerIsOnline
      (ClusterUID c) (ClusterInitialized c) pollers in
  if negb (IsZero (ClusterEndpoint c)) then
    ((true, None),
     {| Host := Host (ClusterEndpoint c); Port := Port (ClusterEndpoint c) |},
     pollers')
  else if negb (IsZero endpoint) then ((true, None), endpoint, pollers')
  else
    match machines with
    | inr err =>
        ((false,
          Some (Wrapf err "failed to get Machinces for Cluster %s/%s"
                  [ArgString (ICSClusterNamespace c);
                   ArgString (ICSClusterName c)])),
         endpoint, pollers')
    | inl ms =>
        match discover ms with
        | Discovered apiEndpoint => ((true, None), apiEndpoint, pollers')
        | Failed err => ((false, Some err), endpoint, pollers')
        | Undetermined =>
            ((false,
              Some (Errorf "unable to determine control plane endpoint for %s"
                      [ArgContext (ContextString c)])),
             endpoint, pollers')
        end
    end.

(** A machine that the loop passes over. *)
Definition passedOver (machine : Machine) : bool :=
  negb (controlPlane machine)
  || match DataSecretName machine with
     | None => true
     | Some _ =>
         match icsMachine machine with
         | inl m => match preferredIP m with
                    | ErrNoMachineIPAddr => true
                    | _ => false
                    end
         | inr _ => false
         end
     end.

(** *** [reconcileDelete] *)

(** An ICSMachine of the cluster, with what the API server answers when it
    is updated and deleted. *)
Record ClusterMachine := {
  ownedByCluster : bool;          (* clusterutilv1.IsOwnedByObject(m, ICSCluster) *)
  ownerReferences : nat;          (* len(m.OwnerReferences) *)
  updateAnswer : option error;    (* r.Client.Update *)
  deleteAnswer : option error     (* r.Client.Delete *)
}.

Definition orphan (m : ClusterMachine) : bool :=
  ownedByCluster m && Nat.eqb (ownerReferences m) 1.

Inductive ReconcileError :=
  | Plain (e : error)
  | Aggregate (es : list error).      (* kerrors.NewAggregate *)

(** What was asked of the API server, by position of the machine in the
    list. *)
Inductive Request :=
  | UpdateMachine (i : nat)
  | DeleteMachine (i : nat).

Record Loop := {
  machineDeletionCount : nat;
  deletionErrors : list error;
  requests : list Request
}.

(** The loop of [reconcileDelete]: [inr] when an update fails and the
    function returns from inside the loop. *)
Fixpoint deleteOrphans (IsNotFound : error -> bool)
    (machines : list ClusterMachine) (i : nat) (acc : Loop)
  : Loop + (error * list Request) :=
  match machines with
  | [] => inl acc
  | m :: rest =>
      if orphan m then
        match updateAnswer m with
        | Some err => inr (err, requests acc ++ [UpdateMachine i])
        | None =>
            let errs :=
              match deleteAnswer m with
              | Some err =>
                  if IsNotFound err then deletionErrors acc
                  else deletionErrors acc ++ [err]
              | None => deletionErrors acc
              end in
            deleteOrphans IsNotFound rest (S i)
              {| machineDeletionCount := S (machineDeletionCount acc);
                 deletionErrors := errs;
                 requests := requests acc ++ [UpdateMachine i; DeleteMachine i] |}
        end
      else deleteOrphans IsNotFound rest (S i) acc
  end.

Record DeleteResult := {
  RequeueAfter : Z;                    (* seconds; 0 for no requeue *)
  returned : option ReconcileError;
  finalizerRemoved : bool;             (* ClusterFinalizer taken off the ICSCluster *)
  asked : list Request
}.

Definition reconcileDelete (IsNotFound : error -> bool) (c : ClusterView)
    (machines : list ClusterMachine + error) : DeleteResult :=
  match machines with
  | inr err =>
      {| RequeueAfter := 0;
         returned :=
           Some (Plain (Wrapf err "unable to list ICSMachines part of ICSCluster %s/%s"
                          [ArgString (ICSClusterNamespace c);
                           ArgString (ICSClusterName c)]));
         finalizerRemoved := false; asked := [] |}
  | inl icsMachines =>
      match deleteOrphans IsNotFound icsMachines 0
              {| machineDeletionCount := 0; deletionErrors := [];
                 requests := [] |} with
      | inr (err, reqs) =>
          {| RequeueAfter := 0; returned := Some (Plain err);
             finalizerRemoved := false; asked := reqs |}
      | inl loop =>
          if (0 <? length (deletionErrors loop))%nat then
            {| RequeueAfter := 0;
               returned := Some (Aggregate (deletionErrors loop));
               finalizerRemoved := false; asked := requests loop |}
          else if (0 <? length icsMachines - machineDeletionCount loop)%nat then
            {| RequeueAfter := 10; returned := None;
               finalizerRemoved := false; asked := requests loop |}
          else
            {| RequeueAfter := 0; returned := None;
               finalizerRemoved := true; asked := requests loop |}
      end
  end.

(** The delete failures that the loop collects: those of the orphans, but
    for the ones that say the machine is gone already. *)
Definition failures (IsNotFound : error -> bool)
    (machines : list ClusterMachine) : list error :=
  flat_map (fun m =>
              if orphan m then
                match deleteAnswer m with
                | Some err => if IsNotFound err then [] else [err]
                | None => []
                end
              else []) machines.

(** The requests for the orphans of a list whose first machine stands at
    position [i]. *)
Fixpoint requestsFor (machines : list ClusterMachine) (i : nat) : list Request :=
  match machines with
  | [] => []
  | m :: rest =>
      (if orphan m then [UpdateMachine i; DeleteMachine i] else [])
      ++ requestsFor rest (S i)
  end.

(** A machine that does not stop the loop: not an orphan, or an orphan
    whose update goes through. *)
Definition updatable (m : ClusterMachine) : bool :=
  negb (orphan m) || match updateAnswer m with None => true | Some _ => false end.

(** A machine whose deletion this pass completes: an orphan whose update
    goes through and whose delete succeeds or finds it gone already. *)
Definition disposed (IsNotFound : error -> bool) (m : ClusterMachine) : bool :=
  orphan m
  && match updateAnswer m with None => true | Some _ => false end
  && match deleteAnswer m with
     | None => true
     | Some err => IsNotFound err
     end.

End ClusterController.

(** ** The identity package and [reconcileNormal] *)

Module Identity.

Definition CloudsSecretKey : string := "clouds.yaml".
Definition CaSecretKey : string := "cacert".

(** [basev1.ICenter]: the fields that the controller reads or writes. *)
Record ICenter := {
  ICenterURL : string;
  Username : string;                       (* AuthInfo.Username *)
  Password : string;                       (* AuthInfo.Password *)
  CACertFile : string;
  Verify : option bool                     (* *bool *)
}.

(** [basev1.ICenter{}] *)
Definition emptyCloud : ICenter :=
  {| ICenterURL := ""; Username := ""; Password := ""; CACertFile := "";
     Verify := None |}.

Definition withCACert (caCert : list byte) (c : ICenter) : ICenter :=
  {| ICenterURL := ICenterURL c; Username := Username c;
     Password := Password c; CACertFile := string_of_list_byte caCert;
     Verify := Some true |}.

Record ICSIdentityReference := { Kind : string; Name : string }.

Record ICSCluster := {
  Namespace : string;
  IdentityRef : option ICSIdentityReference;   (* Spec.IdentityRef *)
  CloudName : string                           (* Spec.CloudName *)
}.

(** The collaborators: the client's [Get] of a secret, and [yaml.Unmarshal]
    into [basev1.Clouds], whose error is known by its text. *)
Record Client := {
  Get : string -> string -> Secret + error;
  Unmarshal : list byte -> gmap string ICenter + string
}.

(** [ValidateInputs]; [c] and [cluster] are pointers that may be nil. *)
Definition ValidateInputs (c : option Client) (cluster : option ICSCluster)
  : option error :=
  match c with
  | None => Some (New "kubernetes client is required")
  | Some _ =>
      match cluster with
      | None => Some (New "ics cluster is required")
      | Some cl =>
          match IdentityRef cl with
          | None => Some (New "IdentityRef is required")
          | Some _ => None
          end
      end
  end.

(** [IsSecretIdentity]; [SecretKind] is the constant of the API package. *)
Definition IsSecretIdentity (SecretKind : string) (cluster : option ICSCluster)
  : bool :=
  match cluster with
  | None => false
  | Some cl =>
      match IdentityRef cl with
      | None => false
      | Some ref => String.eqb (Kind ref) SecretKind
      end
  end.

(** [getCloudFromSecret]: the cloud, the CA certificate (nil when the
    secret has none) and the error. *)
Definition getCloudFromSecret (ctrlClient : Client)
    (secretNamespace secretName cloudName : string)
  : ICenter * option (list byte) * option error :=
  if String.eqb secretName "" then (emptyCloud, None, None)
  else if String.eqb cloudName "" then
    (emptyCloud, None,
     Some (Errorf "secret name set to %v but no cloud was specified. Please set cloud_name in your machine spec"
             [ArgString secretName]))
  else
    match Get ctrlClient secretNamespace secretName with
    | inr err => (emptyCloud, None, Some err)
    | inl secret =>
        match Data secret !! CloudsSecretKey with
        | None =>
            (emptyCloud, None,
             Some (Errorf "ICS credentials secret %v did not contain key %v"
                     [ArgString secretName; ArgString CloudsSecretKey]))
        | Some content =>
            match Unmarshal ctrlClient content with
            | inr msg =>
                (emptyCloud, None,
                 Some (Errorf "failed to unmarshal clouds credentials stored in secret %v: %v"
                         [ArgString secretName; ArgString msg]))
            | inl clouds =>
                (default emptyCloud (clouds !! cloudName),
                 Data secret !! CaSecretKey, None)
            end
        end
    end.

(** [NewClientFromCluster] *)
Definition NewClientFromCluster (ctrlClient : Client) (icsCluster : ICSCluster)
  : ICenter + error :=
  match IdentityRef icsCluster with
  | None => inl emptyCloud
  | Some ref =>
      match getCloudFromSecret ctrlClient (Namespace icsCluster) (Name ref)
              (CloudName icsCluster) with
      | (_, _, Some err) => inr err
      | (iCenter, caCert, None) =>
          match caCert with
          | Some cert =>
              if (256 <? length cert)%nat then inl (withCACert cert iCenter)
              else inl iCenter
          | None => inl iCenter
          end
      end
  end.

End Identity.

Module ClusterReconcile.
Import ClusterController.

Inductive ConditionType :=
  | ICenterAvailableCondition
  | ClusterModulesAvailableCondition.

(** [conditions.MarkTrue] and [conditions.MarkFalse] with its reason. *)
Inductive Mark :=
  | MarkTrue (c : ConditionType)
  | MarkFalseUnreachable          (* ICenterAvailable, ICenterUnreachableReason *)
  | MarkFalseMissingVersion.      (* ClusterModulesAvailable, MissingICenterVersionReason *)

(** The ICSCluster as [reconcileNormal] writes it. *)
Record ICSClusterState := {
  hasFinalizer : bool;                     (* ClusterFinalizer *)
  Ready : bool;                            (* Status.Ready *)
  ICenterVersion : string;                 (* Status.ICenterVersion *)
  ControlPlaneEndpoint : APIEndpoint;      (* Spec.ControlPlaneEndpoint *)
  marks : list Mark                        (* the conditions set, in order *)
}.

(** The collaborators of a pass over a cluster that is not being deleted:
    the client of the controller context, which [r.Client] and [ctx.Client]
    both name, [session.GetOrCreate] on the server and the user of the
    iCenter, with what [GetVersion] answers on the session, and the
    machines of the cluster. *)
Record Environment := {
  client : Identity.Client;
  SecretKind : string;
  GetOrCreate : string -> string -> string -> (string + error) + error;
  GetMachinesInCluster : list Machine + error
}.

Definition reconcileIdentitySecret (env : Environment)
    (icsCluster : Identity.ICSCluster) : option error :=
  match Identity.IdentityRef icsCluster with
  | Some ref =>
      if Identity.IsSecretIdentity (SecretKind env) (Some icsCluster) then
        match Identity.Get (client env) (Identity.Namespace icsCluster)
                (Identity.Name ref) with
        | inr err => Some err
        | inl _ => None
        end
      else None
  | None => None                 (* [IsSecretIdentity] is false without a reference *)
  end.

Definition reconcileICenterConnectivity (env : Environment)
    (icsCluster : Identity.ICSCluster) : (string + error) + error :=
  match Identity.ValidateInputs (Some (client env)) (Some icsCluster) with
  | Some err => inr err
  | None =>
      match Identity.NewClientFromCluster (client env) icsCluster with
      | inr err => inr err
      | inl iCenter =>
          GetOrCreate env (Identity.ICenterURL iCenter)
            (Identity.Username iCenter) (Identity.Password iCenter)
      end
  end.

Definition mark (m : Mark) (st : ICSClusterState) : ICSClusterState :=
  {| hasFinalizer := hasFinalizer st; Ready := Ready st;
     ICenterVersion := ICenterVersion st;
     ControlPlaneEndpoint := ControlPlaneEndpoint st;
     marks := marks st ++ [m] |}.

(** [reconcileNormal]: the error it returns (its [reconcile.Result] is
    always empty), the ICSCluster and the pollers afterwards. *)
Definition reconcileNormal (env : Environment) (c : ClusterView)
    (icsCluster : Identity.ICSCluster) (st : ICSClusterState)
    (pollers : Poller.System)
  : option error * ICSClusterState * Poller.System :=
  let st := {| hasFinalizer := true; Ready := Ready st;
               ICenterVersion := ICenterVersion st;
               ControlPlaneEndpoint := ControlPlaneEndpoint st;
               marks := marks st |} in
  match reconcileIdentitySecret env icsCluster with
  | Some err => (Some err, mark MarkFalseUnreachable st, pollers)
  | None =>
      match reconcileICenterConnectivity env icsCluster with
      | inr err =>
          (Some (Wrapf err "unexpected error while probing icenter for %s"
                   [ArgContext (ContextString c)]),
           mark MarkFalseUnreachable st, pollers)
      | inl version =>
          let st := mark (MarkTrue ICenterAvailableCondition) st in
          let st :=
            match version with
            | inl v =>
                {| hasFinalizer := hasFinalizer st; Ready := Ready st;
                   ICenterVersion := v;
                   ControlPlaneEndpoint := ControlPlaneEndpoint st;
                   marks := marks st |}
            | inr _ => st
            end in
          let st :=
            match version with
            | inl _ =>
                if String.eqb (ICenterVersion st) "" then
                  mark MarkFalseMissingVersion st
                else st
            | inr _ => mark MarkFalseMissingVersion st
            end in
          let st := {| hasFinalizer := hasFinalizer st; Ready := true;
                       ICenterVersion := ICenterVersion st;
                       ControlPlaneEndpoint := ControlPlaneEndpoint st;
                       marks := marks st |} in
          match reconcileControlPlaneEndpoint c (ControlPlaneEndpoint st)
                  (GetMachinesInCluster env) pollers with
          | (r, endpoint, pollers') =>
              let st := {| hasFinalizer := hasFinalizer st; Ready := Ready st;
                           ICenterVersion := ICenterVersion st;
                           ControlPlaneEndpoint := endpoint;
                           marks := marks st |} in
              if negb (fst r) then
                match snd r with
                | Some err =>
                    (Some (Wrapf err
                             "unexpected error while reconciling control plane endpoint for %s"
                             [ArgContext (ContextString c)]),
                     st, pollers')
                | None => (None, st, pollers')
                end
              else (None, st, pollers')
          end
      end
  end.

End ClusterReconcile.

(** ** More concrete inputs *)

Module ServiceExamples.
Import Fake.

Definition with_powerOn (x : Task + error) (sc : Script) :=
  {| task := task sc; find := find sc; notFound := notFound sc;
     secret := secret sc; create := create sc; vms := vms sc; host := host sc;
     powerOn := x; powerOff := powerOff sc; delete := delete sc;
     wait := wait sc; net := net sc |}.

Definition with_net (x : list NetworkStatus + error) (sc : Script) :=
  {| task := task sc; find := find sc; notFound := notFound sc;
     secret := secret sc; create := create sc; vms := vms sc; host := host sc;
     powerOn := powerOn sc; powerOff := powerOff sc; delete := delete sc;
     wait := wait sc; net := x |}.

(** The platform reports the VM as started; the probe does not find it. *)
Definition started : Script := with_vms [inl (vmObject "STARTED" 4096)] script.

Definition unfound : Script := with_find (inr (External "not found")) script.

Definition eth0 : NetworkStatus :=
  {| Connected := true; IPAddrs := Some ["10.0.0.8"%string];
     MACAddr := "00:50:56:aa:bb:cc"; NetworkName := "vlan-10" |}.

(** Where a [ReconcileVM] pass on [machine] stands after the identity
    sync. *)
Definition afterIdentity : Ctx nat :=
  {| world := 1%nat; icsvm := machine;
     calls := [CallFindVM; CallGetVM "vm-8"] |}.

End ServiceExamples.

Module ControllerExamples.
Import ClusterController.

Definition zero : APIEndpoint := {| Host := ""; Port := 0 |}.

Definition view : ClusterView :=
  {| ClusterUID := "c1"; ClusterInitialized := false; ClusterEndpoint := zero;
     ICSClusterNamespace := "default"; ICSClusterName := "prod";
     ContextString :=
       "infrastructure.cluster.x-k8s.io/v1beta1, Kind=ICSCluster default/prod" |}.

Definition icsMachineOf (name : string) (ip : PreferredIP) : ICSMachine :=
  {| ICSMachineGVK := "infrastructure.cluster.x-k8s.io/v1beta1, Kind=ICSMachine";
     ICSMachineNamespace := "default"; ICSMachineName := name;
     preferredIP := ip |}.

Definition machineOf (name : string) (cp : bool) (data : option string)
    (m : ICSMachine + error) : Machine :=
  {| MachineGVK := "cluster.x-k8s.io/v1beta1, Kind=Machine";
     MachineNamespace := "default"; MachineName := name;
     controlPlane := cp; DataSecretName := data; icsMachine := m |}.

(** A worker; control-plane machines without bootstrap data, without an
    address, with one, with an address error, and without its ICSMachine. *)
Definition worker : Machine :=
  machineOf "md-0" false (Some "md-0-boot")
    (inl (icsMachineOf "md-0" (IPAddress "10.0.0.20"))).

Definition cpNoData : Machine :=
  machineOf "cp-0" true None (inl (icsMachineOf "cp-0" ErrNoMachineIPAddr)).

Definition cpNoAddress : Machine :=
  machineOf "cp-1" true (Some "cp-1-boot")
    (inl (icsMachineOf "cp-1" ErrNoMachineIPAddr)).

Definition cpReady : Machine :=
  machineOf "cp-2" true (Some "cp-2-boot")
    (inl (icsMachineOf "cp-2" (IPAddress "10.0.0.8"))).

Definition cpOther : Machine :=
  machineOf "cp-3" true (Some "cp-3-boot")
    (inl (icsMachineOf "cp-3" (IPAddress "10.0.0.9"))).

Definition cpLost : Machine :=
  machineOf "cp-4" true (Some "cp-4-boot") (inr (External "not found")).

(** ICSMachines at deletion: orphans whose removal goes through, finds the
    machine gone, fails at the delete and fails at the update; and a machine
    that its CAPI Machine owns as well. *)
Definition orphanOk : ClusterMachine :=
  {| ownedByCluster := true; ownerReferences := 1; updateAnswer := None;
     deleteAnswer := None |}.

Definition orphanGone : ClusterMachine :=
  {| ownedByCluster := true; ownerReferences := 1; updateAnswer := None;
     deleteAnswer := Some (External "not found") |}.

Definition orphanStuck : ClusterMachine :=
  {| ownedByCluster := true; ownerReferences := 1; updateAnswer := None;
     deleteAnswer := Some (External "conflict") |}.

Definition orphanFrozen : ClusterMachine :=
  {| ownedByCluster := true; ownerReferences := 1;
     updateAnswer := Some (External "forbidden"); deleteAnswer := None |}.

Definition owned : ClusterMachine :=
  {| ownedByCluster := true; ownerReferences := 2; updateAnswer := None;
     deleteAnswer := None |}.

End ControllerExamples.

Module IdentityExamples.
Import Identity.

Definition prod : ICenter :=
  {| ICenterURL := "https://icenter.example"; Username := "admin";
     Password := "s3cret"; CACertFile := ""; Verify := None |}.

(** An identity secret, with or without a CA certificate. *)
Definition credentials (caCert : option (list byte)) : Secret :=
  {| Data :=
       match caCert with
       | Some cert => {[ CloudsSecretKey := [x7b; x7d]; CaSecretKey := cert ]}
       | None => {[ CloudsSecretKey := [x7b; x7d] ]}
       end |}.

(** A client that has the secret [creds], or fails to read it, and a parser
    that finds the cloud [prod] in every content but the empty one. *)
Definition clientWith (s : Secret + error) : Client :=
  {| Get := fun _ name =>
       if String.eqb name "creds" then s else inr (External "not found");
     Unmarshal := fun content =>
       match content with
       | [] => inr "EOF"%string
       | _ => inl {[ "prod"%string := prod ]}
       end |}.

Definition clusterOn (cloud : string) : ICSCluster :=
  {| Namespace := "default";
     IdentityRef := Some {| Kind := "Secret"; Name := "creds" |};
     CloudName := cloud |}.

Definition anonymous : ICSCluster :=
  {| Namespace := "default"; IdentityRef := None; CloudName := "prod" |}.

Definition longCert : list byte := repeat x2d 300.
Definition shortCert : list byte := repeat x2d 256.

(** A controller that reaches the iCenter when it is given a server. *)
Definition environment (s : Secret + error) : ClusterReconcile.Environment :=
  {| ClusterReconcile.client := clientWith s;
     ClusterReconcile.SecretKind := "Secret";
     ClusterReconcile.GetOrCreate := fun server _ _ =>
       if String.eqb server "" then inr (External "no server")
       else inl (inr (External "version unavailable"));
     ClusterReconcile.GetMachinesInCluster := inl [ControllerExamples.cpReady] |}.

Definition fresh : ClusterReconcile.ICSClusterState :=
  {| ClusterReconcile.hasFinalizer := false;
     ClusterReconcile.Ready := false;
     ClusterReconcile.ICenterVersion := "";
     ClusterReconcile.ControlPlaneEndpoint := ControllerExamples.zero;
     ClusterReconcile.marks := [] |}.

End IdentityExamples.

(** * Properties *)

(** ** The base64 round trip *)

Section Base64Facts.
Import Base64.

Lemma uint_range b : 0 <= uint b < 256.
Proof.
  unfold uint. pose proof (Byte.to_N_bounded b). lia.
Qed.

Lemma to_byte_uint b : to_byte (uint b) = b.
Proof.
  unfold to_byte. rewrite Z.mod_small by apply uint_range.
  unfold uint. rewrite N2Z.id, Byte.of_to_N. reflexivity.
Qed.

Lemma land_shiftl_small hi lo n :
  0 <= n -> 0 <= lo < 2 ^ n -> Z.land (Z.shiftl hi n) lo = 0.
Proof.
  intros Hn Hlo. apply Z.bits_inj'; intros k Hk.
  rewrite Z.land_spec, Z.bits_0.
  destruct (Z.lt_ge_cases k n) as [Hlt | Hge].
  - rewrite Z.shiftl_spec_low by trivial. reflexivity.
  - destruct (Z.eq_dec lo 0) as [-> | Hne].
    + rewrite Z.bits_0. apply andb_false_r.
    + rewrite (Z.bits_above_log2 lo k), andb_false_r; trivial; try lia.
      apply Z.lt_le_trans with n; trivial. apply Z.log2_lt_pow2; lia.
Qed.

(** An [|] of two numbers with no common bit is their sum. *)
Lemma lor_add x lo n :
  0 <= n -> 0 <= lo < 2 ^ n -> x mod 2 ^ n = 0 -> Z.lor x lo = x + lo.
Proof.
  intros Hn Hlo Hx.
  assert (Hs : x = Z.shiftl (x / 2 ^ n) n).
  { rewrite Z.shiftl_mul_pow2 by trivial.
    pose proof (Z.div_mod x (2 ^ n)). lia. }
  rewrite <- Z.lxor_lor, <- Z.add_nocarry_lxor; trivial;
    rewrite Hs; apply land_shiftl_small; trivial.
Qed.

Ltac to_arith :=
  repeat first
    [ rewrite Z.shiftl_mul_pow2 by lia
    | rewrite Z.shiftr_div_pow2 by lia
    | rewrite (Z.land_ones _ 6) by lia ];
  change (2 ^ 6) with 64 in *; change (2 ^ 8) with 256 in *;
  change (2 ^ 12) with 4096 in *; change (2 ^ 16) with 65536 in *;
  change (2 ^ 18) with 262144 in *.

Ltac lor_arith x n :=
  rewrite (lor_add x _ n);
  [ | lia | cbn; Z.div_mod_to_equations; lia | cbn; Z.div_mod_to_equations; lia ].

Lemma srcVal3 a b c :
  0 <= a < 256 -> 0 <= b < 256 -> 0 <= c < 256 ->
  Z.lor (Z.lor (Z.shiftl a 16) (Z.shiftl b 8)) c = a * 65536 + b * 256 + c.
Proof.
  intros Ha Hb Hc. to_arith.
  lor_arith (a * 65536) 16. lor_arith (a * 65536 + b * 256) 8. lia.
Qed.

Lemma srcVal2 a b :
  0 <= a < 256 -> 0 <= b < 256 ->
  Z.lor (Z.shiftl a 16) (Z.shiftl b 8) = a * 65536 + b * 256.
Proof.
  intros Ha Hb. to_arith. lor_arith (a * 65536) 16. lia.
Qed.

Lemma quantumVal_sextets v :
  0 <= v < 16777216 ->
  quantumVal (Z.land (Z.shiftr v 18) 63) (Z.land (Z.shiftr v 12) 63)
             (Z.land (Z.shiftr v 6) 63) (Z.land v 63) = v.
Proof.
  intros Hv. unfold quantumVal. change 63 with (Z.ones 6). to_arith.
  set (s0 := (v / 262144) mod 64). set (s1 := (v / 4096) mod 64).
  set (s2 := (v / 64) mod 64). set (s3 := v mod 64).
  assert (0 <= s0 < 64 /\ 0 <= s1 < 64 /\ 0 <= s2 < 64 /\ 0 <= s3 < 64)
    as (H0 & H1 & H2 & H3)
    by (subst s0 s1 s2 s3; Z.div_mod_to_equations; lia).
  lor_arith (s0 * 262144) 18. lor_arith (s0 * 262144 + s1 * 4096) 12.
  lor_arith (s0 * 262144 + s1 * 4096 + s2 * 64) 6.
  subst s0 s1 s2 s3. Z.div_mod_to_equations; lia.
Qed.

Lemma sextets_check :
  forallb (fun n => let i := Z.of_nat n in
                    (decodeMap (encode i) =? i) && negb (isNewline (encode i)))
          (seq 0 64) = true.
Proof. vm_compute. reflexivity. Qed.

Lemma encode_facts i :
  0 <= i < 64 -> decodeMap (encode i) = i /\ isNewline (encode i) = false.
Proof.
  intros Hi. pose proof sextets_check as H.
  rewrite forallb_forall in H. specialize (H (Z.to_nat i)).
  rewrite Z2Nat.id in H by lia. cbv zeta in H.
  assert (Hin : In (Z.to_nat i) (seq 0 64)) by (apply in_seq; lia).
  apply H, andb_true_iff in Hin as [H1 H2].
  split; [lia | now destruct (isNewline (encode i))].
Qed.

Lemma decodeMap_encode i : 0 <= i < 64 -> decodeMap (encode i) = i.
Proof. intros Hi. apply encode_facts, Hi. Qed.

Lemma sextet_range v k : 0 <= Z.land (Z.shiftr v k) 63 < 64.
Proof.
  change 63 with (Z.ones 6). rewrite Z.land_ones by lia.
  apply Z.mod_pos_bound. reflexivity.
Qed.

Lemma sextet_range0 v : 0 <= Z.land v 63 < 64.
Proof.
  change 63 with (Z.ones 6). rewrite Z.land_ones by lia.
  apply Z.mod_pos_bound. reflexivity.
Qed.

Lemma to_byte_eq v b : v mod 256 = uint b -> to_byte v = b.
Proof.
  intros H. rewrite <- (to_byte_uint b). unfold to_byte.
  rewrite H, (Z.mod_small (uint b)) by apply uint_range. reflexivity.
Qed.

(** One full quantum of alphabet characters decodes to three bytes. *)
Lemma decodeQuanta_full s0 s1 s2 s3 rest :
  0 <= s0 < 64 -> 0 <= s1 < 64 -> 0 <= s2 < 64 -> 0 <= s3 < 64 ->
  decodeQuanta (encode s0 :: encode s1 :: encode s2 :: encode s3 :: rest) =
  match decodeQuanta rest with
  | inl bs =>
      let val := quantumVal s0 s1 s2 s3 in
      inl (to_byte (Z.shiftr val 16) :: to_byte (Z.shiftr val 8)
           :: to_byte val :: bs)
  | inr e => inr e
  end.
Proof.
  intros H0 H1 H2 H3. cbn [decodeQuanta]. cbv zeta.
  rewrite !decodeMap_encode by trivial.
  replace (s0 =? 255) with false by lia. replace (s1 =? 255) with false by lia.
  replace (s2 =? 255) with false by lia. replace (s3 =? 255) with false by lia.
  reflexivity.
Qed.

Lemma decodeQuanta_pad1 s0 s1 s2 :
  0 <= s0 < 64 -> 0 <= s1 < 64 -> 0 <= s2 < 64 ->
  decodeQuanta [encode s0; encode s1; encode s2; padChar] =
  let val := quantumVal s0 s1 s2 0 in
  inl [to_byte (Z.shiftr val 16); to_byte (Z.shiftr val 8)].
Proof.
  intros H0 H1 H2. cbn [decodeQuanta]. cbv zeta.
  rewrite !decodeMap_encode by trivial.
  replace (s0 =? 255) with false by lia. replace (s1 =? 255) with false by lia.
  replace (s2 =? 255) with false by lia. reflexivity.
Qed.

Lemma decodeQuanta_pad2 s0 s1 :
  0 <= s0 < 64 -> 0 <= s1 < 64 ->
  decodeQuanta [encode s0; encode s1; padChar; padChar] =
  inl [to_byte (Z.shiftr (quantumVal s0 s1 0 0) 16)].
Proof.
  intros H0 H1. cbn [decodeQuanta]. cbv zeta.
  rewrite !decodeMap_encode by trivial.
  replace (s0 =? 255) with false by lia. replace (s1 =? 255) with false by lia.
  reflexivity.
Qed.

Lemma list_ind3 {A} (P : list A -> Prop) :
  P [] -> (forall a, P [a]) -> (forall a b, P [a; b]) ->
  (forall a b c l, P l -> P (a :: b :: c :: l)) ->
  forall l, P l.
Proof.
  intros H0 H1 H2 H3 l.
  enough (P l /\ (forall a, P (a :: l)) /\ (forall a b, P (a :: b :: l)))
    by tauto.
  induction l as [| x l (IH0 & IH1 & IH2)]; repeat split; auto.
Qed.

Lemma decodeQuanta_Encode bs : decodeQuanta (Encode bs) = inl bs.
Proof.
  induction bs as [| a | a b | a b c l IH] using list_ind3.
  - reflexivity.
  - cbn [Encode]. cbv zeta.
    rewrite decodeQuanta_pad2 by apply sextet_range.
    pose proof (uint_range a) as Ha. f_equal. f_equal.
    apply to_byte_eq. unfold quantumVal. change 63 with (Z.ones 6).
    to_arith. rewrite !Z.mul_0_l, !Z.lor_0_r.
    set (s0 := (uint a * 65536 / 262144) mod 64).
    set (s1 := (uint a * 65536 / 4096) mod 64).
    assert (0 <= s0 < 64 /\ 0 <= s1 < 64) as (H0 & H1)
      by (subst s0 s1; Z.div_mod_to_equations; lia).
    lor_arith (s0 * 262144) 18.
    subst s0 s1. Z.div_mod_to_equations; lia.
  - cbn [Encode]. cbv zeta.
    rewrite decodeQuanta_pad1 by apply sextet_range.
    pose proof (uint_range a) as Ha. pose proof (uint_range b) as Hb.
    rewrite srcVal2 by trivial. cbv zeta.
    set (V := uint a * 65536 + uint b * 256).
    assert (HV : quantumVal (Z.land (Z.shiftr V 18) 63)
                   (Z.land (Z.shiftr V 12) 63) (Z.land (Z.shiftr V 6) 63) 0
                 = V).
    { rewrite <- (quantumVal_sextets V) at 4 by (subst V; lia).
      f_equal. change 63 with (Z.ones 6). rewrite Z.land_ones by lia.
      subst V. change (2 ^ 6) with 64. Z.div_mod_to_equations; lia. }
    rewrite HV. f_equal. f_equal; [| f_equal]; apply to_byte_eq;
      rewrite Z.shiftr_div_pow2 by lia; subst V;
      [change (2 ^ 16) with 65536 | change (2 ^ 8) with 256];
      Z.div_mod_to_equations; lia.
  - cbn [Encode]. cbv zeta.
    rewrite decodeQuanta_full by first [apply sextet_range | apply sextet_range0].
    rewrite IH.
    pose proof (uint_range a) as Ha. pose proof (uint_range b) as Hb.
    pose proof (uint_range c) as Hc.
    rewrite srcVal3 by trivial. cbv zeta.
    rewrite quantumVal_sextets by lia.
    f_equal. f_equal; [| f_equal; [| f_equal]]; apply to_byte_eq;
      rewrite ?Z.shiftr_div_pow2 by lia;
      change (2 ^ 16) with 65536; change (2 ^ 8) with 256;
      Z.div_mod_to_equations; lia.
Qed.

Lemma Encode_no_newline bs :
  List.filter (fun c => negb (isNewline c)) (Encode bs) = Encode bs.
Proof.
  assert (Hs : forall v k, isNewline (encode (Z.land (Z.shiftr v k) 63)) = false)
    by (intros; apply encode_facts, sextet_range).
  assert (Hs0 : forall v, isNewline (encode (Z.land v 63)) = false)
    by (intros; apply encode_facts, sextet_range0).
  induction bs as [| a | a b | a b c l IH] using list_ind3;
    cbn [Encode List.filter]; cbv zeta; rewrite ?Hs, ?Hs0; cbn [negb List.filter];
    rewrite ?IH; reflexivity.
Qed.

(** The vectors of RFC 4648, section 10. *)
Example EncodeToString_foobar :
  map EncodeToString
      [[]; [x66]; [x66; x6f]; [x66; x6f; x6f]; [x66; x6f; x6f; x62];
       [x66; x6f; x6f; x62; x61]; [x66; x6f; x6f; x62; x61; x72]] =
  [""; "Zg=="; "Zm8="; "Zm9v"; "Zm9vYg=="; "Zm9vYmE="; "Zm9vYmFy"]%string.
Proof. reflexivity. Qed.

Example DecodeString_rejects :
  map DecodeString ["Zg="; "Zg==Zg=="; "Z==="; "Zm9v!m9v"]%string =
  [inr CorruptInputError; inr CorruptInputError; inr CorruptInputError;
   inr CorruptInputError].
Proof. reflexivity. Qed.

(** [DecodeString] undoes [EncodeToString] on every byte sequence. *)
Lemma DecodeString_EncodeToString bs :
  DecodeString (EncodeToString bs) = inl bs.
Proof.
  unfold DecodeString, EncodeToString.
  rewrite list_ascii_of_string_of_list_ascii, Encode_no_newline.
  apply decodeQuanta_Encode.
Qed.

End Base64Facts.


(** ** The pass monad and the log *)

Section PassFacts.
Context {W : Type} (P : Platform W).

Lemma mutations_app l l' : mutations (l ++ l') = mutations l ++ mutations l'.
Proof. apply List.filter_app. Qed.

Lemma mutations_quiet l c :
  isMutation c = false -> mutations (l ++ [c]) = mutations l.
Proof.
  intros H. rewrite mutations_app. cbn. rewrite H. apply app_nil_r.
Qed.

Lemma mutations_loud l c :
  isMutation c = true -> mutations (l ++ [c]) = mutations l ++ [c].
Proof. intros H. rewrite mutations_app. cbn. rewrite H. reflexivity. Qed.

End PassFacts.

(** Normalises the mutating calls of a log built call by call. *)
Ltac quiet_log :=
  repeat first [ rewrite mutations_quiet by reflexivity
               | rewrite mutations_loud by reflexivity ].

Section GuardFacts.
Context {W : Type} (P : Platform W).

(** The task guard returns no error, issues no mutating call and leaves the
    spec of the resource alone. *)
Lemma reconcileInFlightTask_frame s0 r s1 :
  reconcileInFlightTask P s0 = (r, s1) ->
  snd r = None /\
  mutations (calls s1) = mutations (calls s0) /\
  ICSVM.BootstrapRef (icsvm s1) = ICSVM.BootstrapRef (icsvm s0) /\
  ICSVM.Name (icsvm s1) = ICSVM.Name (icsvm s0).
Proof.
  unfold reconcileInFlightTask, bind, getICSVM, call, modifyICSVM, ret.
  destruct (String.eqb (ICSVM.TaskRef (icsvm s0)) "").
  - intros [= <- <-]. auto.
  - destruct (getTask P _ _) as [[] w]; intros [= <- <-]; cbn;
      rewrite mutations_quiet by reflexivity; auto.
Qed.

(** With a task stored and pending, the guard reports it in flight and
    writes nothing. *)
Lemma reconcileInFlightTask_pending w v w' :
  ICSVM.TaskRef v <> ""%string ->
  getTask P (ICSVM.TaskRef v) w = (TaskPending, w') ->
  reconcileInFlightTask P (startPass w v) =
  ((true, None),
   {| world := w'; icsvm := v; calls := [CallGetTask (ICSVM.TaskRef v)] |}).
Proof.
  intros Hne Hget.
  unfold reconcileInFlightTask, bind, getICSVM, call, startPass.
  cbn [world icsvm calls].
  apply String.eqb_neq in Hne. rewrite Hne.
  change (world {| world := w; icsvm := v; calls := [] |}) with w.
  rewrite Hget. reflexivity.
Qed.

(** The deferred notifier adds no mutating call and writes nothing. *)
Lemma reconcileICSVMOnTaskCompletion_frame (s : Ctx W) u s' :
  reconcileICSVMOnTaskCompletion s = (u, s') ->
  mutations (calls s') = mutations (calls s) /\ icsvm s' = icsvm s.
Proof.
  unfold reconcileICSVMOnTaskCompletion, bind, getICSVM, note, ret.
  destruct (String.eqb _ _); intros [= <- <-]; cbn;
    rewrite ?mutations_quiet by reflexivity; auto.
Qed.

End GuardFacts.

(** ** The entry points *)

Section Orchestrator.
Context {W : Type} (P : Platform W).
Local Arguments String.eqb : simpl never.
Local Arguments Z.geb : simpl never.
Local Arguments Base64.DecodeString : simpl never.
Local Arguments Base64.EncodeToString : simpl never.
Local Arguments string_of_list_byte : simpl never.

Ltac close_defer :=
  match goal with
  | |- context [reconcileICSVMOnTaskCompletion ?s] =>
      let u := fresh "u" in let s' := fresh "s'" in
      let E := fresh "E" in let Ev := fresh "Ev" in
      destruct (reconcileICSVMOnTaskCompletion s) as [u s'] eqn:E;
      apply reconcileICSVMOnTaskCompletion_frame in E as [E Ev];
      simpl in E, Ev |- *
  end.

Lemma findsVM_frame s0 ref s :
  findsVM P s0 ref s ->
  mutations (calls s) = mutations (calls s0) /\
  ICSVM.Name (icsvm s) = ICSVM.Name (icsvm s0).
Proof.
  intros (s1 & w2 & Hg & Hf & ->).
  apply reconcileInFlightTask_frame in Hg as (_ & Hm & _ & Hn).
  simpl. quiet_log. auto.
Qed.

Lemma missesVM_frame s0 err s :
  missesVM P s0 err s ->
  mutations (calls s) = mutations (calls s0) /\
  ICSVM.BootstrapRef (icsvm s) = ICSVM.BootstrapRef (icsvm s0).
Proof.
  intros (s1 & w2 & Hg & Hf & ->).
  apply reconcileInFlightTask_frame in Hg as (_ & Hm & Hb & _).
  simpl. quiet_log. auto.
Qed.

(** C5. Task-guard exclusivity: with a task reference stored that the
    platform reports pending, [ReconcileVM] and [DestroyVM] return at once
    with phase Pending and no error, leave the resource as it was, and issue
    no call besides the query of that task: no probe, create, power or delete
    call. *)
Theorem task_guard_short_circuit (session : Session) w v w' :
  ICSVM.TaskRef v <> ""%string ->
  getTask P (ICSVM.TaskRef v) w = (TaskPending, w') ->
  shortCircuited v (ReconcileVM P (startPass w v)) /\
  shortCircuited v (DestroyVM P session (startPass w v)).
Proof.
  intros Hne Hget.
  pose proof (reconcileInFlightTask_pending P w v w' Hne Hget) as Hg.
  unfold shortCircuited, ReconcileVM, DestroyVM, initialVM, bind, getICSVM, ret.
  rewrite Hg. simpl. auto 10.
Qed.

(** C6. Not-found convergence: a [DestroyVM] pass that no task holds back
    and whose probe says the remote VM is not found returns phase NotFound
    with no error on that very call, and issues neither a power-off nor a
    delete call. *)
Theorem destroy_not_found_converges (session : Session) w v err s :
  missesVM P (startPass w v) err s ->
  isNotFound P err = true ->
  let r := DestroyVM P session (startPass w v) in
  VirtualMachine.State (fst (fst r)) = VirtualMachineStateNotFound /\
  snd (fst r) = None /\
  mutations (calls (snd r)) = [].
Proof.
  intros Hmiss Hnf r. subst r.
  pose proof (missesVM_frame _ _ _ Hmiss) as [Hm _].
  destruct Hmiss as (s1 & w2 & Hg & Hf & ->).
  unfold DestroyVM, initialVM, defer, bind, call, getICSVM, ret.
  rewrite Hg. simpl. rewrite Hf, Hnf. close_defer.
  simpl in Hm. rewrite mutations_quiet in Hm by reflexivity.
  rewrite E. quiet_log. rewrite Hm. auto.
Qed.

Lemma missing_bootstrapRef w v err s :
  missesVM P (startPass w v) err s ->
  ICSVM.BootstrapRef v = None ->
  let r := ReconcileVM P (startPass w v) in
  snd (fst r) =
    Some (New "error retrieving bootstrap data: linked icsvm's bootstrapRef is nil") /\
  mutations (calls (snd r)) = [].
Proof.
  intros Hmiss Hb r. subst r.
  pose proof (missesVM_frame _ _ _ Hmiss) as [Hm Hb'].
  destruct Hmiss as (s1 & w2 & Hg & Hf & ->). simpl in Hb', Hm.
  rewrite mutations_quiet in Hm by reflexivity.
  unfold ReconcileVM, getBootstrapData, initialVM, defer, bind, call,
    getICSVM, ret.
  rewrite Hg. simpl. rewrite Hf. simpl. rewrite Hb', Hb. close_defer.
  rewrite E. quiet_log. rewrite Hm. auto.
Qed.

Lemma missing_value_key w v err s ref secret w3 :
  missesVM P (startPass w v) err s ->
  ICSVM.BootstrapRef v = Some ref ->
  ClientGet P (RefNamespace ref) (RefName ref) (world s) = (inl secret, w3) ->
  Data secret !! "value"%string = None ->
  let r := ReconcileVM P (startPass w v) in
  snd (fst r) =
    Some (New "error retrieving bootstrap data: secret value key is missing") /\
  mutations (calls (snd r)) = [].
Proof.
  intros Hmiss Hb Hs Hk r. subst r.
  pose proof (missesVM_frame _ _ _ Hmiss) as [Hm Hb'].
  destruct Hmiss as (s1 & w2 & Hg & Hf & ->). simpl in Hb', Hm, Hs.
  rewrite mutations_quiet in Hm by reflexivity.
  unfold ReconcileVM, getBootstrapData, initialVM, defer, bind, call,
    getICSVM, ret.
  rewrite Hg. simpl. rewrite Hf. simpl. rewrite Hb', Hb. simpl.
  rewrite Hs. simpl.
  rewrite Hk. close_defer.
  rewrite E. quiet_log. rewrite Hm. auto.
Qed.

(** C7. Missing bootstrap: for a new resource (the probe did not find the
    remote VM) whose spec has no bootstrap reference, [ReconcileVM] returns
    the error that names the nil bootstrap reference and issues no create
    call; and when the referenced secret has no [value] key, it returns the
    error that names the missing key and issues no create call. *)
Theorem missing_bootstrap_no_create :
  (forall w v err s,
      missesVM P (startPass w v) err s ->
      ICSVM.BootstrapRef v = None ->
      let r := ReconcileVM P (startPass w v) in
      snd (fst r) =
        Some (New "error retrieving bootstrap data: linked icsvm's bootstrapRef is nil") /\
      mutations (calls (snd r)) = []) /\
  (forall w v err s ref secret w3,
      missesVM P (startPass w v) err s ->
      ICSVM.BootstrapRef v = Some ref ->
      ClientGet P (RefNamespace ref) (RefName ref) (world s) = (inl secret, w3) ->
      Data secret !! "value"%string = None ->
      let r := ReconcileVM P (startPass w v) in
      snd (fst r) =
        Some (New "error retrieving bootstrap data: secret value key is missing") /\
      mutations (calls (snd r)) = []).
Proof.
  split; intros.
  - eapply missing_bootstrapRef; eauto.
  - eapply missing_value_key; eauto.
Qed.

(** C8. Happy path create: for a new resource whose bootstrap secret holds
    the key [value], [ReconcileVM] issues exactly one mutating call, a create
    whose payload is the bytes of [value] (decoding undoes the encoding of
    [getBootstrapData]), and the phase it returns is Pending. *)
Theorem create_with_decoded_payload w v err s ref secret w3 value :
  missesVM P (startPass w v) err s ->
  ICSVM.BootstrapRef v = Some ref ->
  ClientGet P (RefNamespace ref) (RefName ref) (world s) = (inl secret, w3) ->
  Data secret !! "value"%string = Some value ->
  let r := ReconcileVM P (startPass w v) in
  Base64.DecodeString (Base64.EncodeToString value) = inl value /\
  mutations (calls (snd r)) = [CallCreateVM (string_of_list_byte value)] /\
  VirtualMachine.State (fst (fst r)) = VirtualMachineStatePending.
Proof.
  intros Hmiss Hb Hs Hk r. subst r.
  split; [apply DecodeString_EncodeToString |].
  pose proof (missesVM_frame _ _ _ Hmiss) as [Hm Hb'].
  destruct Hmiss as (s1 & w2 & Hg & Hf & ->). simpl in Hb', Hm, Hs.
  rewrite mutations_quiet in Hm by reflexivity.
  unfold ReconcileVM, getBootstrapData, initialVM, defer, bind, call,
    getICSVM, ret.
  rewrite Hg. simpl. rewrite Hf. simpl. rewrite Hb', Hb. simpl.
  rewrite Hs. simpl.
  rewrite Hk, DecodeString_EncodeToString.
  destruct (CreateVM P _ _ _) as [e w4]. close_defer.
  rewrite E. quiet_log. rewrite Hm. auto.
Qed.

Lemma reconcileUUID_frame ref vm s vm' s' :
  reconcileUUID P ref vm s = (vm', s') ->
  VirtualMachine.State vm' = VirtualMachine.State vm /\
  mutations (calls s') = mutations (calls s).
Proof.
  unfold reconcileUUID, bind, call, ret.
  destruct (GetVM P _ _) as [[o | e] w1]; intros [= <- <-]; simpl;
    quiet_log; auto.
Qed.

Lemma reconcileNetworkStatus_frame ref vm s vm' e s' :
  reconcileNetworkStatus P ref vm s = ((vm', e), s') ->
  VirtualMachine.State vm' = VirtualMachine.State vm /\
  mutations (calls s') = mutations (calls s).
Proof.
  unfold reconcileNetworkStatus, getNetworkStatus, bind, call, getICSVM,
    modifyICSVM, ret.
  destruct (GetNetworkStatus P _ _ _) as [[ns | err] w1]; simpl.
  - destruct ns as [| s0 ns]; simpl.
    + intros [= <- <- <-]. simpl. quiet_log. auto.
    + destruct (ICSVM.Addresses (icsvm s)), (sanitizeIPAddrs P _ _); simpl;
        try (intros [= <- <- <-]; simpl; quiet_log; auto).
      destruct (IsControlPlaneMachine P _); simpl.
      * destruct (Patch P _ _) as [pe w2]. intros [= <- <- <-]. simpl.
        quiet_log. auto.
      * intros [= <- <- <-]. simpl. quiet_log. auto.
  - intros [= <- <- <-]. simpl. quiet_log. auto.
Qed.

Lemma reachesPowerSync_frame s0 ref vm s :
  reachesPowerSync P s0 ref vm s ->
  VirtualMachine.State vm = VirtualMachineStatePending /\
  mutations (calls s) = mutations (calls s0).
Proof.
  intros (s2 & vm1 & s3 & Hf & Hu & Hn).
  apply findsVM_frame in Hf as [Hf _].
  apply reconcileUUID_frame in Hu as [Hu1 Hu2].
  apply reconcileNetworkStatus_frame in Hn as [Hn1 Hn2].
  split; [| congruence]. rewrite Hn1, Hu1. reflexivity.
Qed.

(** What [ReconcileVM] returns once the power sync has answered. *)
Lemma ReconcileVM_power_sync s0 ref vm s p s' :
  reachesPowerSync P s0 ref vm s ->
  reconcilePowerState P ref s = (p, s') ->
  exists s'',
    ReconcileVM P s0 =
      (if notNil (snd p) || negb (fst p) then (vm, snd p)
       else (VirtualMachine.with_State VirtualMachineStateReady vm, None),
       s'') /\
    mutations (calls s'') = mutations (calls s') /\
    icsvm s'' = icsvm s'.
Proof.
  intros (s2 & vm1 & s3 & (s1 & w2 & Hg & Hf & ->) & Hu & Hn) Hp.
  unfold ReconcileVM, defer, bind, call, getICSVM, ret.
  unfold initialVM, bind, getICSVM, ret in Hu |- *. simpl in Hu |- *.
  rewrite Hg. simpl. rewrite Hf, Hu, Hn, Hp.
  destruct (notNil (snd p) || negb (fst p)); close_defer; eauto.
Qed.

(** The power state read at [s], when the platform answers with [o]. *)
Lemma getPowerState_transitional ref s o w1 :
  GetVM P (Value ref) (world s) = (inl o, w1) ->
  transitional (Status o) = true ->
  getPowerState P ref s =
    ((VirtualMachinePowerStateSuspended, None),
     {| world := w1; icsvm := icsvm s;
        calls := calls s ++ [CallGetVM (Value ref)] |}).
Proof.
  intros Hv Ht. unfold getPowerState, bind, call, ret. rewrite Hv.
  unfold transitional in Ht.
  destruct (String.eqb_spec (Status o) "STARTED") as [E | _];
    [rewrite E in Ht; discriminate |].
  destruct (String.eqb_spec (Status o) "STOPPED") as [E | _];
    [rewrite E in Ht; discriminate |].
  destruct (String.eqb (Status o) "PAUSED"); [reflexivity |].
  destruct (String.eqb (Status o) "RESTARTING"); [reflexivity |].
  destruct (String.eqb (Status o) "PENDING"); [reflexivity | discriminate].
Qed.

Lemma getPowerState_unrecognized ref s o w1 :
  GetVM P (Value ref) (world s) = (inl o, w1) ->
  recognized (Status o) = false ->
  getPowerState P ref s =
    ((PowerStateEmpty,
      Some (Errorf "unexpected power state %q for vm %s"
                   [ArgString (Status o); ArgContext (ICSVM.String (icsvm s))])),
     {| world := w1; icsvm := icsvm s;
        calls := calls s ++ [CallGetVM (Value ref)] |}).
Proof.
  intros Hv Ht. unfold getPowerState, ctxString, bind, call, getICSVM, ret.
  rewrite Hv. unfold recognized, transitional in Ht.
  destruct (String.eqb (Status o) "STARTED"); [discriminate |].
  destruct (String.eqb (Status o) "STOPPED"); [discriminate |].
  destruct (String.eqb (Status o) "PAUSED"); [discriminate |].
  destruct (String.eqb (Status o) "RESTARTING"); [discriminate |].
  destruct (String.eqb (Status o) "PENDING"); [discriminate |].
  reflexivity.
Qed.

Lemma getPowerState_status ref s o w1 status ps :
  GetVM P (Value ref) (world s) = (inl o, w1) ->
  Status o = status ->
  (status, ps) = ("STARTED"%string, VirtualMachinePowerStatePoweredOn) \/
  (status, ps) = ("STOPPED"%string, VirtualMachinePowerStatePoweredOff) ->
  getPowerState P ref s =
    ((ps, None),
     {| world := w1; icsvm := icsvm s;
        calls := calls s ++ [CallGetVM (Value ref)] |}).
Proof.
  intros Hv Hs H. unfold getPowerState, bind, call, ret. rewrite Hv, Hs.
  destruct H as [[= -> ->] | [= -> ->]]; reflexivity.
Qed.

(** C1, as the code has it. For a VM whose remote state is PAUSED,
    RESTARTING or PENDING, [getPowerState] answers Suspended without error,
    and [reconcilePowerState] has no case for it: [ReconcileVM] returns phase
    Pending together with the error "unexpected power state", and issues no
    mutating call. A remote state that [getPowerState] does not know ends the
    pass the same way, with the error naming the remote value. *)
Theorem transitional_power_state_is_reported w v ref vm s o w1 :
  reachesPowerSync P (startPass w v) ref vm s ->
  GetVM P (Value ref) (world s) = (inl o, w1) ->
  let r := ReconcileVM P (startPass w v) in
  let ctx := ArgContext (ICSVM.String (icsvm s)) in
  (transitional (Status o) = true ->
   VirtualMachine.State (fst (fst r)) = VirtualMachineStatePending /\
   snd (fst r) =
     Some (Errorf "unexpected power state %q for vm %s"
                  [ArgPowerState VirtualMachinePowerStateSuspended; ctx]) /\
   mutations (calls (snd r)) = []) /\
  (recognized (Status o) = false ->
   VirtualMachine.State (fst (fst r)) = VirtualMachineStatePending /\
   snd (fst r) =
     Some (Errorf "unexpected power state %q for vm %s"
                  [ArgString (Status o); ctx]) /\
   mutations (calls (snd r)) = []).
Proof.
  intros Hr Hv r ctx. subst r ctx.
  pose proof (reachesPowerSync_frame _ _ _ _ Hr) as [Hst Hm].
  split; intros Ht.
  - pose proof (getPowerState_transitional ref s o w1 Hv Ht) as Hp.
    destruct (ReconcileVM_power_sync _ ref vm s
                (false, Some (Errorf "unexpected power state %q for vm %s"
                   [ArgPowerState VirtualMachinePowerStateSuspended;
                    ArgContext (ICSVM.String (icsvm s))]))
                {| world := w1; icsvm := icsvm s;
                   calls := calls s ++ [CallGetVM (Value ref)] |} Hr)
      as (s'' & -> & Hm'' & _).
    { unfold reconcilePowerState, ctxString, bind, getICSVM, ret.
      rewrite Hp. reflexivity. }
    simpl in *. rewrite Hm''. quiet_log. rewrite Hm. auto.
  - pose proof (getPowerState_unrecognized ref s o w1 Hv Ht) as Hp.
    destruct (ReconcileVM_power_sync _ ref vm s
                (false, Some (Errorf "unexpected power state %q for vm %s"
                   [ArgString (Status o);
                    ArgContext (ICSVM.String (icsvm s))]))
                {| world := w1; icsvm := icsvm s;
                   calls := calls s ++ [CallGetVM (Value ref)] |} Hr)
      as (s'' & -> & Hm'' & _).
    { unfold reconcilePowerState, bind, ret. rewrite Hp. reflexivity. }
    simpl in *. rewrite Hm''. quiet_log. rewrite Hm. auto.
Qed.

(** The power sync of a stopped VM whose details and host the platform
    hands over. *)
Lemma reconcilePowerState_stopped ref s o w1 vmObj w2 host w3 :
  GetVM P (Value ref) (world s) = (inl o, w1) ->
  Status o = "STOPPED"%string ->
  GetVM P (Value ref) w1 = (inl vmObj, w2) ->
  GetHost P (HostID vmObj) w2 = (inl host, w3) ->
  let M := MemoryInByte vmObj in
  let F := FreeMemoryInByte host in
  let L := LogicFreeMemoryInByte host in
  (M >= F \/ M >= L ->
   exists s',
     reconcilePowerState P ref s =
       ((false, Some (New PoweringOnFailedReason)), s') /\
     mutations (calls s') = mutations (calls s)) /\
  (M < F /\ M < L ->
   exists p s',
     reconcilePowerState P ref s = (p, s') /\ fst p = false /\
     mutations (calls s') = mutations (calls s) ++ [CallPowerOnVM (Value ref)]).
Proof.
  intros Hv Hs Hv2 Hh M F L.
  pose proof (getPowerState_status ref s o w1 _
                VirtualMachinePowerStatePoweredOff Hv Hs) as Hp.
  unfold reconcilePowerState, reconcileICSVMWhenNetworkIsReady, ctxString,
    bind, call, note, getICSVM, modifyICSVM, ret.
  rewrite Hp by auto. simpl. rewrite Hv2. simpl. rewrite Hh. simpl.
  fold M F L. split.
  - intros Hge.
    replace ((M >=? F) || (M >=? L)) with true
      by (symmetry; apply orb_true_iff; lia).
    eexists. split; [reflexivity |]. simpl. quiet_log. reflexivity.
  - intros Hlt.
    replace ((M >=? F) || (M >=? L)) with false
      by (symmetry; apply orb_false_iff; lia).
    destruct (PowerOnVM P _ _) as [[task | e] w4].
    + destruct (WaitForResult P _ _) as [[[ti |] we] w5]; simpl;
        [destruct (String.eqb (TaskState ti) "ERROR") |];
        eexists _, _; (split; [reflexivity |]); simpl; quiet_log; auto.
    + eexists _, _. split; [reflexivity |]. simpl. quiet_log. auto.
Qed.

(** C3. Capacity guard: a VM probed as stopped that needs memory [M], on a
    host with free memory [F] and logical free memory [L]. With [M >= F] or
    [M >= L], [ReconcileVM] issues no power-on call (no mutating call at all)
    and fails with [PoweringOnFailedReason]; with [M < F] and [M < L] it
    issues exactly one power-on call, and no other mutating call. *)
Theorem capacity_guard w v ref vm s o w1 vmObj w2 host w3 :
  reachesPowerSync P (startPass w v) ref vm s ->
  GetVM P (Value ref) (world s) = (inl o, w1) ->
  Status o = "STOPPED"%string ->
  GetVM P (Value ref) w1 = (inl vmObj, w2) ->
  GetHost P (HostID vmObj) w2 = (inl host, w3) ->
  let M := MemoryInByte vmObj in
  let F := FreeMemoryInByte host in
  let L := LogicFreeMemoryInByte host in
  let r := ReconcileVM P (startPass w v) in
  (M >= F \/ M >= L ->
   mutations (calls (snd r)) = [] /\
   snd (fst r) = Some (New PoweringOnFailedReason)) /\
  (M < F /\ M < L ->
   mutations (calls (snd r)) = [CallPowerOnVM (Value ref)]).
Proof.
  intros Hr Hv Hs Hv2 Hh M F L r. subst r.
  pose proof (reachesPowerSync_frame _ _ _ _ Hr) as [Hst Hm].
  pose proof (reconcilePowerState_stopped ref s o w1 vmObj w2 host w3
                Hv Hs Hv2 Hh) as [Hge Hlt].
  simpl in Hm. split; intros Hc.
  - destruct (Hge Hc) as (s' & Hp & Hm').
    destruct (ReconcileVM_power_sync _ _ _ _ _ _ Hr Hp) as (s'' & -> & Hm'' & _).
    simpl. rewrite Hm'', Hm', Hm. auto.
  - destruct (Hlt Hc) as (p & s' & Hp & Hok & Hm').
    destruct (ReconcileVM_power_sync _ _ _ _ _ _ Hr Hp) as (s'' & -> & Hm'' & _).
    rewrite Hok, orb_true_r. simpl. rewrite Hm'', Hm', Hm. reflexivity.
Qed.

(** C10. For a VM probed as stopped, when the platform fails to hand over
    the VM's details, or its host's capacity, at the power sync,
    [ReconcileVM] returns phase Pending with a nil error: the failure is not
    surfaced, and no power-on call (no mutating call at all) is issued. *)
Theorem capacity_lookup_failure_is_swallowed w v ref vm s o w1 :
  reachesPowerSync P (startPass w v) ref vm s ->
  GetVM P (Value ref) (world s) = (inl o, w1) ->
  Status o = "STOPPED"%string ->
  (exists e w2, GetVM P (Value ref) w1 = (inr e, w2)) \/
  (exists vmObj w2 e w3,
      GetVM P (Value ref) w1 = (inl vmObj, w2) /\
      GetHost P (HostID vmObj) w2 = (inr e, w3)) ->
  let r := ReconcileVM P (startPass w v) in
  VirtualMachine.State (fst (fst r)) = VirtualMachineStatePending /\
  snd (fst r) = None /\
  mutations (calls (snd r)) = [].
Proof.
  intros Hr Hv Hs Hfail r. subst r.
  pose proof (reachesPowerSync_frame _ _ _ _ Hr) as [Hst Hm].
  pose proof (getPowerState_status ref s o w1 _
                VirtualMachinePowerStatePoweredOff Hv Hs) as Hp.
  assert (exists s', reconcilePowerState P ref s = ((false, None), s') /\
                     mutations (calls s') = mutations (calls s))
    as (s' & Hps & Hm').
  { unfold reconcilePowerState, bind, call, ret. rewrite Hp by auto. simpl.
    destruct Hfail as [(e & w2 & ->) | (vmObj & w2 & e & w3 & -> & Hh)];
      simpl; rewrite ?Hh;
      eexists; (split; [reflexivity |]); simpl; quiet_log; reflexivity. }
  destruct (ReconcileVM_power_sync _ _ _ _ _ _ Hr Hps) as (s'' & -> & Hm'' & _).
  simpl in *. rewrite Hm'', Hm', Hm. auto.
Qed.

Lemma destroy_powered_on (session : Session) w v ref s o w1 :
  findsVM P (startPass w v) ref s ->
  GetVM P (Value ref) (world s) = (inl o, w1) ->
  Status o = "STARTED"%string ->
  let r := DestroyVM P session (startPass w v) in
  mutations (calls (snd r)) = [CallPowerOffVM (Value ref)] /\
  VirtualMachine.State (fst (fst r)) = VirtualMachineStatePending /\
  (forall task w2,
      PowerOffVM P (Value ref) w1 = (inl task, w2) ->
      ICSVM.TaskRef (icsvm (snd r)) = TaskId task /\ snd (fst r) = None) /\
  (forall e w2,
      PowerOffVM P (Value ref) w1 = (inr e, w2) ->
      ICSVM.TaskRef (icsvm (snd r)) = ICSVM.TaskRef (icsvm s) /\
      snd (fst r) = Some e).
Proof.
  intros Hf Hv Hs r. subst r.
  pose proof (findsVM_frame _ _ _ Hf) as [Hm _].
  pose proof (getPowerState_status ref s o w1 _
                VirtualMachinePowerStatePoweredOn Hv Hs) as Hp.
  destruct Hf as (s1 & w2 & Hg & Hf & ->). simpl in Hm, Hp.
  rewrite mutations_quiet in Hm by reflexivity.
  unfold DestroyVM, initialVM, defer, bind, call, getICSVM, modifyICSVM, ret.
  rewrite Hg. simpl. rewrite Hf.
  unfold bind, call, ret in Hp. rewrite Hp by auto. simpl.
  destruct (PowerOffVM P _ _) as [[task | e] w3]; close_defer;
    rewrite E; quiet_log; rewrite Hm;
    (split; [reflexivity |]); (split; [reflexivity |]);
    split; intros x w4 Heq; inversion Heq; subst; rewrite Ev; auto.
Qed.

Lemma existsb_isDelete_mutations l :
  existsb isDelete l = existsb isDelete (mutations l).
Proof.
  induction l as [| c l IH]; [reflexivity |].
  destruct c; simpl; rewrite ?IH; reflexivity.
Qed.

Lemma getPowerState_frame ref s ps e s' :
  getPowerState P ref s = ((ps, e), s') ->
  mutations (calls s') = mutations (calls s).
Proof.
  unfold getPowerState, ctxString, bind, call, getICSVM, ret.
  destruct (GetVM P _ _) as [[o | err] w1].
  - repeat destruct (String.eqb _ _); intros [= <- <- <-]; simpl;
      quiet_log; reflexivity.
  - intros [= <- <- <-]. simpl. quiet_log. reflexivity.
Qed.

Lemma delete_only_when_not_powered_on (session : Session) w v :
  existsb isDelete (calls (snd (DestroyVM P session (startPass w v)))) = true ->
  exists ref s ps s',
    findsVM P (startPass w v) ref s /\
    getPowerState P ref s = ((ps, None), s') /\
    ps <> VirtualMachinePowerStatePoweredOn.
Proof.
  destruct (reconcileInFlightTask P (startPass w v)) as [[fl e] s1] eqn:Hg.
  pose proof (reconcileInFlightTask_frame P _ _ _ Hg) as (He & Hm & _).
  simpl in He, Hm. subst e.
  unfold DestroyVM, initialVM, defer, bind, call, getICSVM, modifyICSVM, ret.
  rewrite Hg. simpl.
  destruct fl; simpl.
  { rewrite existsb_isDelete_mutations, Hm. discriminate. }
  destruct (findVM P (icsvm s1) (world s1)) as [[ref | err] w2] eqn:Hf.
  2: { destruct (isNotFound P err); close_defer;
         rewrite existsb_isDelete_mutations, E; quiet_log; rewrite Hm;
         discriminate. }
  destruct (getPowerState P ref _) as [[ps pe] s3] eqn:Hp.
  pose proof (getPowerState_frame _ _ _ _ _ Hp) as Hm3. simpl in Hm3.
  rewrite mutations_quiet in Hm3 by reflexivity.
  destruct pe as [e |].
  { close_defer. rewrite existsb_isDelete_mutations, E, Hm3, Hm. discriminate. }
  destruct ps.
  2: { destruct (PowerOffVM P _ _) as [[task | e] w3]; close_defer;
         rewrite existsb_isDelete_mutations, E; quiet_log; rewrite Hm3, Hm;
         discriminate. }
  all: intros _; eexists ref, _, _, s3;
    (split; [exists s1, w2; auto |]); (split; [exact Hp | discriminate]).
Qed.

(** C4, as the code has it. In a [DestroyVM] pass that finds the remote VM
    reported as powered on, the one mutating call is a power-off (so no
    delete is issued in that pass) and the phase returned is Pending; when
    the platform accepts the power-off, the id of its task is stored as the
    task reference and the pass returns no error; when the platform refuses
    it, the pass returns that error and the task reference stays as it was.
    A delete call is only ever issued in a pass that finds the VM and reads
    a power state other than PoweredOn. *)
Theorem destroy_powers_off_before_delete (session : Session) :
  (forall w v ref s o w1,
      findsVM P (startPass w v) ref s ->
      GetVM P (Value ref) (world s) = (inl o, w1) ->
      Status o = "STARTED"%string ->
      let r := DestroyVM P session (startPass w v) in
      mutations (calls (snd r)) = [CallPowerOffVM (Value ref)] /\
      VirtualMachine.State (fst (fst r)) = VirtualMachineStatePending /\
      (forall task w2,
          PowerOffVM P (Value ref) w1 = (inl task, w2) ->
          ICSVM.TaskRef (icsvm (snd r)) = TaskId task /\ snd (fst r) = None) /\
      (forall e w2,
          PowerOffVM P (Value ref) w1 = (inr e, w2) ->
          ICSVM.TaskRef (icsvm (snd r)) = ICSVM.TaskRef (icsvm s) /\
          snd (fst r) = Some e)) /\
  (forall w v,
      existsb isDelete (calls (snd (DestroyVM P session (startPass w v)))) = true ->
      exists ref s ps s',
        findsVM P (startPass w v) ref s /\
        getPowerState P ref s = ((ps, None), s') /\
        ps <> VirtualMachinePowerStatePoweredOn).
Proof.
  split.
  - intros. eapply destroy_powered_on; eauto.
  - apply delete_only_when_not_powered_on.
Qed.

End Orchestrator.

(** ** The claims on concrete passes *)

Section Scenarios.
Import Fake.

Lemma script_finds sc :
  find sc = inl vm8 ->
  findsVM (platform sc) (startPass 0%nat machine) vm8 (afterProbe machine).
Proof.
  intros Hf. destruct sc. simpl in *. subst.
  eexists _, _. repeat split.
Qed.

Lemma script_misses sc err v :
  find sc = inr err -> ICSVM.TaskRef v = ""%string ->
  missesVM (platform sc) (startPass 0%nat v) err (afterProbe v).
Proof.
  intros Hf Hv. destruct sc. simpl in *. subst.
  exists (startPass 0%nat v), 0%nat.
  unfold reconcileInFlightTask, bind, getICSVM, startPass. simpl.
  rewrite Hv. repeat split.
Qed.

Lemma script_reaches_power_sync sc status memory :
  find sc = inl vm8 ->
  net sc = inl [] ->
  head (vms sc) = Some (inl (vmObject status memory)) ->
  reachesPowerSync (platform sc) (startPass 0%nat machine) vm8
    syncedVM atPowerSync.
Proof.
  intros Hf Hn Hv. destruct sc as [? ? ? ? ? vs ? ? ? ? ? ?]. simpl in *.
  subst. destruct vs as [| v0 vs]; [discriminate |]. injection Hv as ->.
  unfold reachesPowerSync, findsVM.
  eexists _, _, _. split; [eexists _, _; repeat split |]; split; reflexivity.
Qed.

(** C1, as stated, fails: a paused VM makes [ReconcileVM] return an error. *)
Lemma paused_vm_ends_in_error :
  transitional "PAUSED" = true /\
  snd (fst (ReconcileVM (platform (with_vms [inl (vmObject "PAUSED" 4096)] script))
              (startPass 0%nat machine))) =
  Some (Errorf "unexpected power state %q for vm %s"
          [ArgPowerState VirtualMachinePowerStateSuspended;
           ArgContext machineString]).
Proof. split; reflexivity. Qed.

Lemma transitional_power_state_is_reported_witness :
  let P := platform (with_vms [inl (vmObject "PAUSED" 4096)] script) in
  let r := ReconcileVM P (startPass 0%nat machine) in
  reachesPowerSync P (startPass 0%nat machine) vm8 syncedVM atPowerSync /\
  GetVM P (Value vm8) (world atPowerSync) = (inl (vmObject "PAUSED" 4096), 2%nat) /\
  transitional "PAUSED" = true /\
  VirtualMachine.State (fst (fst r)) = VirtualMachineStatePending /\
  snd (fst r) =
    Some (Errorf "unexpected power state %q for vm %s"
            [ArgPowerState VirtualMachinePowerStateSuspended;
             ArgContext machineString]) /\
  mutations (calls (snd r)) = [].
Proof.
  intros P r.
  assert (Hr : reachesPowerSync P (startPass 0%nat machine) vm8 syncedVM
                 atPowerSync)
    by (eapply script_reaches_power_sync; reflexivity).
  split; [exact Hr |]. split; [reflexivity |]. split; [reflexivity |].
  exact (proj1 (transitional_power_state_is_reported P 0%nat machine vm8
                  syncedVM atPowerSync _ _ Hr eq_refl) eq_refl).
Defined.

(** C2 does not hold of the code: the probe fails with an error that is not
    a not-found, and [ReconcileVM] goes on to create the VM and returns no
    error. *)
Theorem transient_probe_error_still_creates :
  let P := platform (with_find (inr (External "connection refused")) script) in
  isNotFound P (External "connection refused") = false /\
  ReconcileVM P (startPass 0%nat machine) =
    ((pendingVM, None),
     {| world := 0%nat; icsvm := machine;
        calls := [CallFindVM; CallSecretGet "default" "worker-0-boot";
                  CallCreateVM "hi"] |}).
Proof. split; reflexivity. Qed.

Lemma capacity_guard_witness :
  let P := platform script in
  let Q := platform (with_host (inl {| FreeMemoryInByte := 4096;
                                      LogicFreeMemoryInByte := 9000 |}) script) in
  reachesPowerSync P (startPass 0%nat machine) vm8 syncedVM atPowerSync /\
  4096 < 8192 /\
  mutations (calls (snd (ReconcileVM P (startPass 0%nat machine)))) =
    [CallPowerOnVM "vm-8"] /\
  reachesPowerSync Q (startPass 0%nat machine) vm8 syncedVM atPowerSync /\
  4096 >= 4096 /\
  mutations (calls (snd (ReconcileVM Q (startPass 0%nat machine)))) = [] /\
  snd (fst (ReconcileVM Q (startPass 0%nat machine))) =
    Some (New PoweringOnFailedReason).
Proof.
  intros P Q.
  assert (Hp : reachesPowerSync P (startPass 0%nat machine) vm8 syncedVM
                 atPowerSync)
    by (eapply script_reaches_power_sync; reflexivity).
  assert (Hq : reachesPowerSync Q (startPass 0%nat machine) vm8 syncedVM
                 atPowerSync)
    by (eapply script_reaches_power_sync; reflexivity).
  split; [exact Hp |]. split; [lia |]. split.
  - apply (proj2 (capacity_guard P 0%nat machine vm8 syncedVM atPowerSync
                    (vmObject "STOPPED" 4096) 2%nat (vmObject "STOPPED" 4096)
                    3%nat _ 3%nat Hp eq_refl eq_refl eq_refl eq_refl)).
    simpl. lia.
  - split; [exact Hq |]. split; [lia |].
    apply (proj1 (capacity_guard Q 0%nat machine vm8 syncedVM atPowerSync
                    (vmObject "STOPPED" 4096) 2%nat (vmObject "STOPPED" 4096)
                    3%nat _ 3%nat Hq eq_refl eq_refl eq_refl eq_refl)).
    simpl. lia.
Defined.

Lemma destroy_powers_off_before_delete_witness :
  let P := platform (with_vms [inl (vmObject "STARTED" 4096)] script) in
  let r := DestroyVM P session (startPass 0%nat machine) in
  findsVM P (startPass 0%nat machine) vm8 (afterProbe machine) /\
  mutations (calls (snd r)) = [CallPowerOffVM "vm-8"] /\
  VirtualMachine.State (fst (fst r)) = VirtualMachineStatePending /\
  ICSVM.TaskRef (icsvm (snd r)) = "task-off"%string /\
  snd (fst r) = None /\
  existsb isDelete
    (calls (snd (DestroyVM (platform script) session (startPass 0%nat machine))))
    = true /\
  exists ref s ps s',
    findsVM (platform script) (startPass 0%nat machine) ref s /\
    getPowerState (platform script) ref s = ((ps, None), s') /\
    ps <> VirtualMachinePowerStatePoweredOn.
Proof.
  intros P r.
  assert (Hf : findsVM P (startPass 0%nat machine) vm8 (afterProbe machine))
    by (apply script_finds; reflexivity).
  split; [exact Hf |].
  destruct (proj1 (destroy_powers_off_before_delete P session) 0%nat machine
              vm8 (afterProbe machine) _ 1%nat Hf eq_refl eq_refl)
    as (Hm & Hs & Ht & _).
  split; [exact Hm |]. split; [exact Hs |].
  destruct (Ht {| TaskId := "task-off" |} 1%nat eq_refl) as [Hr He].
  split; [exact Hr |]. split; [exact He |]. split; [reflexivity |].
  apply (proj2 (destroy_powers_off_before_delete (platform script) session)
           0%nat machine).
  reflexivity.
Defined.

(** C4, as stated, fails where the platform refuses the power-off: the pass
    returns the platform's error and stores no task reference. *)
Lemma power_off_failure_is_returned :
  DestroyVM (platform (with_powerOff (inr (External "host unreachable"))
                         (with_vms [inl (vmObject "STARTED" 4096)] script)))
            session (startPass 0%nat machine) =
    ((pendingVM, Some (External "host unreachable")),
     {| world := 1%nat; icsvm := machine;
        calls := [CallFindVM; CallGetVM "vm-8"; CallPowerOffVM "vm-8"] |}).
Proof. reflexivity. Qed.

Lemma task_guard_short_circuit_witness :
  let P := platform script in
  ICSVM.TaskRef busyMachine <> ""%string /\
  getTask P (ICSVM.TaskRef busyMachine) 0%nat = (TaskPending, 0%nat) /\
  shortCircuited busyMachine (ReconcileVM P (startPass 0%nat busyMachine)) /\
  shortCircuited busyMachine (DestroyVM P session (startPass 0%nat busyMachine)).
Proof.
  intros P.
  assert (Hne : ICSVM.TaskRef busyMachine <> ""%string) by discriminate.
  split; [exact Hne |]. split; [reflexivity |].
  exact (task_guard_short_circuit P session 0%nat busyMachine 0%nat Hne eq_refl).
Defined.

Lemma destroy_not_found_converges_witness :
  let P := platform (with_find (inr (External "not found")) script) in
  let r := DestroyVM P session (startPass 0%nat machine) in
  missesVM P (startPass 0%nat machine) (External "not found") (afterProbe machine) /\
  isNotFound P (External "not found") = true /\
  VirtualMachine.State (fst (fst r)) = VirtualMachineStateNotFound /\
  snd (fst r) = None /\
  mutations (calls (snd r)) = [].
Proof.
  intros P r.
  assert (Hm : missesVM P (startPass 0%nat machine) (External "not found")
                 (afterProbe machine))
    by (apply script_misses; reflexivity).
  split; [exact Hm |]. split; [reflexivity |].
  exact (destroy_not_found_converges P session 0%nat machine _ _ Hm eq_refl).
Defined.

Lemma missing_bootstrap_no_create_witness :
  let P := platform (with_find (inr (External "not found")) script) in
  let Q := platform (with_secret (inl {| Data := ∅ |})
                       (with_find (inr (External "not found")) script)) in
  missesVM P (startPass 0%nat bareMachine) (External "not found")
    (afterProbe bareMachine) /\
  (snd (fst (ReconcileVM P (startPass 0%nat bareMachine))) =
     Some (New "error retrieving bootstrap data: linked icsvm's bootstrapRef is nil") /\
   mutations (calls (snd (ReconcileVM P (startPass 0%nat bareMachine)))) = []) /\
  missesVM Q (startPass 0%nat machine) (External "not found")
    (afterProbe machine) /\
  (snd (fst (ReconcileVM Q (startPass 0%nat machine))) =
     Some (New "error retrieving bootstrap data: secret value key is missing") /\
   mutations (calls (snd (ReconcileVM Q (startPass 0%nat machine)))) = []).
Proof.
  intros P Q.
  assert (Hp : missesVM P (startPass 0%nat bareMachine) (External "not found")
                 (afterProbe bareMachine))
    by (apply script_misses; reflexivity).
  assert (Hq : missesVM Q (startPass 0%nat machine) (External "not found")
                 (afterProbe machine))
    by (apply script_misses; reflexivity).
  split; [exact Hp |]. split.
  - exact (proj1 (missing_bootstrap_no_create P) 0%nat bareMachine _ _ Hp
             eq_refl).
  - split; [exact Hq |].
    exact (proj2 (missing_bootstrap_no_create Q) 0%nat machine _ _
             {| RefNamespace := "default"; RefName := "worker-0-boot" |}
             {| Data := ∅ |} 0%nat Hq eq_refl eq_refl eq_refl).
Defined.

Lemma create_with_decoded_payload_witness :
  let P := platform (with_find (inr (External "not found")) script) in
  let r := ReconcileVM P (startPass 0%nat machine) in
  missesVM P (startPass 0%nat machine) (External "not found") (afterProbe machine) /\
  Base64.DecodeString (Base64.EncodeToString [x68; x69]) = inl [x68; x69] /\
  mutations (calls (snd r)) = [CallCreateVM "hi"] /\
  VirtualMachine.State (fst (fst r)) = VirtualMachineStatePending.
Proof.
  intros P r.
  assert (Hm : missesVM P (startPass 0%nat machine) (External "not found")
                 (afterProbe machine))
    by (apply script_misses; reflexivity).
  split; [exact Hm |].
  exact (create_with_decoded_payload P 0%nat machine _ _
           {| RefNamespace := "default"; RefName := "worker-0-boot" |}
           {| Data := {[ "value"%string := [x68; x69] ]} |} 0%nat [x68; x69]
           Hm eq_refl eq_refl eq_refl).
Defined.

Lemma capacity_lookup_failure_is_swallowed_witness :
  let stopped := inl (vmObject "STOPPED" 4096) in
  let P := platform (with_vms [stopped; stopped; inr (External "timeout")] script) in
  let Q := platform (with_host (inr (External "timeout")) script) in
  let r := ReconcileVM P (startPass 0%nat machine) in
  let q := ReconcileVM Q (startPass 0%nat machine) in
  reachesPowerSync P (startPass 0%nat machine) vm8 syncedVM atPowerSync /\
  GetVM P (Value vm8) 2%nat = (inr (External "timeout"), 3%nat) /\
  (VirtualMachine.State (fst (fst r)) = VirtualMachineStatePending /\
   snd (fst r) = None /\ mutations (calls (snd r)) = []) /\
  reachesPowerSync Q (startPass 0%nat machine) vm8 syncedVM atPowerSync /\
  GetHost Q "host-1" 3%nat = (inr (External "timeout"), 3%nat) /\
  (VirtualMachine.State (fst (fst q)) = VirtualMachineStatePending /\
   snd (fst q) = None /\ mutations (calls (snd q)) = []).
Proof.
  intros stopped P Q r q.
  assert (Hp : reachesPowerSync P (startPass 0%nat machine) vm8 syncedVM
                 atPowerSync)
    by (eapply script_reaches_power_sync; reflexivity).
  assert (Hq : reachesPowerSync Q (startPass 0%nat machine) vm8 syncedVM
                 atPowerSync)
    by (eapply script_reaches_power_sync; reflexivity).
  split; [exact Hp |]. split; [reflexivity |]. split.
  - apply (capacity_lookup_failure_is_swallowed P 0%nat machine vm8 syncedVM
             atPowerSync (vmObject "STOPPED" 4096) 2%nat Hp eq_refl eq_refl).
    left. exists (External "timeout"), 3%nat. reflexivity.
  - split; [exact Hq |]. split; [reflexivity |].
    apply (capacity_lookup_failure_is_swallowed Q 0%nat machine vm8 syncedVM
             atPowerSync (vmObject "STOPPED" 4096) 2%nat Hq eq_refl eq_refl).
    right. exists (vmObject "STOPPED" 4096), 3%nat, (External "timeout"), 3%nat.
    split; reflexivity.
Defined.

End Scenarios.

(** ** The discovery poller *)

Section PollerFacts.
Import Poller.

Lemma start_noop uid initialized s :
  uid ∈ apiServerTriggers s ->
  reconcileICSClusterWhenAPIServerIsOnline uid initialized s = s.
Proof.
  intros Hin. unfold reconcileICSClusterWhenAPIServerIsOnline.
  destruct initialized; [reflexivity |]. rewrite decide_True; trivial.
Qed.

Lemma fst_insert_same (gs : list (UID * Location)) i uid l l' :
  gs !! i = Some (uid, l) -> (<[i := (uid, l')]> gs).*1 = gs.*1.
Proof.
  intros H. rewrite list_fmap_insert. apply list_insert_id.
  rewrite list_lookup_fmap, H. reflexivity.
Qed.

Lemma lookup_insert_Unregister (gs : list (UID * Location)) i j uid l uid' o :
  <[i := (uid, l)]> gs !! j = Some (uid', Unregister o) ->
  (i = j /\ l = Unregister o) \/ gs !! j = Some (uid', Unregister o).
Proof.
  destruct (decide (i = j)) as [-> | Hne].
  - destruct (decide (j < length gs)%nat) as [Hlt | Hge].
    + rewrite list_lookup_insert_eq by trivial. intros [= <- <-]. auto.
    + rewrite list_insert_ge by lia. auto.
  - rewrite list_lookup_insert_ne by trivial. auto.
Qed.

Lemma consistent_initial : consistent initial.
Proof.
  repeat split; simpl.
  - constructor.
  - intros H. apply elem_of_empty in H as [].
  - intros H. inversion H.
  - intros i uid o H. discriminate.
Qed.

Lemma consistent_start uid initialized s :
  consistent s ->
  consistent (reconcileICSClusterWhenAPIServerIsOnline uid initialized s).
Proof.
  intros (Hnd & Hreg & Hun). unfold reconcileICSClusterWhenAPIServerIsOnline.
  destruct initialized; [repeat split; trivial; apply Hreg |].
  destruct (decide (uid ∈ apiServerTriggers s)) as [Hin | Hout];
    [repeat split; trivial; apply Hreg |].
  repeat split; simpl.
  - rewrite fmap_app. apply NoDup_app. repeat split; trivial.
    + intros x Hx [= ->]%list_elem_of_singleton. apply Hout, Hreg, Hx.
    + apply NoDup_singleton.
  - rewrite fmap_app, elem_of_app, elem_of_union, Hreg. simpl.
    rewrite elem_of_singleton, list_elem_of_singleton. tauto.
  - rewrite fmap_app, elem_of_app, elem_of_union, Hreg. simpl.
    rewrite elem_of_singleton, list_elem_of_singleton. tauto.
  - intros i uid' o Hi.
    apply lookup_app_Some in Hi as [Hi | [_ Hi]]; [eapply Hun, Hi |].
    apply list_lookup_singleton_Some in Hi as [_ [=]].
Qed.

Lemma consistent_run i o s s' :
  consistent s -> runGoroutine i o s = Some s' -> consistent s'.
Proof.
  intros (Hnd & Hreg & Hun). unfold runGoroutine.
  destruct (goroutines s !! i) as [[uid l] |] eqn:Hi; [| discriminate].
  assert (Hmove : forall l', (forall o', l' = Unregister o' ->
                                isControlPlaneInitialized o' = true) ->
                             consistent (moveTo i uid l' s)).
  { intros l' Hl'. repeat split; simpl;
      rewrite ?(fst_insert_same _ _ _ _ _ Hi); trivial; try apply Hreg.
    intros j uid' o' Hj.
    apply lookup_insert_Unregister in Hj as [[_ ->] | Hj]; eauto. }
  destruct l.
  - intros [= <-]. destruct (isAPIServerOnline o).
    + apply Hmove. discriminate.
    + repeat split; trivial; apply Hreg.
  - intros [= <-].
    apply (Hmove PollInitialized). discriminate.
  - intros [= <-]. destruct (isControlPlaneInitialized o) eqn:Ho.
    + apply Hmove. intros o' [= <-]. exact Ho.
    + repeat split; trivial; apply Hreg.
  - intros [= <-]. simpl.
    pose proof (take_drop_middle _ _ _ Hi) as Hsplit.
    rewrite <- Hsplit, fmap_app, fmap_cons in Hnd, Hreg. simpl in Hnd, Hreg.
    apply NoDup_app in Hnd as (Hnd1 & Hdis & Hnd2).
    apply NoDup_cons in Hnd2 as [Hnotin Hnd2].
    repeat split; simpl; rewrite ?delete_take_drop, ?fmap_app.
    + apply NoDup_app. repeat split; trivial.
      intros x Hx Hx'. apply (Hdis x Hx). right. exact Hx'.
    + rewrite elem_of_difference, elem_of_singleton, Hreg, !elem_of_app,
        elem_of_cons. intros [[H1 | [H2 | H3]] Hne]; tauto.
    + rewrite elem_of_difference, elem_of_singleton, Hreg, !elem_of_app,
        elem_of_cons. intros [H1 | H3]; split; auto.
      * intros ->. apply (Hdis uid H1). left.
      * intros ->. apply Hnotin, H3.
    + intros j uid' o' Hj. apply list_elem_of_lookup_2 in Hj.
      assert (Hin : (uid', Unregister o') ∈ goroutines s).
      { rewrite <- Hsplit. rewrite elem_of_app in Hj |- *.
        rewrite elem_of_cons. tauto. }
      apply list_elem_of_lookup_1 in Hin as [k Hk]. eapply Hun, Hk.
Qed.

Lemma consistent_exec a s s' :
  consistent s -> exec a s = Some s' -> consistent s'.
Proof.
  destruct a as [uid initialized | i o]; simpl.
  - intros H [= <-]. apply consistent_start, H.
  - apply consistent_run.
Qed.

Lemma consistent_execAll acts s s' :
  consistent s -> execAll acts s = Some s' -> consistent s'.
Proof.
  revert s. induction acts as [| a acts IH]; simpl; intros s Hs.
  - intros [= <-]. exact Hs.
  - destruct (exec a s) as [s1 |] eqn:Ha; [| discriminate].
    apply IH. eapply consistent_exec; eauto.
Qed.

Lemma reachable_consistent s : reachable s -> consistent s.
Proof.
  intros [acts H]. eapply consistent_execAll; [apply consistent_initial | exact H].
Qed.

(** With no two goroutines for a cluster, the pollers of a cluster are at
    most one, and exactly one when the cluster has a goroutine. *)
Lemma pollers_count (gs : list (UID * Location)) uid :
  NoDup gs.*1 ->
  let n := length (List.filter (fun g => String.eqb (fst g) uid) gs) in
  (n <= 1)%nat /\ (uid ∈ gs.*1 <-> n = 1%nat).
Proof.
  induction gs as [| [u l] gs IH]; simpl; intros Hnd.
  - split; [lia |]. split; [intros H; inversion H | discriminate].
  - apply NoDup_cons in Hnd as [Hnotin Hnd]. destruct (IH Hnd) as [Hle Hiff].
    rewrite elem_of_cons. destruct (String.eqb_spec u uid) as [-> | Hne]; simpl.
    + assert (Hz : length (List.filter (fun g => String.eqb (fst g) uid) gs)
                   = 0%nat).
      { destruct (length _) as [| [| k]]; [reflexivity | | lia].
        exfalso. apply Hnotin, Hiff. reflexivity. }
      rewrite Hz. split; [lia | tauto].
    + split; [exact Hle |]. rewrite <- Hiff. split; [| tauto].
      intros [-> | H]; [contradiction | exact H].
Qed.

(** C9, as the code has it. In every state the controller can reach:
    starting the poller for a cluster that has an entry in the registry
    changes nothing; a cluster has at most one running poller, and has one
    exactly when it has an entry (the entry is there from the step that
    starts the goroutine on); and an entry is removed only by that cluster's
    goroutine after [isControlPlaneInitialized] answered true, which it does
    when the condition is seen or when the cluster object is no longer
    found. *)
Theorem poller_singleton s :
  reachable s ->
  (forall uid initialized,
      uid ∈ apiServerTriggers s ->
      reconcileICSClusterWhenAPIServerIsOnline uid initialized s = s) /\
  (forall uid,
      (length (pollersOf uid s) <= 1)%nat /\
      (uid ∈ apiServerTriggers s <-> length (pollersOf uid s) = 1%nat)) /\
  (forall a s' uid,
      exec a s = Some s' ->
      uid ∈ apiServerTriggers s -> uid ∉ apiServerTriggers s' ->
      exists i o o',
        a = Run i o' /\ goroutines s !! i = Some (uid, Unregister o) /\
        (clusterGet o = GetNotFound \/
         (clusterGet o = GetOk /\ ctxInitialized o = true))).
Proof.
  intros Hr. pose proof (reachable_consistent s Hr) as (Hnd & Hreg & Hun).
  split; [intros; apply start_noop; trivial |]. split.
  - intros uid. destruct (pollers_count (goroutines s) uid Hnd) as [Hle Hiff].
    split; [exact Hle |]. rewrite Hreg. exact Hiff.
  - intros a s' uid Ha Hin Hout. destruct a as [u initialized | i o']; simpl in Ha.
    + injection Ha as <-. exfalso. apply Hout.
      unfold reconcileICSClusterWhenAPIServerIsOnline.
      destruct initialized; trivial.
      destruct (decide (u ∈ apiServerTriggers s)); trivial.
      simpl. apply elem_of_union_r, Hin.
    + unfold runGoroutine in Ha.
      destruct (goroutines s !! i) as [[u l] |] eqn:Hi; [| discriminate].
      destruct l as [| | | o]; injection Ha as <-;
        try (exfalso; apply Hout;
             repeat match goal with |- context [if ?b then _ else _] =>
                                      destruct b end; exact Hin).
      simpl in Hout.
      assert (uid = u) as ->.
      { destruct (decide (uid = u)) as [-> | Hne]; trivial.
        exfalso. apply Hout, elem_of_difference. split; trivial.
        rewrite elem_of_singleton. exact Hne. }
      exists i, o, o'. split; [reflexivity |]. split; [exact Hi |].
      pose proof (Hun _ _ _ Hi) as Ho. unfold isControlPlaneInitialized in Ho.
      destruct (clusterGet o); auto. discriminate.
Qed.

Lemma poller_singleton_witness :
  reachable polling /\
  reconcileICSClusterWhenAPIServerIsOnline "c1" false polling = polling /\
  length (pollersOf "c1" polling) = 1%nat.
Proof.
  assert (Hr : reachable polling) by (exists [Start "c1" false]; reflexivity).
  assert (Hin : "c1" ∈ apiServerTriggers polling)
    by (apply elem_of_union_l, elem_of_singleton; reflexivity).
  destruct (poller_singleton polling Hr) as (Hnoop & Hone & _).
  split; [exact Hr |]. split; [exact (Hnoop "c1" false Hin) |].
  exact (proj1 (proj2 (Hone "c1")) Hin).
Defined.

(** C9, as stated, fails in its last part: the entry of a cluster is removed
    in a run in which the control-plane-initialized condition was never
    seen, because the cluster object was no longer found. *)
Lemma entry_removed_with_condition_unseen :
  exists s s',
    execAll [Start "c1" false; Run 0 clusterGone; Run 0 clusterGone;
             Run 0 clusterGone] initial = Some s /\
    registered "c1" s = true /\
    exec (Run 0 clusterGone) s = Some s' /\
    registered "c1" s' = false /\
    ctxInitialized clusterGone = false.
Proof.
  eexists _, _. split; [reflexivity |]. split; [reflexivity |].
  split; [reflexivity |]. split; reflexivity.
Qed.

End PollerFacts.

(** ** More of the VM service *)

Section ServiceCoverage.
Context {W : Type} (P : Platform W).
Local Arguments String.eqb : simpl never.
Local Arguments Z.geb : simpl never.
Local Arguments Base64.DecodeString : simpl never.
Local Arguments Base64.EncodeToString : simpl never.
Local Arguments string_of_list_byte : simpl never.

Ltac end_pass :=
  match goal with
  | |- context [reconcileICSVMOnTaskCompletion ?s] =>
      let u := fresh "u" in let s' := fresh "s'" in
      let E := fresh "E" in let Ev := fresh "Ev" in
      destruct (reconcileICSVMOnTaskCompletion s) as [u s'] eqn:E;
      apply reconcileICSVMOnTaskCompletion_frame in E as [E Ev];
      simpl in E, Ev |- *
  end.

(** What [getBootstrapData] hands over: with no error, the encoding of the
    [value] of the referenced secret, read with one call. *)
Lemma getBootstrapData_cases s b s' :
  getBootstrapData P s = (b, s') ->
  mutations (calls s') = mutations (calls s) /\
  icsvm s' = icsvm s /\
  (snd b = None ->
   exists ref secret value,
     ICSVM.BootstrapRef (icsvm s) = Some ref /\
     ClientGet P (RefNamespace ref) (RefName ref) (world s) = (inl secret, world s') /\
     Data secret !! "value"%string = Some value /\
     fst b = Base64.EncodeToString value).
Proof.
  unfold getBootstrapData, ctxString, bind, call, getICSVM, ret.
  destruct (ICSVM.BootstrapRef (icsvm s)) as [ref |].
  - destruct (ClientGet P _ _ _) as [[secret | e] w3] eqn:Hs; simpl.
    + destruct (Data secret !! "value"%string) as [value |] eqn:Hk;
        intros [= <- <-]; simpl; quiet_log; repeat split; trivial;
        try discriminate.
      intros _. exists ref, secret, value. auto.
    + intros [= <- <-]. simpl. quiet_log. repeat split; trivial. discriminate.
  - intros [= <- <-]. simpl. repeat split; trivial. discriminate.
Qed.

Lemma bootstrap_data_decodes_aux s md s' :
  getBootstrapData P s = ((md, None), s') ->
  exists value, Base64.DecodeString md = inl value.
Proof.
  intros H. apply getBootstrapData_cases in H as (_ & _ & H).
  destruct (H eq_refl) as (ref & secret & value & _ & _ & _ & Hmd).
  simpl in Hmd. subst md. exists value. apply DecodeString_EncodeToString.
Qed.

(** The power sync issues at most a power-on, and answers [true] only for
    a VM reported as started, with nothing issued and nothing written. *)
Lemma reconcilePowerState_cases ref s p s' :
  reconcilePowerState P ref s = (p, s') ->
  (mutations (calls s') = mutations (calls s) \/
   (mutations (calls s') = mutations (calls s) ++ [CallPowerOnVM (Value ref)] /\
    fst p = false)) /\
  (fst p = true ->
   snd p = None /\ mutations (calls s') = mutations (calls s) /\
   icsvm s' = icsvm s /\
   exists o w1, GetVM P (Value ref) (world s) = (inl o, w1) /\
                Status o = "STARTED"%string).
Proof.
  unfold reconcilePowerState, getPowerState, reconcileICSVMWhenNetworkIsReady,
    ctxString, bind, call, note, getICSVM, modifyICSVM, ret.
  destruct (GetVM P (Value ref) (world s)) as [[o | e] w1] eqn:Hv; simpl.
  2: { intros [= <- <-]. simpl. quiet_log. split; [auto | discriminate]. }
  destruct (String.eqb_spec (Status o) "STARTED") as [Hst | _]; simpl.
  { intros [= <- <-]. simpl. quiet_log. split; [auto |]. intros _. eauto 10. }
  destruct (String.eqb (Status o) "STOPPED"); simpl.
  2: { repeat destruct (String.eqb _ _); simpl; intros [= <- <-]; simpl;
         quiet_log; (split; [auto | discriminate]). }
  destruct (GetVM P (Value ref) w1) as [[vmObj | e] w2]; simpl.
  2: { intros [= <- <-]. simpl. quiet_log. split; [auto | discriminate]. }
  destruct (GetHost P _ w2) as [[host | e] w3]; simpl.
  2: { intros [= <- <-]. simpl. quiet_log. split; [auto | discriminate]. }
  destruct (_ || _); simpl.
  { intros [= <- <-]. simpl. quiet_log. split; [auto | discriminate]. }
  destruct (PowerOnVM P _ w3) as [[task | e] w4]; simpl.
  2: { intros [= <- <-]. simpl. quiet_log. split; [auto | discriminate]. }
  destruct (WaitForResult P _ w4) as [[[ti |] we] w5]; simpl;
    [destruct (String.eqb (TaskState ti) "ERROR") |];
    intros [= <- <-]; simpl; quiet_log; (split; [auto | discriminate]).
Qed.

(** X1. Ready: when the pass reaches the power sync and the platform
    reports the VM as started, [ReconcileVM] returns phase Ready with no
    error, and issues no mutating call. *)
Theorem started_vm_is_ready w v ref vm s o w1 :
  reachesPowerSync P (startPass w v) ref vm s ->
  GetVM P (Value ref) (world s) = (inl o, w1) ->
  Status o = "STARTED"%string ->
  let r := ReconcileVM P (startPass w v) in
  fst r = (VirtualMachine.with_State VirtualMachineStateReady vm, None) /\
  mutations (calls (snd r)) = [].
Proof.
  intros Hr Hv Hs r. subst r.
  pose proof (reachesPowerSync_frame _ _ _ _ _ Hr) as [_ Hm].
  pose proof (getPowerState_status P ref s o w1 _
                VirtualMachinePowerStatePoweredOn Hv Hs) as Hp.
  destruct (ReconcileVM_power_sync P _ ref vm s (true, None)
              {| world := w1; icsvm := icsvm s;
                 calls := calls s ++ [CallGetVM (Value ref)] |} Hr)
    as (s'' & -> & Hm'' & _).
  { unfold reconcilePowerState, bind, ret. rewrite Hp by auto. reflexivity. }
  simpl in *. rewrite Hm''. quiet_log. rewrite Hm. auto.
Qed.

(** Every outcome of [ReconcileVM], through the results of the functions it
    calls: [K] holds of the outcome when it holds on each path. *)
Lemma ReconcileVM_paths (K : VirtualMachine.t * option error * Ctx W -> Prop)
    w v :
  let s0 := startPass w v in
  let vm0 := fst (initialVM s0) in
  (forall s1, reconcileInFlightTask P s0 = ((true, None), s1) ->
              K ((vm0, None), s1)) ->
  (forall err s b s3 s4,
      missesVM P s0 err s -> getBootstrapData P s = (b, s3) ->
      snd b <> None ->
      mutations (calls s4) = mutations (calls s3) -> icsvm s4 = icsvm s3 ->
      K ((vm0, snd b), s4)) ->
  (forall err s md s3 value e w4 s4,
      missesVM P s0 err s -> getBootstrapData P s = ((md, None), s3) ->
      Base64.DecodeString md = inl value ->
      CreateVM P (icsvm s3) (string_of_list_byte value) (world s3) = (e, w4) ->
      mutations (calls s4) =
        mutations (calls s3) ++ [CallCreateVM (string_of_list_byte value)] ->
      icsvm s4 = icsvm s3 ->
      K ((vm0, e), s4)) ->
  (forall ref s2 vm1 s3 vm2 e s4 s5,
      findsVM P s0 ref s2 -> reconcileUUID P ref vm0 s2 = (vm1, s3) ->
      reconcileNetworkStatus P ref vm1 s3 = ((vm2, Some e), s4) ->
      mutations (calls s5) = mutations (calls s4) -> icsvm s5 = icsvm s4 ->
      K ((vm2, Some e), s5)) ->
  (forall ref vm s p s5 s6,
      reachesPowerSync P s0 ref vm s ->
      reconcilePowerState P ref s = (p, s5) ->
      mutations (calls s6) = mutations (calls s5) -> icsvm s6 = icsvm s5 ->
      K (if notNil (snd p) || negb (fst p) then (vm, snd p)
         else (VirtualMachine.with_State VirtualMachineStateReady vm, None),
         s6)) ->
  K (ReconcileVM P s0).
Proof.
  intros s0 vm0 Kheld Kboot Kcreate Knet Kpower.
  destruct (reconcileInFlightTask P s0) as [[fl ge] s1] eqn:Hg.
  pose proof (reconcileInFlightTask_frame P _ _ _ Hg) as (He & _).
  simpl in He. subst ge.
  unfold ReconcileVM, defer, bind, call, getICSVM, ret.
  unfold initialVM, bind, getICSVM, ret in vm0 |- *. simpl in vm0 |- *.
  fold s0. rewrite Hg. simpl. destruct fl; simpl.
  { apply Kheld. reflexivity. }
  destruct (findVM P (icsvm s1) (world s1)) as [[ref | err] w2] eqn:Hf.
  - set (s2 := {| world := w2; icsvm := icsvm s1;
                  calls := calls s1 ++ [CallFindVM] |}).
    assert (Hfinds : findsVM P s0 ref s2) by (exists s1, w2; auto).
    destruct (reconcileUUID P ref vm0 s2) as [vm1 s3] eqn:Hu.
    unfold vm0 in Hu. rewrite Hu.
    destruct (reconcileNetworkStatus P ref vm1 s3) as [[vm2 [e |]] s4] eqn:Hn.
    + end_pass. eapply Knet; eauto.
    + assert (Hr : reachesPowerSync P s0 ref vm2 s4)
        by (exists s2, vm1, s3; auto).
      destruct (reconcilePowerState P ref s4) as [p s5] eqn:Hp.
      pose proof (Kpower ref vm2 s4 p s5) as HK.
      destruct (notNil (snd p) || negb (fst p)); end_pass; eapply HK; eauto.
  - set (s2 := {| world := w2; icsvm := icsvm s1;
                  calls := calls s1 ++ [CallFindVM] |}).
    assert (Hmiss : missesVM P s0 err s2) by (exists s1, w2; auto).
    destruct (getBootstrapData P s2) as [[md [e |]] s3] eqn:Hb.
    + end_pass. apply (Kboot err s2 (md, Some e) s3 s'); auto; discriminate.
    + destruct (bootstrap_data_decodes_aux s2 md s3 Hb) as [value Hd].
      rewrite Hd.
      destruct (CreateVM P (icsvm s3) _ (world s3)) as [e w4] eqn:Hc.
      end_pass. eapply Kcreate; eauto. rewrite E. quiet_log. reflexivity.
Qed.

Lemma mutations_startPass (w : W) v : mutations (calls (startPass w v)) = [].
Proof. reflexivity. Qed.


(** X3. A [ReconcileVM] pass issues at most one mutating call, a create or
    a power-on and never a power-off or a delete, and the phase it reports
    is Pending or Ready. *)
Theorem ReconcileVM_outcome_shape w v :
  let r := ReconcileVM P (startPass w v) in
  (mutations (calls (snd r)) = [] \/
   (exists payload, mutations (calls (snd r)) = [CallCreateVM payload]) \/
   (exists id, mutations (calls (snd r)) = [CallPowerOnVM id])) /\
  (VirtualMachine.State (fst (fst r)) = VirtualMachineStatePending \/
   VirtualMachine.State (fst (fst r)) = VirtualMachineStateReady).
Proof.
  apply (ReconcileVM_paths
           (fun r =>
              (mutations (calls (snd r)) = [] \/
               (exists payload, mutations (calls (snd r)) = [CallCreateVM payload]) \/
               (exists id, mutations (calls (snd r)) = [CallPowerOnVM id])) /\
              (VirtualMachine.State (fst (fst r)) = VirtualMachineStatePending \/
               VirtualMachine.State (fst (fst r)) = VirtualMachineStateReady)));
    simpl.
  - intros s1 Hg. apply reconcileInFlightTask_frame in Hg as (_ & -> & _).
    rewrite mutations_startPass. split; auto.
  - intros err s b s3 s4 Hm Hb _ -> _.
    apply missesVM_frame in Hm as [Hm _].
    apply getBootstrapData_cases in Hb as (-> & _).
    rewrite Hm, mutations_startPass. split; auto.
  - intros err s md s3 value e w4 s4 Hm Hb _ _ -> _.
    apply missesVM_frame in Hm as [Hm _].
    apply getBootstrapData_cases in Hb as (-> & _).
    rewrite Hm, mutations_startPass. simpl. split; eauto.
  - intros ref s2 vm1 s3 vm2 e s4 s5 Hf Hu Hn -> _.
    apply findsVM_frame in Hf as [Hf _].
    apply reconcileUUID_frame in Hu as [Hu1 Hu2].
    apply reconcileNetworkStatus_frame in Hn as [Hn1 Hn2].
    rewrite Hn2, Hu2, Hf, Hn1, Hu1, mutations_startPass. split; auto.
  - intros ref vm s p s5 s6 Hr Hp -> _.
    apply reachesPowerSync_frame in Hr as [Hst Hm].
    apply reconcilePowerState_cases in Hp as [[-> | [-> _]] _];
      rewrite Hm, mutations_startPass; simpl;
      (split; [eauto |]); destruct (notNil (snd p) || negb (fst p)); auto.
Qed.

(** X4. [ReconcileVM] reports Ready only for a VM that it found and that
    the platform reported as started at the power sync, and then with no
    error and no mutating call. *)
Theorem ready_pass_is_clean w v :
  let r := ReconcileVM P (startPass w v) in
  VirtualMachine.State (fst (fst r)) = VirtualMachineStateReady ->
  snd (fst r) = None /\
  mutations (calls (snd r)) = [] /\
  exists ref vm s o w1,
    reachesPowerSync P (startPass w v) ref vm s /\
    GetVM P (Value ref) (world s) = (inl o, w1) /\
    Status o = "STARTED"%string.
Proof.
  apply (ReconcileVM_paths
           (fun r =>
              VirtualMachine.State (fst (fst r)) = VirtualMachineStateReady ->
              snd (fst r) = None /\
              mutations (calls (snd r)) = [] /\
              exists ref vm s o w1,
                reachesPowerSync P (startPass w v) ref vm s /\
                GetVM P (Value ref) (world s) = (inl o, w1) /\
                Status o = "STARTED"%string)); simpl;
    try (intros; discriminate).
  - intros ref s2 vm1 s3 vm2 e s4 s5 Hf Hu Hn _ _ Hready.
    apply reconcileUUID_frame in Hu as [Hu1 _].
    apply reconcileNetworkStatus_frame in Hn as [Hn1 _].
    rewrite Hn1, Hu1 in Hready. discriminate.
  - intros ref vm s p s5 s6 Hr Hp Hm6 _.
    pose proof (reachesPowerSync_frame _ _ _ _ _ Hr) as [Hst Hm].
    apply reconcilePowerState_cases in Hp as [_ Hok].
    destruct p as [ok pe]. simpl in *. destruct ok; simpl.
    + destruct (Hok eq_refl) as (-> & Hm5 & _ & o & w1 & Hv & Hs). simpl.
      intros _. rewrite Hm6, Hm5, Hm. eauto 10.
    + rewrite orb_true_r. simpl. rewrite Hst. discriminate.
Qed.

(** X5. The only create call a [ReconcileVM] pass ever issues carries the
    bytes of the [value] of the bootstrap secret of a resource whose remote
    VM the probe did not find. *)
Theorem create_only_from_secret_value w v payload :
  In (CallCreateVM payload)
     (mutations (calls (snd (ReconcileVM P (startPass w v))))) ->
  exists err s ref secret w3 value,
    missesVM P (startPass w v) err s /\
    ICSVM.BootstrapRef (icsvm s) = Some ref /\
    ClientGet P (RefNamespace ref) (RefName ref) (world s) = (inl secret, w3) /\
    Data secret !! "value"%string = Some value /\
    payload = string_of_list_byte value.
Proof.
  apply (ReconcileVM_paths
           (fun r =>
              In (CallCreateVM payload) (mutations (calls (snd r))) ->
              exists err s ref secret w3 value,
                missesVM P (startPass w v) err s /\
                ICSVM.BootstrapRef (icsvm s) = Some ref /\
                ClientGet P (RefNamespace ref) (RefName ref) (world s)
                  = (inl secret, w3) /\
                Data secret !! "value"%string = Some value /\
                payload = string_of_list_byte value)); simpl.
  - intros s1 Hg. apply reconcileInFlightTask_frame in Hg as (_ & -> & _).
    rewrite mutations_startPass. intros [].
  - intros err s b s3 s4 Hm Hb _ -> _.
    apply missesVM_frame in Hm as [Hm _].
    apply getBootstrapData_cases in Hb as (-> & _).
    rewrite Hm, mutations_startPass. intros [].
  - intros err s md s3 value e w4 s4 Hmiss Hb Hd _ -> _.
    pose proof (missesVM_frame _ _ _ _ Hmiss) as [Hm _].
    apply getBootstrapData_cases in Hb as (-> & _ & Hb).
    rewrite Hm, mutations_startPass. simpl.
    destruct (Hb eq_refl) as (ref & secret & value' & Href & Hget & Hk & Hmd).
    simpl in Hmd. subst md. rewrite DecodeString_EncodeToString in Hd.
    injection Hd as <-.
    intros [[= <-] | []]. exists err, s, ref, secret, (world s3), value'. auto.
  - intros ref s2 vm1 s3 vm2 e s4 s5 Hf Hu Hn -> _.
    apply findsVM_frame in Hf as [Hf _].
    apply reconcileUUID_frame in Hu as [_ Hu2].
    apply reconcileNetworkStatus_frame in Hn as [_ Hn2].
    rewrite Hn2, Hu2, Hf, mutations_startPass. intros [].
  - intros ref vm s p s5 s6 Hr Hp -> _.
    apply reachesPowerSync_frame in Hr as [_ Hm].
    apply reconcilePowerState_cases in Hp as [[-> | [-> _]] _];
      rewrite Hm, mutations_startPass; simpl; [intros [] | intros [[=] | []]].
Qed.

(** X6. Power-on accepted: for a stopped VM that fits on its host, when
    the platform accepts the power-on, the pass stores the id of its task
    as the task reference, arms the network waiter before it waits for the
    task, and stays Pending; it fails with [PoweringOnFailedReason] exactly
    when the wait hands back a task in state ERROR, and the error of the
    wait itself is dropped. *)
Theorem power_on_accepted w v ref vm s o w1 vmObj w2 host w3 task w4 ti we w5 :
  reachesPowerSync P (startPass w v) ref vm s ->
  GetVM P (Value ref) (world s) = (inl o, w1) ->
  Status o = "STOPPED"%string ->
  GetVM P (Value ref) w1 = (inl vmObj, w2) ->
  GetHost P (HostID vmObj) w2 = (inl host, w3) ->
  MemoryInByte vmObj < FreeMemoryInByte host ->
  MemoryInByte vmObj < LogicFreeMemoryInByte host ->
  PowerOnVM P (Value ref) w3 = (inl task, w4) ->
  WaitForResult P task w4 = ((ti, we), w5) ->
  let r := ReconcileVM P (startPass w v) in
  fst r =
    (vm, match ti with
         | Some info =>
             if String.eqb (TaskState info) "ERROR"
             then Some (New PoweringOnFailedReason) else None
         | None => None
         end) /\
  VirtualMachine.State vm = VirtualMachineStatePending /\
  ICSVM.TaskRef (icsvm (snd r)) = TaskId task /\
  exists notified,
    calls (snd r) =
      calls s ++ [CallGetVM (Value ref); CallGetVM (Value ref);
                  CallGetHost (HostID vmObj); CallPowerOnVM (Value ref);
                  WatchNetwork (TaskId task); CallWaitForResult (TaskId task)]
              ++ notified /\
    (notified = [] \/ notified = [WatchTask (TaskId task)]).
Proof.
  intros Hr Hv Hs Hv2 Hh HF HL Hon Hwait r. subst r.
  pose proof (reachesPowerSync_frame _ _ _ _ _ Hr) as [Hst _].
  pose proof (getPowerState_status P ref s o w1 _
                VirtualMachinePowerStatePoweredOff Hv Hs) as Hp.
  destruct Hr as (s2 & vm1 & s3 & (s1 & w0 & Hg & Hf & ->) & Hu & Hn).
  unfold ReconcileVM, defer, bind, call, getICSVM, ret.
  unfold initialVM, bind, getICSVM, ret in Hu |- *. simpl in Hu |- *.
  rewrite Hg. simpl. rewrite Hf, Hu, Hn.
  unfold reconcilePowerState, reconcileICSVMWhenNetworkIsReady, bind, call,
    note, modifyICSVM, ret.
  rewrite Hp by auto. simpl. rewrite Hv2. simpl. rewrite Hh. simpl.
  replace ((MemoryInByte vmObj >=? FreeMemoryInByte host)
           || (MemoryInByte vmObj >=? LogicFreeMemoryInByte host))
    with false by (symmetry; apply orb_false_iff; lia).
  simpl. rewrite Hon. simpl. rewrite Hwait. simpl.
  unfold reconcileICSVMOnTaskCompletion, bind, getICSVM, note, ret.
  destruct ti as [info |]; [destruct (String.eqb (TaskState info) "ERROR") |];
    simpl; destruct (String.eqb (TaskId task) ""); simpl;
    repeat split; trivial;
    rewrite <- ?app_assoc; simpl; eexists; (split; [reflexivity |]); auto.
Qed.

(** X7. Power-on refused: when the platform refuses the power-on, the pass
    returns the platform's error wrapped as a failure to trigger the
    power-on, stays Pending, and leaves the task reference as it was. *)
Theorem power_on_refused w v ref vm s o w1 vmObj w2 host w3 e w4 :
  reachesPowerSync P (startPass w v) ref vm s ->
  GetVM P (Value ref) (world s) = (inl o, w1) ->
  Status o = "STOPPED"%string ->
  GetVM P (Value ref) w1 = (inl vmObj, w2) ->
  GetHost P (HostID vmObj) w2 = (inl host, w3) ->
  MemoryInByte vmObj < FreeMemoryInByte host ->
  MemoryInByte vmObj < LogicFreeMemoryInByte host ->
  PowerOnVM P (Value ref) w3 = (inr e, w4) ->
  let r := ReconcileVM P (startPass w v) in
  fst r =
    (vm, Some (Wrapf e "failed to trigger power on op for vm %s"
                 [ArgContext (ICSVM.String (icsvm s))])) /\
  VirtualMachine.State vm = VirtualMachineStatePending /\
  icsvm (snd r) = icsvm s.
Proof.
  intros Hr Hv Hs Hv2 Hh HF HL Hon r. subst r.
  pose proof (reachesPowerSync_frame _ _ _ _ _ Hr) as [Hst _].
  pose proof (getPowerState_status P ref s o w1 _
                VirtualMachinePowerStatePoweredOff Hv Hs) as Hp.
  destruct (ReconcileVM_power_sync P _ ref vm s
              (false, Some (Wrapf e "failed to trigger power on op for vm %s"
                              [ArgContext (ICSVM.String (icsvm s))]))
              {| world := w4; icsvm := icsvm s;
                 calls := (((calls s ++ [CallGetVM (Value ref)])
                            ++ [CallGetVM (Value ref)])
                           ++ [CallGetHost (HostID vmObj)])
                          ++ [CallPowerOnVM (Value ref)] |} Hr)
    as (s'' & -> & _ & Hv'').
  { unfold reconcilePowerState, ctxString, bind, call, getICSVM, ret.
    rewrite Hp by auto. simpl. rewrite Hv2. simpl. rewrite Hh. simpl.
    replace ((MemoryInByte vmObj >=? FreeMemoryInByte host)
             || (MemoryInByte vmObj >=? LogicFreeMemoryInByte host))
      with false by (symmetry; apply orb_false_iff; lia).
    simpl. rewrite Hon. reflexivity. }
  simpl. auto.
Qed.

(** X8. Unreadable bootstrap secret: for a resource whose remote VM the
    probe did not find, when the bootstrap secret cannot be fetched,
    [ReconcileVM] returns the client's error wrapped as a failure to
    retrieve the secret, and issues no create call. *)
Theorem bootstrap_secret_unreadable w v err s ref cause w3 :
  missesVM P (startPass w v) err s ->
  ICSVM.BootstrapRef v = Some ref ->
  ClientGet P (RefNamespace ref) (RefName ref) (world s) = (inr cause, w3) ->
  let r := ReconcileVM P (startPass w v) in
  snd (fst r) =
    Some (Wrapf cause "failed to retrieve bootstrap data secret for %s"
            [ArgContext (ICSVM.String (icsvm s))]) /\
  VirtualMachine.State (fst (fst r)) = VirtualMachineStatePending /\
  mutations (calls (snd r)) = [].
Proof.
  intros Hmiss Hb Hs r. subst r.
  pose proof (missesVM_frame _ _ _ _ Hmiss) as [Hm Hb'].
  destruct Hmiss as (s1 & w2 & Hg & Hf & ->). simpl in Hb', Hm, Hs.
  rewrite mutations_quiet in Hm by reflexivity.
  unfold ReconcileVM, getBootstrapData, ctxString, initialVM, defer, bind,
    call, getICSVM, ret.
  rewrite Hg. simpl. rewrite Hf. simpl. rewrite Hb', Hb. simpl.
  rewrite Hs. simpl. end_pass.
  rewrite E. quiet_log. rewrite Hm. auto.
Qed.

(** X9. Delete: in a [DestroyVM] pass that finds the remote VM and reads
    a power state other than PoweredOn (a stopped VM, and also a paused,
    restarting or pending one), the one mutating call is a delete with force
    and cascade set and the session's password, and the phase is Pending;
    when the platform accepts it, the id of its task is stored and no error
    returned; when it refuses, its error is returned and nothing stored. *)
Theorem destroy_deletes_when_not_powered_on (session : Session)
    w v ref s ps s' :
  findsVM P (startPass w v) ref s ->
  getPowerState P ref s = ((ps, None), s') ->
  ps <> VirtualMachinePowerStatePoweredOn ->
  let r := DestroyVM P session (startPass w v) in
  mutations (calls (snd r)) =
    [CallDeleteVM (Value ref) true true (Password session)] /\
  VirtualMachine.State (fst (fst r)) = VirtualMachineStatePending /\
  (forall task w2,
      DeleteVMWithCheckParams P (Value ref) true true (Password session)
        (world s') = (inl task, w2) ->
      ICSVM.TaskRef (icsvm (snd r)) = TaskId task /\ snd (fst r) = None) /\
  (forall e w2,
      DeleteVMWithCheckParams P (Value ref) true true (Password session)
        (world s') = (inr e, w2) ->
      icsvm (snd r) = icsvm s' /\ snd (fst r) = Some e).
Proof.
  intros Hf Hp Hps r. subst r.
  pose proof (findsVM_frame _ _ _ _ Hf) as [Hm _].
  pose proof (getPowerState_frame _ _ _ _ _ _ Hp) as Hm'.
  rewrite Hm, mutations_startPass in Hm'.
  destruct Hf as (s1 & w0 & Hg & Hf & ->). simpl in Hp.
  unfold DestroyVM, initialVM, defer, bind, call, getICSVM, modifyICSVM, ret.
  rewrite Hg. simpl. rewrite Hf, Hp.
  destruct ps; try contradiction; simpl;
    destruct (DeleteVMWithCheckParams P _ _ _ _ _) as [[task | e] w3];
    end_pass; rewrite E; quiet_log; rewrite Hm';
    (split; [reflexivity |]); (split; [reflexivity |]);
    split; intros x w4 Hx; inversion Hx; subst; rewrite Ev; auto.
Qed.

(** X10. A [DestroyVM] pass whose probe fails with an error that is not a
    not-found returns that error with phase Pending, and issues no mutating
    call; so does a pass that finds the VM and cannot read its power
    state. *)
Theorem destroy_errors_are_returned (session : Session) :
  (forall w v err s,
      missesVM P (startPass w v) err s ->
      isNotFound P err = false ->
      let r := DestroyVM P session (startPass w v) in
      snd (fst r) = Some err /\
      VirtualMachine.State (fst (fst r)) = VirtualMachineStatePending /\
      mutations (calls (snd r)) = []) /\
  (forall w v ref s ps err s',
      findsVM P (startPass w v) ref s ->
      getPowerState P ref s = ((ps, Some err), s') ->
      let r := DestroyVM P session (startPass w v) in
      snd (fst r) = Some err /\
      VirtualMachine.State (fst (fst r)) = VirtualMachineStatePending /\
      mutations (calls (snd r)) = []).
Proof.
  split.
  - intros w v err s Hmiss Hnf r. subst r.
    pose proof (missesVM_frame _ _ _ _ Hmiss) as [Hm _].
    destruct Hmiss as (s1 & w2 & Hg & Hf & ->). simpl in Hm.
    rewrite mutations_quiet in Hm by reflexivity.
    unfold DestroyVM, initialVM, defer, bind, call, getICSVM, ret.
    rewrite Hg. simpl. rewrite Hf, Hnf. end_pass.
    rewrite E. quiet_log. rewrite Hm. auto.
  - intros w v ref s ps err s' Hf Hp r. subst r.
    pose proof (findsVM_frame _ _ _ _ Hf) as [Hm _].
    pose proof (getPowerState_frame _ _ _ _ _ _ Hp) as Hm'.
    rewrite Hm, mutations_startPass in Hm'.
    destruct Hf as (s1 & w0 & Hg & Hf & ->). simpl in Hp.
    unfold DestroyVM, initialVM, defer, bind, call, getICSVM, ret.
    rewrite Hg. simpl. rewrite Hf, Hp. end_pass.
    rewrite E, Hm'. auto.
Qed.

(** X11. A [DestroyVM] pass issues at most one mutating call, a power-off or
    a forced, cascading delete and never a create or a power-on, and the
    phase it reports is Pending or NotFound. *)
Theorem DestroyVM_outcome_shape (session : Session) w v :
  let r := DestroyVM P session (startPass w v) in
  (mutations (calls (snd r)) = [] \/
   (exists id, mutations (calls (snd r)) = [CallPowerOffVM id]) \/
   (exists id, mutations (calls (snd r)) =
                 [CallDeleteVM id true true (Password session)])) /\
  (VirtualMachine.State (fst (fst r)) = VirtualMachineStatePending \/
   VirtualMachine.State (fst (fst r)) = VirtualMachineStateNotFound).
Proof.
  intros r. subst r.
  destruct (reconcileInFlightTask P (startPass w v)) as [[fl e] s1] eqn:Hg.
  pose proof (reconcileInFlightTask_frame P _ _ _ Hg) as (He & Hm & _).
  simpl in He, Hm. subst e.
  unfold DestroyVM, initialVM, defer, bind, call, getICSVM, modifyICSVM, ret.
  rewrite Hg. simpl.
  destruct fl; simpl.
  { rewrite Hm. split; auto. }
  destruct (findVM P (icsvm s1) (world s1)) as [[ref | err] w2] eqn:Hf.
  2: { destruct (isNotFound P err); end_pass; rewrite E; quiet_log;
         rewrite Hm; split; auto. }
  destruct (getPowerState P ref _) as [[ps pe] s3] eqn:Hp.
  pose proof (getPowerState_frame _ _ _ _ _ _ Hp) as Hm3. simpl in Hm3.
  rewrite mutations_quiet in Hm3 by reflexivity.
  destruct pe as [e |].
  { end_pass. rewrite E, Hm3, Hm. split; auto. }
  destruct ps;
    first [ destruct (PowerOffVM P _ _) as [[task | e] w3]
          | destruct (DeleteVMWithCheckParams P _ _ _ _ _) as [[task | e] w3] ];
    end_pass; rewrite E; quiet_log; rewrite Hm3, Hm; simpl; split; eauto.
Qed.

(** X12. Network sync: once the platform has listed the interfaces, the
    sync returns no error whatever the patch answers, and the result carries
    the listed interfaces with their addresses sanitized; addresses already
    recorded on the resource are left alone and nothing is patched; a patch
    is only issued for a control-plane machine with no address recorded. *)
Theorem network_sync_outcome ref vm s nets w1 :
  GetNetworkStatus P (icsvm s) ref (world s) = (inl nets, w1) ->
  let r := reconcileNetworkStatus P ref vm s in
  snd (fst r) = None /\
  VirtualMachine.Network (fst (fst r)) =
    map (fun n => {| Connected := Connected n;
                     IPAddrs := sanitizeIPAddrs P (icsvm s) (IPAddrs n);
                     MACAddr := MACAddr n;
                     NetworkName := NetworkName n |}) nets /\
  (forall recorded,
      ICSVM.Addresses (icsvm s) = Some recorded ->
      icsvm (snd r) = icsvm s /\
      calls (snd r) = calls s ++ [CallGetNetworkStatus (Value ref)]) /\
  (calls (snd r) = calls s ++ [CallGetNetworkStatus (Value ref)] \/
   (calls (snd r) = calls s ++ [CallGetNetworkStatus (Value ref); CallPatch] /\
    ICSVM.Addresses (icsvm s) = None /\
    IsControlPlaneMachine P (icsvm (snd r)) = true)).
Proof.
  intros Hn r. subst r.
  unfold reconcileNetworkStatus, getNetworkStatus, bind, call, getICSVM,
    modifyICSVM, ret.
  rewrite Hn. simpl.
  destruct nets as [| n0 nets]; simpl.
  { repeat split; intros; auto. }
  destruct (ICSVM.Addresses (icsvm s)) as [recorded |] eqn:Ha; simpl.
  { repeat split; intros; auto. }
  destruct (sanitizeIPAddrs P (icsvm s) (IPAddrs n0)) as [ips |]; simpl.
  2: { repeat split; intros; try discriminate; auto. }
  destruct (IsControlPlaneMachine P _) eqn:Hcp; simpl.
  - destruct (Patch P _ _) as [pe w2]. simpl.
    split; [reflexivity |]. split; [reflexivity |].
    split; [intros; discriminate |].
    right. rewrite <- app_assoc. auto.
  - repeat split; intros; try discriminate; auto.
Qed.

Lemma reconcilePowerState_log ref s p s' :
  reconcilePowerState P ref s = (p, s') -> exists l, calls s' = calls s ++ l.
Proof.
  unfold reconcilePowerState, getPowerState, reconcileICSVMWhenNetworkIsReady,
    ctxString, bind, call, note, getICSVM, modifyICSVM, ret.
  destruct (GetVM P (Value ref) (world s)) as [[o | e] w1]; simpl.
  2: { intros [= <- <-]. simpl. eauto. }
  destruct (String.eqb (Status o) "STARTED"); simpl.
  { intros [= <- <-]. simpl. eauto. }
  destruct (String.eqb (Status o) "STOPPED"); simpl.
  2: { repeat destruct (String.eqb _ _); simpl; intros [= <- <-]; simpl;
         eauto. }
  destruct (GetVM P (Value ref) w1) as [[vmObj | e] w2]; simpl.
  2: { intros [= <- <-]. simpl. rewrite <- app_assoc. eauto. }
  destruct (GetHost P _ w2) as [[host | e] w3]; simpl.
  2: { intros [= <- <-]. simpl. rewrite <- !app_assoc. eauto. }
  destruct (_ || _); simpl.
  { intros [= <- <-]. simpl. rewrite <- !app_assoc. eauto. }
  destruct (PowerOnVM P _ w3) as [[task | e] w4]; simpl.
  2: { intros [= <- <-]. simpl. rewrite <- !app_assoc. eauto. }
  destruct (WaitForResult P _ w4) as [[[ti |] we] w5]; simpl;
    [destruct (String.eqb (TaskState ti) "ERROR") |];
    intros [= <- <-]; simpl; rewrite <- !app_assoc; eauto.
Qed.

Lemma reconcileNetworkStatus_identity ref vm s vm' e s' :
  reconcileNetworkStatus P ref vm s = ((vm', e), s') ->
  VirtualMachine.UID vm' = VirtualMachine.UID vm /\
  VirtualMachine.BiosUUID vm' = VirtualMachine.BiosUUID vm.
Proof.
  unfold reconcileNetworkStatus, getNetworkStatus, bind, call, getICSVM,
    modifyICSVM, ret.
  destruct (GetNetworkStatus P _ _ _) as [[ns | err] w1]; simpl.
  - destruct ns as [| s0 ns]; simpl.
    + intros [= <- <- <-]. auto.
    + destruct (ICSVM.Addresses (icsvm s)), (sanitizeIPAddrs P _ _); simpl;
        try (intros [= <- <- <-]; auto).
      destruct (IsControlPlaneMachine P _); simpl.
      * destruct (Patch P _ _) as [pe w2]. intros [= <- <- <-]. auto.
      * intros [= <- <- <-]. auto.
  - intros [= <- <- <-]. auto.
Qed.

(** X13. A failing network read ends the pass: when the platform cannot
    list the interfaces of a VM that was found, [ReconcileVM] returns that
    error with the result as the identity sync left it, and the power state
    is not read: the listing is the last call to the platform. *)
Theorem network_error_ends_pass w v ref s2 vm1 s3 e w4 :
  findsVM P (startPass w v) ref s2 ->
  reconcileUUID P ref (fst (initialVM (startPass w v))) s2 = (vm1, s3) ->
  GetNetworkStatus P (icsvm s3) ref (world s3) = (inr e, w4) ->
  let r := ReconcileVM P (startPass w v) in
  fst r = (vm1, Some e) /\
  world (snd r) = w4 /\
  exists notified,
    calls (snd r) = calls s3 ++ [CallGetNetworkStatus (Value ref)] ++ notified /\
    (notified = [] \/ notified = [WatchTask (ICSVM.TaskRef (icsvm s3))]).
Proof.
  intros (s1 & w2 & Hg & Hf & ->) Hu Hn r. subst r.
  unfold ReconcileVM, defer, bind, call, getICSVM, ret.
  unfold initialVM, bind, getICSVM, ret in Hu |- *. simpl in Hu |- *.
  rewrite Hg. simpl. rewrite Hf, Hu.
  unfold reconcileNetworkStatus, getNetworkStatus, bind, call, getICSVM, ret.
  rewrite Hn. simpl.
  unfold reconcileICSVMOnTaskCompletion, bind, getICSVM, note, ret. simpl.
  destruct (String.eqb (ICSVM.TaskRef (icsvm s3)) ""); simpl;
    repeat split; eexists; (split; [reflexivity || (rewrite <- app_assoc; reflexivity) |]);
    auto.
Qed.

(** X14. Identity sync is best effort: for a VM that was found, the result
    of [ReconcileVM] carries the id and the UUID that the platform reported,
    whatever happens later in the pass; when the platform fails to report
    them they stay empty, and the failure is not what ends the pass: the
    network interfaces are listed next. *)
Theorem identity_sync_best_effort w v ref s :
  findsVM P (startPass w v) ref s ->
  let r := ReconcileVM P (startPass w v) in
  (forall o w1,
      GetVM P (Value ref) (world s) = (inl o, w1) ->
      VirtualMachine.UID (fst (fst r)) = ID o /\
      VirtualMachine.BiosUUID (fst (fst r)) = UUID o) /\
  (forall e w1,
      GetVM P (Value ref) (world s) = (inr e, w1) ->
      VirtualMachine.UID (fst (fst r)) = ""%string /\
      VirtualMachine.BiosUUID (fst (fst r)) = ""%string /\
      In (CallGetNetworkStatus (Value ref)) (calls (snd r))).
Proof.
  intros (s1 & w2 & Hg & Hf & ->) r.
  assert (Hr : r = ReconcileVM P (startPass w v)) by reflexivity.
  clearbody r. revert Hr.
  unfold ReconcileVM, defer, bind, call, getICSVM, ret.
  unfold initialVM, bind, getICSVM, ret. simpl.
  rewrite Hg. simpl. rewrite Hf.
  unfold reconcileUUID, bind, call, ret. simpl.
  assert (Hgrow : forall s5 : Ctx W,
             exists l, calls (snd (reconcileICSVMOnTaskCompletion s5))
                       = calls s5 ++ l).
  { intros s5. unfold reconcileICSVMOnTaskCompletion, bind, getICSVM, note,
      ret. destruct (String.eqb _ _); simpl; eauto.
    exists []. symmetry. apply app_nil_r. }
  destruct (GetVM P (Value ref) w2) as [[o | e] w1] eqn:Hv; simpl;
    (destruct (reconcileNetworkStatus P ref _ _) as [[vm2 ne] s4] eqn:Hn;
     pose proof (reconcileNetworkStatus_identity _ _ _ _ _ _ Hn) as [Hu Hb];
     simpl in Hu, Hb).
  - destruct ne as [ne |].
    + destruct (reconcileICSVMOnTaskCompletion s4). intros ->. simpl.
      split; [intros o' w1' [= <- <-]; auto | intros ? ? [=]].
    + destruct (reconcilePowerState P ref s4) as [p s5].
      destruct (notNil (snd p) || negb (fst p));
        destruct (reconcileICSVMOnTaskCompletion s5); intros ->; simpl;
        (split; [intros o' w1' [= <- <-]; auto | intros ? ? [=]]).
  - assert (Hnet : In (CallGetNetworkStatus (Value ref)) (calls s4)).
    { revert Hn.
      unfold reconcileNetworkStatus, getNetworkStatus, bind, call, getICSVM,
        modifyICSVM, ret. simpl.
      destruct (GetNetworkStatus P _ _ _) as [[ns | err] w3]; simpl.
      - destruct ns as [| n0 ns]; simpl.
        + intros [= _ _ <-]. simpl. apply in_or_app. simpl. auto.
        + destruct (ICSVM.Addresses (icsvm s1)), (sanitizeIPAddrs P _ _);
            simpl; try (intros [= _ _ <-]; simpl; apply in_or_app; simpl; auto).
          destruct (IsControlPlaneMachine P _); simpl.
          * destruct (Patch P _ _) as [pe w4]. intros [= _ _ <-]. simpl.
            apply in_or_app. left. apply in_or_app. simpl. auto.
          * intros [= _ _ <-]. simpl. apply in_or_app. simpl. auto.
      - intros [= _ _ <-]. simpl. apply in_or_app. simpl. auto. }
    destruct ne as [ne |].
    + specialize (Hgrow s4).
      destruct (reconcileICSVMOnTaskCompletion s4) as [u s5]. intros ->.
      simpl in *. destruct Hgrow as [l ->].
      split; [intros ? ? [=] |]. intros _ _ _. repeat split; auto.
      apply in_or_app. auto.
    + destruct (reconcilePowerState P ref s4) as [p s5] eqn:Hp.
      pose proof (reconcilePowerState_log _ _ _ _ Hp) as Hp5.
      specialize (Hgrow s5).
      destruct (notNil (snd p) || negb (fst p));
        destruct (reconcileICSVMOnTaskCompletion s5) as [u s6]; intros ->;
        simpl in *; destruct Hgrow as [l' ->]; destruct Hp5 as [l ->];
        (split; [intros ? ? [=] |]); intros _ _ _; (repeat split; auto);
        apply in_or_app; left; apply in_or_app; auto.
Qed.

End ServiceCoverage.

(** ** More of the discovery poller *)

Section PollerCoverage.
Import Poller PollerRuns.


(** X15. Whatever state the controller is in, after a call of
    [reconcileICSClusterWhenAPIServerIsOnline] for a cluster that is not
    initialized, exactly one poller runs for that cluster: one is started if
    none was running, none is added if one was. *)
Theorem start_leaves_one_poller s uid :
  reachable s ->
  length (pollersOf uid (reconcileICSClusterWhenAPIServerIsOnline uid false s))
  = 1%nat.
Proof.
  intros Hr.
  assert (Hr' : reachable (reconcileICSClusterWhenAPIServerIsOnline uid false s)).
  { destruct Hr as [acts Hacts]. exists (acts ++ [Start uid false]).
    clear -Hacts. revert Hacts. generalize initial.
    induction acts as [| a acts IH]; simpl; intros s0.
    - intros [= ->]. reflexivity.
    - destruct (exec a s0); [apply IH | discriminate]. }
  pose proof (reachable_consistent _ Hr') as (Hnd & Hreg & _).
  destruct (pollers_count _ uid Hnd) as [_ Hiff]. apply Hiff, Hreg.
  unfold reconcileICSClusterWhenAPIServerIsOnline.
  destruct (decide (uid ∈ apiServerTriggers s)) as [Hin | Hout]; trivial.
  simpl. apply elem_of_union_l, elem_of_singleton. reflexivity.
Qed.






Lemma filter_insert_count {A} (f : A -> bool) (l : list A) i x y :
  l !! i = Some x ->
  (length (List.filter f (<[i := y]> l)) + (if f x then 1 else 0) =
   length (List.filter f l) + (if f y then 1 else 0))%nat.
Proof.
  revert i. induction l as [| a l IH]; intros [| i]; simpl; try discriminate.
  - intros [= ->]. destruct (f x), (f y); simpl; lia.
  - intros H. specialize (IH i H). destruct (f a); simpl; lia.
Qed.

Lemma filter_delete_count {A} (f : A -> bool) (l : list A) i x :
  l !! i = Some x ->
  (length (List.filter f (delete i l)) + (if f x then 1 else 0) =
   length (List.filter f l))%nat.
Proof.
  revert i. induction l as [| a l IH]; intros [| i]; simpl; try discriminate.
  - intros [= ->]. destruct (f x); simpl; lia.
  - intros H. specialize (IH i H). destruct (f a); simpl; lia.
Qed.

Lemma unsent_at uid u l :
  unsent uid (u, l) =
  match l with
  | PollAPIServer | SendEvent => String.eqb u uid
  | _ => false
  end.
Proof. unfold unsent. destruct l; simpl; auto using andb_true_r, andb_false_r. Qed.

Lemma events_step a s s' uid :
  exec a s = Some s' ->
  (eventsOf uid s' + toSend uid s' <=
   eventsOf uid s + toSend uid s + startsOf uid [a])%nat.
Proof.
  unfold eventsOf, toSend, startsOf.
  destruct a as [u initialized | i o]; cbn [exec List.filter length].
  - intros [= <-]. unfold reconcileICSClusterWhenAPIServerIsOnline.
    destruct initialized; cbn [negb];
      [rewrite andb_false_r; cbn [length]; lia |].
    rewrite andb_true_r.
    destruct (decide (u ∈ apiServerTriggers s)); cbn [events goroutines];
      [lia |].
    rewrite List.filter_app, length_app. cbn [List.filter].
    rewrite unsent_at. unfold UID in *.
    destruct (String.eqb u uid); cbn [length]; lia.
  - unfold runGoroutine.
    destruct (goroutines s !! i) as [[u l] |] eqn:Hi; [| discriminate].
    destruct l as [| | | seen]; intros [= <-].
    + destruct (isAPIServerOnline o); [| lia]. cbn [moveTo events goroutines].
      pose proof (filter_insert_count (unsent uid) _ _ _ (u, SendEvent) Hi) as H.
      rewrite !unsent_at in H. unfold UID in *. lia.
    + cbn [events goroutines]. rewrite List.filter_app, length_app.
      cbn [List.filter].
      pose proof (filter_insert_count (unsent uid) _ _ _ (u, PollInitialized) Hi)
        as H.
      rewrite !unsent_at in H.
      rewrite (String.eqb_sym uid u). unfold UID in *.
      destruct (String.eqb u uid); cbn [length] in *; lia.
    + destruct (isControlPlaneInitialized o); [| lia].
      cbn [moveTo events goroutines].
      pose proof (filter_insert_count (unsent uid) _ _ _ (u, Unregister o) Hi)
        as H.
      rewrite !unsent_at in H. unfold UID in *. lia.
    + cbn [events goroutines].
      pose proof (filter_delete_count (unsent uid) _ _ _ Hi) as H.
      rewrite !unsent_at in H. unfold UID in *. lia.
Qed.

Lemma startsOf_cons a acts uid :
  startsOf uid (a :: acts) = (startsOf uid [a] + startsOf uid acts)%nat.
Proof. unfold startsOf. simpl. destruct a; [destruct (_ && _) |]; reflexivity. Qed.

Lemma events_run acts s s' uid :
  execAll acts s = Some s' ->
  (eventsOf uid s' + toSend uid s' <=
   eventsOf uid s + toSend uid s + startsOf uid acts)%nat.
Proof.
  revert s. induction acts as [| a acts IH]; simpl; intros s.
  - intros [= <-]. unfold startsOf. simpl. lia.
  - destruct (exec a s) as [s1 |] eqn:Ha; [| discriminate]. intros H.
    specialize (IH _ H). pose proof (events_step _ _ _ uid Ha).
    rewrite startsOf_cons. lia.
Qed.

(** X17. One event per poller: in every run of the controller, the events
    sent for a cluster are never more than the calls that asked for a
    poller of that cluster while it was not initialized; a call that finds
    a poller running adds no event. *)
Theorem events_bounded_by_starts acts s uid :
  execAll acts initial = Some s ->
  (eventsOf uid s <= startsOf uid acts)%nat.
Proof.
  intros H. pose proof (events_run _ _ _ uid H) as Hle.
  unfold eventsOf at 2, toSend at 2 in Hle. simpl in Hle. lia.
Qed.

End PollerCoverage.

(** ** The cluster controller *)

Section ClusterControllerFacts.
Import ClusterController.

Lemma start_idempotent uid initialized s :
  let s' := Poller.reconcileICSClusterWhenAPIServerIsOnline uid initialized s in
  Poller.reconcileICSClusterWhenAPIServerIsOnline uid initialized s' = s'.
Proof.
  unfold Poller.reconcileICSClusterWhenAPIServerIsOnline.
  destruct initialized; simpl; [reflexivity |].
  destruct (decide (uid ∈ Poller.apiServerTriggers s)) as [Hin | Hout].
  - rewrite decide_True by exact Hin. reflexivity.
  - simpl. rewrite decide_True; [reflexivity |].
    apply elem_of_union_l, elem_of_singleton. reflexivity.
Qed.

Lemma discover_passedOver before rest :
  forallb passedOver before = true ->
  discover (before ++ rest) = discover rest.
Proof.
  induction before as [| m before IH]; simpl; [reflexivity |].
  intros [Hm Hb]%andb_true_iff. specialize (IH Hb).
  unfold passedOver in Hm.
  destruct (controlPlane m); simpl in *; [| exact IH].
  destruct (DataSecretName m); [| exact IH].
  destruct (icsMachine m) as [im | e]; [| discriminate].
  destruct (preferredIP im); try discriminate. exact IH.
Qed.

Lemma endpoint_outcome_aux c endpoint machines pollers :
  let r := reconcileControlPlaneEndpoint c endpoint machines pollers in
  (fst (fst r) = (true, None) /\ IsZero (snd (fst r)) = false) \/
  (fst (fst (fst r)) = false /\ (exists err, snd (fst (fst r)) = Some err) /\
   snd (fst r) = endpoint).
Proof.
  unfold reconcileControlPlaneEndpoint.
  destruct (IsZero (ClusterEndpoint c)) eqn:Hc; simpl.
  2: { left. split; [reflexivity |]. destruct (ClusterEndpoint c). exact Hc. }
  destruct (IsZero endpoint) eqn:He; simpl; [| auto].
  destruct machines as [ms | err]; simpl; [| right; eauto].
  assert (Hd : forall e, discover ms = Discovered e -> IsZero e = false).
  { clear. induction ms as [| m ms IH]; simpl; [discriminate |]. intros e.
    destruct (controlPlane m); simpl; [| apply IH].
    destruct (DataSecretName m); [| apply IH].
    destruct (icsMachine m) as [im | err]; [| discriminate].
    destruct (preferredIP im); try discriminate; [| apply IH].
    intros [= <-]. unfold IsZero. simpl. apply andb_false_r. }
  destruct (discover ms) as [e | err |] eqn:Hdisc; simpl; eauto.
Qed.

(** X18. [reconcileControlPlaneEndpoint] either succeeds, with no error and
    an endpoint on the ICSCluster that is not zero, or fails, with an error
    and the endpoint of the ICSCluster as it was. *)
Theorem endpoint_outcome c endpoint machines pollers :
  let r := reconcileControlPlaneEndpoint c endpoint machines pollers in
  (fst (fst r) = (true, None) /\ IsZero (snd (fst r)) = false) \/
  (fst (fst (fst r)) = false /\ (exists err, snd (fst (fst r)) = Some err) /\
   snd (fst r) = endpoint).
Proof. apply endpoint_outcome_aux. Qed.

(** X19. A successful [reconcileControlPlaneEndpoint] is stable: run again
    on the endpoint it left, it succeeds with that same endpoint, whatever
    is then listed as the cluster's machines (also when listing them
    fails), and it starts no second poller. *)
Theorem endpoint_reconcile_is_stable c endpoint machines pollers :
  let r := reconcileControlPlaneEndpoint c endpoint machines pollers in
  fst (fst (fst r)) = true ->
  forall machines',
    reconcileControlPlaneEndpoint c (snd (fst r)) machines' (snd r) =
    ((true, None), snd (fst r), snd r).
Proof.
  intros r Hok machines'.
  destruct (endpoint_outcome_aux c endpoint machines pollers)
    as [[_ Hnz] | [Hfail _]]; [fold r in Hnz | fold r in Hfail; congruence].
  assert (Hp : snd r = Poller.reconcileICSClusterWhenAPIServerIsOnline
                         (ClusterUID c) (ClusterInitialized c) pollers).
  { subst r. unfold reconcileControlPlaneEndpoint.
    destruct (negb _); [reflexivity |]. destruct (negb _); [reflexivity |].
    destruct machines as [ms | err]; [destruct (discover ms) |]; reflexivity. }
  assert (Hidem : Poller.reconcileICSClusterWhenAPIServerIsOnline
                    (ClusterUID c) (ClusterInitialized c) (snd r) = snd r).
  { rewrite Hp. apply start_idempotent. }
  unfold reconcileControlPlaneEndpoint at 1. cbv zeta. rewrite Hidem.
  destruct (IsZero (ClusterEndpoint c)) eqn:Hc; simpl.
  - rewrite Hnz. reflexivity.
  - f_equal. f_equal. subst r. unfold reconcileControlPlaneEndpoint.
    rewrite Hc. reflexivity.
Qed.

(** X20. With no endpoint known on either object, the endpoint comes from
    the first machine of the list that is a control-plane machine with
    bootstrap data and an address: its preferred address and port 6443. The
    machines before it that the loop passes over, and all the machines
    after it, play no part. *)
Theorem endpoint_from_first_eligible_machine
    c endpoint before machine after pollers name m ipAddr :
  IsZero (ClusterEndpoint c) = true ->
  IsZero endpoint = true ->
  forallb passedOver before = true ->
  controlPlane machine = true ->
  DataSecretName machine = Some name ->
  icsMachine machine = inl m ->
  preferredIP m = IPAddress ipAddr ->
  reconcileControlPlaneEndpoint c endpoint
    (inl (before ++ machine :: after)) pollers =
  ((true, None), {| Host := ipAddr; Port := 6443 |},
   Poller.reconcileICSClusterWhenAPIServerIsOnline
     (ClusterUID c) (ClusterInitialized c) pollers).
Proof.
  intros Hc He Hb Hcp Hs Hm Hip. unfold reconcileControlPlaneEndpoint.
  rewrite Hc, He. simpl. rewrite (discover_passedOver _ _ Hb). simpl.
  rewrite Hcp, Hs, Hm, Hip. reflexivity.
Qed.

(** X21. With no endpoint known on either object: when the loop passes over
    every machine, the function fails with "unable to determine control
    plane endpoint"; when the first machine it does not pass over cannot be
    looked up or has an address error, it fails with that error, and the
    machines after it are not consulted, not even one with an address. *)
Theorem endpoint_discovery_failures c endpoint pollers :
  IsZero (ClusterEndpoint c) = true ->
  IsZero endpoint = true ->
  (forall machines,
      forallb passedOver machines = true ->
      fst (reconcileControlPlaneEndpoint c endpoint (inl machines) pollers) =
      ((false,
        Some (Errorf "unable to determine control plane endpoint for %s"
                [ArgContext (ContextString c)])), endpoint)) /\
  (forall before machine after err,
      forallb passedOver before = true ->
      discover [machine] = Failed err ->
      fst (reconcileControlPlaneEndpoint c endpoint
             (inl (before ++ machine :: after)) pollers) =
      ((false, Some err), endpoint)).
Proof.
  intros Hc He. split.
  - intros machines Hall. unfold reconcileControlPlaneEndpoint.
    rewrite Hc, He. simpl.
    rewrite <- (app_nil_r machines), (discover_passedOver _ _ Hall).
    reflexivity.
  - intros before machine after err Hb Hm. unfold reconcileControlPlaneEndpoint.
    rewrite Hc, He. simpl. rewrite (discover_passedOver _ _ Hb).
    revert Hm. simpl.
    destruct (controlPlane machine); simpl; [| discriminate].
    destruct (DataSecretName machine); [| discriminate].
    destruct (icsMachine machine) as [im | e]; [| intros [= <-]; reflexivity].
    destruct (preferredIP im); try discriminate. intros [= <-]. reflexivity.
Qed.

(** *** [reconcileDelete] *)

Lemma deleteOrphans_through nf ms i acc :
  forallb updatable ms = true ->
  deleteOrphans nf ms i acc =
  inl {| machineDeletionCount :=
           machineDeletionCount acc + length (List.filter orphan ms);
         deletionErrors := deletionErrors acc ++ failures nf ms;
         requests := requests acc ++ requestsFor ms i |}.
Proof.
  revert i acc. induction ms as [| m ms IH]; simpl; intros i acc.
  - intros _. rewrite Nat.add_0_r, !app_nil_r. destruct acc. reflexivity.
  - intros [Hm Hms]%andb_true_iff. unfold failures in *. simpl.
    unfold updatable in Hm. destruct (orphan m); simpl in *.
    + destruct (updateAnswer m); [discriminate |].
      rewrite (IH _ _ Hms). simpl. f_equal. f_equal.
      * lia.
      * destruct (deleteAnswer m) as [e |]; [destruct (nf e) |]; simpl;
          rewrite <- ?app_assoc, ?app_nil_r; reflexivity.
      * rewrite <- app_assoc. reflexivity.
    + apply (IH _ _ Hms).
Qed.

Lemma deleteOrphans_stops nf before m after i acc e :
  forallb updatable before = true ->
  orphan m = true -> updateAnswer m = Some e ->
  deleteOrphans nf (before ++ m :: after) i acc =
  inr (e, requests acc ++ requestsFor before i
          ++ [UpdateMachine (i + length before)]).
Proof.
  revert i acc. induction before as [| b before IH]; simpl; intros i acc.
  - intros _ -> ->. rewrite Nat.add_0_r. reflexivity.
  - intros [Hb Hbs]%andb_true_iff Hm He. unfold updatable in Hb.
    destruct (orphan b); simpl in *.
    + destruct (updateAnswer b); [discriminate |].
      rewrite (IH _ _ Hbs Hm He). simpl. rewrite <- !app_assoc. simpl.
      rewrite Nat.add_succ_r. reflexivity.
    + rewrite (IH _ _ Hbs Hm He). simpl. rewrite Nat.add_succ_r. reflexivity.
Qed.

Lemma first_refused ms :
  forallb updatable ms = false ->
  exists before m after e,
    ms = before ++ m :: after /\ forallb updatable before = true /\
    orphan m = true /\ updateAnswer m = Some e.
Proof.
  induction ms as [| m ms IH]; simpl; [discriminate |].
  destruct (updatable m) eqn:Hm; simpl.
  - intros H. destruct (IH H) as (before & x & after & e & -> & Hb & Ho & Hu).
    exists (m :: before), x, after, e. simpl. rewrite Hm. auto.
  - intros _. unfold updatable in Hm.
    destruct (orphan m) eqn:Ho; [| discriminate].
    destruct (updateAnswer m) as [e |] eqn:Hu; [| discriminate].
    exists [], m, ms, e. auto.
Qed.

Lemma filter_all_length {A} (f : A -> bool) l :
  (length (List.filter f l) <= length l)%nat /\
  (length (List.filter f l) = length l <-> forallb f l = true).
Proof.
  induction l as [| a l [IHle IHiff]]; simpl.
  - split; [lia | split; reflexivity].
  - destruct (f a); simpl; (split; [lia |]).
    + rewrite <- IHiff. split; lia.
    + split; [lia | discriminate].
Qed.

Lemma disposed_iff nf ms :
  forallb (disposed nf) ms = true <->
  forallb updatable ms = true /\ failures nf ms = [] /\
  forallb orphan ms = true.
Proof.
  unfold failures.
  induction ms as [| m ms IH]; simpl; [tauto |].
  rewrite !andb_true_iff, IH. unfold disposed, updatable.
  destruct (orphan m); simpl; [| intuition discriminate].
  destruct (updateAnswer m); simpl; [intuition discriminate |].
  destruct (deleteAnswer m) as [e |]; [destruct (nf e) |]; simpl;
    intuition discriminate.
Qed.

(** X22. [reconcileDelete] takes the finalizer off the ICSCluster exactly
    when the machines could be listed and every one of them is an orphan
    (owned by the ICSCluster alone) whose update went through and whose
    delete succeeded or found it gone already; it then returns no error and
    asks for no requeue. *)
Theorem finalizer_removed_iff_all_disposed nf c machines :
  let r := reconcileDelete nf c machines in
  (finalizerRemoved r = true <->
   exists ms, machines = inl ms /\ forallb (disposed nf) ms = true) /\
  (finalizerRemoved r = true -> returned r = None /\ RequeueAfter r = 0).
Proof.
  unfold reconcileDelete. destruct machines as [ms | err]; simpl.
  2: { split; [| discriminate]. split; [discriminate |].
       intros (ms & [=] & _). }
  destruct (forallb updatable ms) eqn:Hup.
  - rewrite (deleteOrphans_through nf ms 0 _ Hup). simpl.
    destruct (failures nf ms) as [| e es] eqn:Hf; simpl.
    + destruct (filter_all_length orphan ms) as [Hle Hiff].
      destruct (0 <? length ms - length (List.filter orphan ms))%nat eqn:Hlt;
        simpl.
      * split; [| discriminate]. split; [discriminate |].
        intros (ms' & [= <-] & Hd). apply disposed_iff in Hd as (_ & _ & Ho).
        apply Hiff in Ho. apply Nat.ltb_lt in Hlt. lia.
      * split; [| auto]. split; [| reflexivity]. intros _. exists ms.
        split; [reflexivity |]. apply disposed_iff. repeat split; trivial.
        apply Hiff. apply Nat.ltb_ge in Hlt. lia.
    + split; [| discriminate]. split; [discriminate |].
      intros (ms' & [= <-] & Hd). apply disposed_iff in Hd as (_ & Hd & _).
      congruence.
  - destruct (first_refused ms Hup) as (before & m & after & e & -> & Hb & Ho & Hu).
    rewrite (deleteOrphans_stops nf before m after 0 _ e Hb Ho Hu). simpl.
    split; [| discriminate]. split; [discriminate |].
    intros (ms' & [= <-] & Hd). apply disposed_iff in Hd as (Hd & _).
    congruence.
Qed.

(** X23. While machines remain that are not orphans, and nothing fails,
    [reconcileDelete] keeps the finalizer, returns no error and asks to be
    run again in ten seconds, after having asked for the update and the
    delete of each orphan, in the order of the list. *)
Theorem delete_requeues_while_machines_remain nf c ms :
  forallb updatable ms = true ->
  failures nf ms = [] ->
  forallb orphan ms = false ->
  reconcileDelete nf c (inl ms) =
  {| RequeueAfter := 10; returned := None; finalizerRemoved := false;
     asked := requestsFor ms 0 |}.
Proof.
  intros Hup Hf Ho. unfold reconcileDelete.
  rewrite (deleteOrphans_through nf ms 0 _ Hup). simpl. rewrite Hf. simpl.
  destruct (filter_all_length orphan ms) as [Hle Hiff].
  destruct (0 <? length ms - length (List.filter orphan ms))%nat eqn:Hlt;
    [reflexivity |].
  apply Nat.ltb_ge in Hlt.
  assert (forallb orphan ms = true) by (apply Hiff; lia). congruence.
Qed.

(** X24. A refused update ends [reconcileDelete] at once: the error of the
    first orphan whose update fails is returned as it is, the machines
    after it are neither updated nor deleted, the finalizer stays, and the
    delete failures collected before it are not reported. *)
Theorem update_failure_ends_deletion nf c before m after e :
  forallb updatable before = true ->
  orphan m = true ->
  updateAnswer m = Some e ->
  reconcileDelete nf c (inl (before ++ m :: after)) =
  {| RequeueAfter := 0; returned := Some (Plain e); finalizerRemoved := false;
     asked := requestsFor before 0 ++ [UpdateMachine (length before)] |}.
Proof.
  intros Hb Ho Hu. unfold reconcileDelete.
  rewrite (deleteOrphans_stops nf before m after 0 _ e Hb Ho Hu). reflexivity.
Qed.

(** X25. A delete that fails does not stop the loop: when no update is
    refused, every orphan is updated and deleted in turn, and the delete
    failures that are not not-found errors are returned together, in the
    order of the machines; the finalizer stays and no requeue is asked. *)
Theorem delete_failures_are_aggregated nf c ms e es :
  forallb updatable ms = true ->
  failures nf ms = e :: es ->
  reconcileDelete nf c (inl ms) =
  {| RequeueAfter := 0; returned := Some (Aggregate (e :: es));
     finalizerRemoved := false; asked := requestsFor ms 0 |}.
Proof.
  intros Hup Hf. unfold reconcileDelete.
  rewrite (deleteOrphans_through nf ms 0 _ Hup). simpl. rewrite Hf. reflexivity.
Qed.

End ClusterControllerFacts.

(** ** The identity package and [reconcileNormal] *)

Section IdentityFacts.
Import Identity.

Local Arguments String.eqb : simpl never.

Lemma eqb_empty_false (s : string) : s <> "" -> String.eqb s "" = false.
Proof. intros H. apply String.eqb_neq. exact H. Qed.

(** The cloud and the certificate of a secret that can be read and parsed. *)
Lemma getCloudFromSecret_readable cl ns name cloud secret content clouds :
  name <> "" -> cloud <> "" ->
  Get cl ns name = inl secret ->
  Data secret !! CloudsSecretKey = Some content ->
  Unmarshal cl content = inl clouds ->
  getCloudFromSecret cl ns name cloud
  = (default emptyCloud (clouds !! cloud), Data secret !! CaSecretKey, None).
Proof.
  intros Hn Hc Hg Hd Hu. unfold getCloudFromSecret.
  rewrite (eqb_empty_false _ Hn), (eqb_empty_false _ Hc), Hg, Hd, Hu.
  reflexivity.
Qed.

(** X26. The CA certificate of the identity secret counts only when it is
    longer than 256 bytes: for a secret that can be read and parsed, the
    iCenter that [NewClientFromCluster] returns has the server and the user
    of the named cloud whatever the certificate is; a certificate of more
    than 256 bytes becomes its [CACertFile] and forces [Verify] to true,
    while a shorter one, like a missing one, is dropped without an error
    and leaves both as the clouds file has them. *)
Theorem ca_certificate_threshold cl c ref secret content clouds :
  IdentityRef c = Some ref ->
  Name ref <> "" -> CloudName c <> "" ->
  Get cl (Namespace c) (Name ref) = inl secret ->
  Data secret !! CloudsSecretKey = Some content ->
  Unmarshal cl content = inl clouds ->
  exists iCenter,
    let cloud := default emptyCloud (clouds !! CloudName c) in
    NewClientFromCluster cl c = inl iCenter /\
    ICenterURL iCenter = ICenterURL cloud /\
    Username iCenter = Username cloud /\
    Password iCenter = Password cloud /\
    match Data secret !! CaSecretKey with
    | Some cert =>
        ((256 < length cert)%nat ->
         CACertFile iCenter = string_of_list_byte cert /\
         Verify iCenter = Some true) /\
        ((length cert <= 256)%nat -> iCenter = cloud)
    | None => iCenter = cloud
    end.
Proof.
  intros Hr Hn Hc Hg Hd Hu. unfold NewClientFromCluster. rewrite Hr.
  rewrite (getCloudFromSecret_readable _ _ _ _ _ _ _ Hn Hc Hg Hd Hu).
  destruct (Data secret !! CaSecretKey) as [cert |].
  - destruct (256 <? length cert)%nat eqn:Hlen.
    + apply Nat.ltb_lt in Hlen. eexists. cbn zeta.
      split; [reflexivity |]. repeat split; intros; try reflexivity; lia.
    + apply Nat.ltb_ge in Hlen. eexists. cbn zeta.
      split; [reflexivity |]. repeat split; intros; try reflexivity; lia.
  - eexists. cbn zeta. repeat split; reflexivity.
Qed.

(** X27. A cloud name that the clouds file does not have is no error: for a
    secret that can be read and parsed and carries no certificate, when
    [Spec.CloudName] is not among the clouds of the file,
    [NewClientFromCluster] returns the empty iCenter, with no server and no
    user. *)
Theorem unknown_cloud_gives_empty_icenter cl c ref secret content clouds :
  IdentityRef c = Some ref ->
  Name ref <> "" -> CloudName c <> "" ->
  Get cl (Namespace c) (Name ref) = inl secret ->
  Data secret !! CloudsSecretKey = Some content ->
  Unmarshal cl content = inl clouds ->
  clouds !! CloudName c = None ->
  Data secret !! CaSecretKey = None ->
  NewClientFromCluster cl c = inl emptyCloud.
Proof.
  intros Hr Hn Hc Hg Hd Hu Hnone Hca. unfold NewClientFromCluster.
  rewrite Hr, (getCloudFromSecret_readable _ _ _ _ _ _ _ Hn Hc Hg Hd Hu).
  rewrite Hca, Hnone. reflexivity.
Qed.

(** X28. What the identity secret must hold: when the reference names a
    secret and the cluster a cloud, [NewClientFromCluster] fails exactly
    when the secret cannot be read, has no [clouds.yaml] key, or its
    content does not parse; a failing read is returned as it is. *)
Theorem identity_secret_failures cl c ref :
  IdentityRef c = Some ref ->
  Name ref <> "" -> CloudName c <> "" ->
  match Get cl (Namespace c) (Name ref) with
  | inr err => NewClientFromCluster cl c = inr err
  | inl secret =>
      match Data secret !! CloudsSecretKey with
      | None => exists err, NewClientFromCluster cl c = inr err
      | Some content =>
          match Unmarshal cl content with
          | inr _ => exists err, NewClientFromCluster cl c = inr err
          | inl _ => exists iCenter, NewClientFromCluster cl c = inl iCenter
          end
      end
  end.
Proof.
  intros Hr Hn Hc. unfold NewClientFromCluster, getCloudFromSecret.
  rewrite Hr, (eqb_empty_false _ Hn), (eqb_empty_false _ Hc).
  destruct (Get cl (Namespace c) (Name ref)) as [secret | err];
    [| reflexivity].
  destruct (Data secret !! CloudsSecretKey) as [content |];
    [| eexists; reflexivity].
  destruct (Unmarshal cl content) as [clouds | msg];
    [| eexists; reflexivity].
  destruct (Data secret !! CaSecretKey) as [cert |];
    [destruct (256 <? length cert)%nat |]; eexists; reflexivity.
Qed.

End IdentityFacts.

Section ClusterReconcileFacts.
Import ClusterController ClusterReconcile.

Local Arguments String.eqb : simpl never.

(** X29. A cluster without an identity reference is never connected: a
    [reconcileNormal] pass over an ICSCluster whose [Spec.IdentityRef] is
    nil reads no secret and opens no session; it adds the finalizer, marks
    the iCenter unreachable, leaves [Status.Ready], the endpoint and the
    pollers as they were, and returns the wrapped error of
    [ValidateInputs]. *)
Theorem identity_ref_is_required env c icsCluster st pollers :
  Identity.IdentityRef icsCluster = None ->
  reconcileNormal env c icsCluster st pollers
  = (Some (Wrapf (New "IdentityRef is required")
             "unexpected error while probing icenter for %s"
             [ArgContext (ContextString c)]),
     {| hasFinalizer := true; Ready := Ready st;
        ICenterVersion := ICenterVersion st;
        ControlPlaneEndpoint := ControlPlaneEndpoint st;
        marks := marks st ++ [MarkFalseUnreachable] |},
     pollers).
Proof.
  intros Hr.
  unfold reconcileNormal, reconcileIdentitySecret,
    reconcileICenterConnectivity, Identity.ValidateInputs.
  rewrite Hr. reflexivity.
Qed.

(** X30. Ready once connected: when the identity secret is there and the
    session is opened, [reconcileNormal] sets [Status.Ready] and marks the
    iCenter available whatever follows. A version that cannot be read, or
    is empty, only marks the cluster modules unavailable; the error
    returned is the one of the endpoint reconcile, wrapped, and nil when
    that succeeds; the endpoint and the pollers are what
    [reconcileControlPlaneEndpoint] leaves. *)
Theorem ready_once_connected env c icsCluster st pollers version :
  reconcileIdentitySecret env icsCluster = None ->
  reconcileICenterConnectivity env icsCluster = inl version ->
  let '(err, st', pollers') := reconcileNormal env c icsCluster st pollers in
  let '(r, endpoint, after) :=
    reconcileControlPlaneEndpoint c (ControlPlaneEndpoint st)
      (GetMachinesInCluster env) pollers in
  Ready st' = true /\
  hasFinalizer st' = true /\
  marks st' =
    marks st ++ [MarkTrue ICenterAvailableCondition] ++
    match version with
    | inl v => if String.eqb v "" then [MarkFalseMissingVersion] else []
    | inr _ => [MarkFalseMissingVersion]
    end /\
  ICenterVersion st' =
    match version with inl v => v | inr _ => ICenterVersion st end /\
  ControlPlaneEndpoint st' = endpoint /\
  pollers' = after /\
  err = match r with
        | (false, Some e) =>
            Some (Wrapf e
                    "unexpected error while reconciling control plane endpoint for %s"
                    [ArgContext (ContextString c)])
        | _ => None
        end.
Proof.
  intros Hs Hc. unfold reconcileNormal. rewrite Hs, Hc.
  destruct version as [v | e];
    cbn [ControlPlaneEndpoint mark hasFinalizer Ready ICenterVersion marks];
    [destruct (String.eqb v "");
     cbn [ControlPlaneEndpoint mark hasFinalizer Ready ICenterVersion marks] |];
    destruct (reconcileControlPlaneEndpoint c (ControlPlaneEndpoint st)
                (GetMachinesInCluster env) pollers) as [[[ok oe] ep] after];
    destruct ok, oe; cbn; rewrite <- ?app_assoc; repeat split.
Qed.

End ClusterReconcileFacts.

(** ** The properties above on concrete inputs *)

Section ServiceScenarios.
Import Fake ServiceExamples.

Lemma started_vm_is_ready_witness :
  let P := platform started in
  let r := ReconcileVM P (startPass 0%nat machine) in
  reachesPowerSync P (startPass 0%nat machine) vm8 syncedVM atPowerSync /\
  GetVM P (Value vm8) (world atPowerSync)
    = (inl (vmObject "STARTED" 4096), 2%nat) /\
  fst r = (VirtualMachine.with_State VirtualMachineStateReady syncedVM, None) /\
  mutations (calls (snd r)) = [].
Proof.
  intros P r.
  assert (Hr : reachesPowerSync P (startPass 0%nat machine) vm8 syncedVM
                 atPowerSync)
    by (eapply script_reaches_power_sync; reflexivity).
  split; [exact Hr |]. split; [reflexivity |].
  exact (started_vm_is_ready P 0%nat machine vm8 syncedVM atPowerSync _ _ Hr
           eq_refl eq_refl).
Defined.


Lemma ready_pass_is_clean_witness :
  let P := platform started in
  let r := ReconcileVM P (startPass 0%nat machine) in
  VirtualMachine.State (fst (fst r)) = VirtualMachineStateReady /\
  snd (fst r) = None /\
  mutations (calls (snd r)) = [] /\
  exists ref vm s o w1,
    reachesPowerSync P (startPass 0%nat machine) ref vm s /\
    GetVM P (Value ref) (world s) = (inl o, w1) /\
    Status o = "STARTED"%string.
Proof.
  intros P r. split; [reflexivity |].
  exact (ready_pass_is_clean P 0%nat machine eq_refl).
Defined.

Lemma create_only_from_secret_value_witness :
  let P := platform unfound in
  In (CallCreateVM "hi")
     (mutations (calls (snd (ReconcileVM P (startPass 0%nat machine))))) /\
  exists err s ref secret w3 value,
    missesVM P (startPass 0%nat machine) err s /\
    ICSVM.BootstrapRef (icsvm s) = Some ref /\
    ClientGet P (RefNamespace ref) (RefName ref) (world s) = (inl secret, w3) /\
    Data secret !! "value"%string = Some value /\
    "hi"%string = string_of_list_byte value.
Proof.
  intros P.
  assert (Hin : In (CallCreateVM "hi")
                  (mutations (calls (snd (ReconcileVM P (startPass 0%nat machine))))))
    by (left; reflexivity).
  split; [exact Hin |].
  exact (create_only_from_secret_value P 0%nat machine "hi" Hin).
Defined.

Lemma power_on_accepted_witness :
  let P := platform script in
  let r := ReconcileVM P (startPass 0%nat machine) in
  reachesPowerSync P (startPass 0%nat machine) vm8 syncedVM atPowerSync /\
  GetVM P (Value vm8) (world atPowerSync)
    = (inl (vmObject "STOPPED" 4096), 2%nat) /\
  GetHost P "host-1" 3%nat
    = (inl {| FreeMemoryInByte := 8192; LogicFreeMemoryInByte := 8192 |}, 3%nat) /\
  4096 < 8192 /\
  PowerOnVM P (Value vm8) 3%nat = (inl {| TaskId := "task-on" |}, 3%nat) /\
  WaitForResult P {| TaskId := "task-on" |} 3%nat
    = ((Some {| TaskState := "RUNNING"; TaskError := "" |}, None), 3%nat) /\
  fst r = (syncedVM, None) /\
  VirtualMachine.State syncedVM = VirtualMachineStatePending /\
  ICSVM.TaskRef (icsvm (snd r)) = "task-on"%string /\
  exists notified,
    calls (snd r) =
      calls atPowerSync ++
      [CallGetVM "vm-8"; CallGetVM "vm-8"; CallGetHost "host-1";
       CallPowerOnVM "vm-8"; WatchNetwork "task-on";
       CallWaitForResult "task-on"] ++ notified /\
    (notified = [] \/ notified = [WatchTask "task-on"]).
Proof.
  intros P r.
  assert (Hr : reachesPowerSync P (startPass 0%nat machine) vm8 syncedVM
                 atPowerSync)
    by (eapply script_reaches_power_sync; reflexivity).
  assert (Hlt : 4096 < 8192) by lia.
  split; [exact Hr |]. split; [reflexivity |]. split; [reflexivity |].
  split; [exact Hlt |]. split; [reflexivity |]. split; [reflexivity |].
  exact (power_on_accepted P 0%nat machine vm8 syncedVM atPowerSync
           (vmObject "STOPPED" 4096) 2%nat (vmObject "STOPPED" 4096) 3%nat
           {| FreeMemoryInByte := 8192; LogicFreeMemoryInByte := 8192 |} 3%nat
           {| TaskId := "task-on" |} 3%nat
           (Some {| TaskState := "RUNNING"; TaskError := "" |}) None 3%nat
           Hr eq_refl eq_refl eq_refl eq_refl Hlt Hlt eq_refl eq_refl).
Defined.

Lemma power_on_refused_witness :
  let P := platform (with_powerOn (inr (External "host in maintenance")) script) in
  let r := ReconcileVM P (startPass 0%nat machine) in
  reachesPowerSync P (startPass 0%nat machine) vm8 syncedVM atPowerSync /\
  GetVM P (Value vm8) (world atPowerSync)
    = (inl (vmObject "STOPPED" 4096), 2%nat) /\
  4096 < 8192 /\
  PowerOnVM P (Value vm8) 3%nat = (inr (External "host in maintenance"), 3%nat) /\
  fst r =
    (syncedVM,
     Some (Wrapf (External "host in maintenance")
             "failed to trigger power on op for vm %s"
             [ArgContext machineString])) /\
  VirtualMachine.State syncedVM = VirtualMachineStatePending /\
  icsvm (snd r) = machine.
Proof.
  intros P r.
  assert (Hr : reachesPowerSync P (startPass 0%nat machine) vm8 syncedVM
                 atPowerSync)
    by (eapply script_reaches_power_sync; reflexivity).
  assert (Hlt : 4096 < 8192) by lia.
  split; [exact Hr |]. split; [reflexivity |]. split; [exact Hlt |].
  split; [reflexivity |].
  exact (power_on_refused P 0%nat machine vm8 syncedVM atPowerSync
           (vmObject "STOPPED" 4096) 2%nat (vmObject "STOPPED" 4096) 3%nat
           {| FreeMemoryInByte := 8192; LogicFreeMemoryInByte := 8192 |} 3%nat
           (External "host in maintenance") 3%nat
           Hr eq_refl eq_refl eq_refl eq_refl Hlt Hlt eq_refl).
Defined.

Lemma bootstrap_secret_unreadable_witness :
  let P := platform (with_secret (inr (External "forbidden")) unfound) in
  let r := ReconcileVM P (startPass 0%nat machine) in
  missesVM P (startPass 0%nat machine) (External "not found")
    (afterProbe machine) /\
  ClientGet P "default" "worker-0-boot" 0%nat = (inr (External "forbidden"), 0%nat) /\
  snd (fst r) =
    Some (Wrapf (External "forbidden")
            "failed to retrieve bootstrap data secret for %s"
            [ArgContext machineString]) /\
  VirtualMachine.State (fst (fst r)) = VirtualMachineStatePending /\
  mutations (calls (snd r)) = [].
Proof.
  intros P r.
  assert (Hm : missesVM P (startPass 0%nat machine) (External "not found")
                 (afterProbe machine))
    by (apply script_misses; reflexivity).
  split; [exact Hm |]. split; [reflexivity |].
  exact (bootstrap_secret_unreadable P 0%nat machine _ _
           {| RefNamespace := "default"; RefName := "worker-0-boot" |}
           (External "forbidden") 0%nat Hm eq_refl eq_refl).
Defined.

Lemma destroy_deletes_when_not_powered_on_witness :
  let P := platform script in
  let r := DestroyVM P session (startPass 0%nat machine) in
  findsVM P (startPass 0%nat machine) vm8 (afterProbe machine) /\
  fst (getPowerState P vm8 (afterProbe machine))
    = (VirtualMachinePowerStatePoweredOff, None) /\
  VirtualMachinePowerStatePoweredOff <> VirtualMachinePowerStatePoweredOn /\
  mutations (calls (snd r)) = [CallDeleteVM "vm-8" true true "s3cret"] /\
  VirtualMachine.State (fst (fst r)) = VirtualMachineStatePending /\
  ICSVM.TaskRef (icsvm (snd r)) = "task-del"%string /\
  snd (fst r) = None.
Proof.
  intros P r.
  assert (Hf : findsVM P (startPass 0%nat machine) vm8 (afterProbe machine))
    by (apply script_finds; reflexivity).
  assert (Hne : VirtualMachinePowerStatePoweredOff
                <> VirtualMachinePowerStatePoweredOn) by discriminate.
  split; [exact Hf |]. split; [reflexivity |]. split; [exact Hne |].
  destruct (destroy_deletes_when_not_powered_on P session 0%nat machine vm8
              (afterProbe machine) VirtualMachinePowerStatePoweredOff _
              Hf eq_refl Hne) as (Hm & Hs & Hok & _).
  split; [exact Hm |]. split; [exact Hs |].
  exact (Hok {| TaskId := "task-del" |} 1%nat eq_refl).
Defined.

Lemma destroy_errors_are_returned_witness :
  let P := platform (with_find (inr (External "connection refused")) script) in
  let Q := platform (with_vms [inr (External "timeout")] script) in
  let r := DestroyVM P session (startPass 0%nat machine) in
  let q := DestroyVM Q session (startPass 0%nat machine) in
  missesVM P (startPass 0%nat machine) (External "connection refused")
    (afterProbe machine) /\
  isNotFound P (External "connection refused") = false /\
  (snd (fst r) = Some (External "connection refused") /\
   VirtualMachine.State (fst (fst r)) = VirtualMachineStatePending /\
   mutations (calls (snd r)) = []) /\
  findsVM Q (startPass 0%nat machine) vm8 (afterProbe machine) /\
  snd (fst (getPowerState Q vm8 (afterProbe machine)))
    = Some (External "timeout") /\
  (snd (fst q) = Some (External "timeout") /\
   VirtualMachine.State (fst (fst q)) = VirtualMachineStatePending /\
   mutations (calls (snd q)) = []).
Proof.
  intros P Q r q.
  assert (Hm : missesVM P (startPass 0%nat machine)
                 (External "connection refused") (afterProbe machine))
    by (apply script_misses; reflexivity).
  assert (Hf : findsVM Q (startPass 0%nat machine) vm8 (afterProbe machine))
    by (apply script_finds; reflexivity).
  split; [exact Hm |]. split; [reflexivity |]. split.
  - exact (proj1 (destroy_errors_are_returned P session) 0%nat machine _ _ Hm
             eq_refl).
  - split; [exact Hf |]. split; [reflexivity |].
    exact (proj2 (destroy_errors_are_returned Q session) 0%nat machine vm8
             (afterProbe machine) _ (External "timeout") _ Hf eq_refl).
Defined.

Lemma network_sync_outcome_witness :
  let P := platform (with_net (inl [eth0]) script) in
  let r := reconcileNetworkStatus P vm8 syncedVM afterIdentity in
  GetNetworkStatus P machine vm8 1%nat = (inl [eth0], 1%nat) /\
  snd (fst r) = None /\
  VirtualMachine.Network (fst (fst r)) = [eth0] /\
  calls (snd r) = calls afterIdentity ++ [CallGetNetworkStatus "vm-8"].
Proof.
  intros P r. split; [reflexivity |].
  destruct (network_sync_outcome P vm8 syncedVM afterIdentity [eth0] 1%nat
              eq_refl) as (He & Hn & _ & _).
  split; [exact He |]. split; [exact Hn |]. reflexivity.
Defined.

Lemma network_error_ends_pass_witness :
  let P := platform (with_net (inr (External "timeout")) script) in
  let r := ReconcileVM P (startPass 0%nat machine) in
  findsVM P (startPass 0%nat machine) vm8 (afterProbe machine) /\
  reconcileUUID P vm8 (fst (initialVM (startPass 0%nat machine)))
    (afterProbe machine) = (syncedVM, afterIdentity) /\
  GetNetworkStatus P machine vm8 1%nat = (inr (External "timeout"), 1%nat) /\
  fst r = (syncedVM, Some (External "timeout")) /\
  world (snd r) = 1%nat /\
  exists notified,
    calls (snd r) =
      calls afterIdentity ++ [CallGetNetworkStatus "vm-8"] ++ notified /\
    (notified = [] \/ notified = [WatchTask ""]).
Proof.
  intros P r.
  assert (Hf : findsVM P (startPass 0%nat machine) vm8 (afterProbe machine))
    by (apply script_finds; reflexivity).
  split; [exact Hf |]. split; [reflexivity |]. split; [reflexivity |].
  exact (network_error_ends_pass P 0%nat machine vm8 (afterProbe machine)
           syncedVM afterIdentity (External "timeout") 1%nat Hf eq_refl eq_refl).
Defined.

Lemma identity_sync_best_effort_witness :
  let P := platform script in
  let Q := platform (with_vms [inr (External "timeout")] script) in
  let r := ReconcileVM P (startPass 0%nat machine) in
  let q := ReconcileVM Q (startPass 0%nat machine) in
  findsVM P (startPass 0%nat machine) vm8 (afterProbe machine) /\
  (VirtualMachine.UID (fst (fst r)) = "vm-8"%string /\
   VirtualMachine.BiosUUID (fst (fst r)) = "4c4c4544"%string) /\
  findsVM Q (startPass 0%nat machine) vm8 (afterProbe machine) /\
  (VirtualMachine.UID (fst (fst q)) = ""%string /\
   VirtualMachine.BiosUUID (fst (fst q)) = ""%string /\
   In (CallGetNetworkStatus "vm-8") (calls (snd q))).
Proof.
  intros P Q r q.
  assert (Hp : findsVM P (startPass 0%nat machine) vm8 (afterProbe machine))
    by (apply script_finds; reflexivity).
  assert (Hq : findsVM Q (startPass 0%nat machine) vm8 (afterProbe machine))
    by (apply script_finds; reflexivity).
  split; [exact Hp |]. split.
  - exact (proj1 (identity_sync_best_effort P 0%nat machine vm8 _ Hp)
             (vmObject "STOPPED" 4096) 1%nat eq_refl).
  - split; [exact Hq |].
    exact (proj2 (identity_sync_best_effort Q 0%nat machine vm8 _ Hq)
             (External "timeout") 1%nat eq_refl).
Defined.

End ServiceScenarios.

Section PollerScenarios.
Import Poller PollerRuns.

Lemma start_leaves_one_poller_witness :
  reachable polling /\
  reachable initial /\
  length (pollersOf "c1"
            (reconcileICSClusterWhenAPIServerIsOnline "c1" false polling)) = 1%nat /\
  length (pollersOf "c1"
            (reconcileICSClusterWhenAPIServerIsOnline "c1" false initial)) = 1%nat.
Proof.
  assert (Hp : reachable polling) by (exists [Start "c1" false]; reflexivity).
  assert (Hi : reachable initial) by (exists []; reflexivity).
  split; [exact Hp |]. split; [exact Hi |].
  split; [exact (start_leaves_one_poller polling "c1" Hp) |].
  exact (start_leaves_one_poller initial "c1" Hi).
Defined.


Lemma events_bounded_by_starts_witness :
  let acts := [Start "c1" false; Run 0 settled; Start "c1" false;
               Run 0 settled; Run 0 settled] in
  exists s,
    execAll acts initial = Some s /\
    startsOf "c1" acts = 2%nat /\
    (eventsOf "c1" s <= startsOf "c1" acts)%nat.
Proof.
  intros acts. eexists. split; [reflexivity |]. split; [reflexivity |].
  apply (events_bounded_by_starts acts _ "c1"). reflexivity.
Defined.

End PollerScenarios.

Section ControllerScenarios.
Import ClusterController ControllerExamples.

Lemma endpoint_reconcile_is_stable_witness :
  let r := reconcileControlPlaneEndpoint view zero (inl [worker; cpReady])
             Poller.initial in
  fst (fst (fst r)) = true /\
  snd (fst r) = {| Host := "10.0.0.8"; Port := 6443 |} /\
  reconcileControlPlaneEndpoint view (snd (fst r))
    (inr (External "timeout")) (snd r) =
  ((true, None), snd (fst r), snd r).
Proof.
  intros r. split; [reflexivity |]. split; [reflexivity |].
  exact (endpoint_reconcile_is_stable view zero (inl [worker; cpReady])
           Poller.initial eq_refl (inr (External "timeout"))).
Defined.

Lemma endpoint_from_first_eligible_machine_witness :
  IsZero (ClusterEndpoint view) = true /\
  IsZero zero = true /\
  forallb passedOver [worker; cpNoData; cpNoAddress] = true /\
  preferredIP (icsMachineOf "cp-2" (IPAddress "10.0.0.8")) = IPAddress "10.0.0.8" /\
  reconcileControlPlaneEndpoint view zero
    (inl ([worker; cpNoData; cpNoAddress] ++ cpReady :: [cpOther; cpLost]))
    Poller.initial =
  ((true, None), {| Host := "10.0.0.8"; Port := 6443 |},
   Poller.reconcileICSClusterWhenAPIServerIsOnline "c1" false Poller.initial).
Proof.
  split; [reflexivity |]. split; [reflexivity |]. split; [reflexivity |].
  split; [reflexivity |].
  exact (endpoint_from_first_eligible_machine view zero
           [worker; cpNoData; cpNoAddress] cpReady [cpOther; cpLost]
           Poller.initial "cp-2-boot"
           (icsMachineOf "cp-2" (IPAddress "10.0.0.8")) "10.0.0.8"
           eq_refl eq_refl eq_refl eq_refl eq_refl eq_refl eq_refl).
Defined.

Lemma endpoint_discovery_failures_witness :
  let lost :=
    Wrapf (External "not found") "failed to get ICSMachine for Machine %s/%s/%s"
      [ArgString "cluster.x-k8s.io/v1beta1, Kind=Machine"; ArgString "default";
       ArgString "cp-4"] in
  IsZero (ClusterEndpoint view) = true /\
  IsZero zero = true /\
  forallb passedOver [worker; cpNoData; cpNoAddress] = true /\
  fst (reconcileControlPlaneEndpoint view zero
         (inl [worker; cpNoData; cpNoAddress]) Poller.initial) =
  ((false,
    Some (Errorf "unable to determine control plane endpoint for %s"
            [ArgContext (ContextString view)])), zero) /\
  discover [cpLost] = Failed lost /\
  fst (reconcileControlPlaneEndpoint view zero
         (inl ([worker; cpNoData] ++ cpLost :: [cpReady])) Poller.initial) =
  ((false, Some lost), zero).
Proof.
  intros lost.
  destruct (endpoint_discovery_failures view zero Poller.initial eq_refl eq_refl)
    as [Hnone Hfail].
  split; [reflexivity |]. split; [reflexivity |]. split; [reflexivity |].
  split; [exact (Hnone [worker; cpNoData; cpNoAddress] eq_refl) |].
  split; [reflexivity |].
  exact (Hfail [worker; cpNoData] cpLost [cpReady] lost eq_refl eq_refl).
Defined.

Lemma delete_requeues_while_machines_remain_witness :
  let ms := [orphanOk; owned; orphanGone] in
  forallb updatable ms = true /\
  failures Fake.isErrNotFound ms = [] /\
  forallb orphan ms = false /\
  reconcileDelete Fake.isErrNotFound view (inl ms) =
  {| RequeueAfter := 10; returned := None; finalizerRemoved := false;
     asked := [UpdateMachine 0; DeleteMachine 0;
               UpdateMachine 2; DeleteMachine 2] |}.
Proof.
  intros ms. split; [reflexivity |]. split; [reflexivity |].
  split; [reflexivity |].
  exact (delete_requeues_while_machines_remain Fake.isErrNotFound view ms
           eq_refl eq_refl eq_refl).
Defined.

Lemma update_failure_ends_deletion_witness :
  forallb updatable [orphanStuck; owned] = true /\
  orphan orphanFrozen = true /\
  updateAnswer orphanFrozen = Some (External "forbidden") /\
  reconcileDelete Fake.isErrNotFound view
    (inl ([orphanStuck; owned] ++ orphanFrozen :: [orphanOk])) =
  {| RequeueAfter := 0; returned := Some (Plain (External "forbidden"));
     finalizerRemoved := false;
     asked := [UpdateMachine 0; DeleteMachine 0; UpdateMachine 2] |}.
Proof.
  split; [reflexivity |]. split; [reflexivity |]. split; [reflexivity |].
  exact (update_failure_ends_deletion Fake.isErrNotFound view
           [orphanStuck; owned] orphanFrozen [orphanOk] (External "forbidden")
           eq_refl eq_refl eq_refl).
Defined.

Lemma delete_failures_are_aggregated_witness :
  let ms := [orphanStuck; orphanGone; orphanOk; orphanStuck] in
  forallb updatable ms = true /\
  failures Fake.isErrNotFound ms = [External "conflict"; External "conflict"] /\
  reconcileDelete Fake.isErrNotFound view (inl ms) =
  {| RequeueAfter := 0;
     returned := Some (Aggregate [External "conflict"; External "conflict"]);
     finalizerRemoved := false;
     asked := [UpdateMachine 0; DeleteMachine 0; UpdateMachine 1;
               DeleteMachine 1; UpdateMachine 2; DeleteMachine 2;
               UpdateMachine 3; DeleteMachine 3] |}.
Proof.
  intros ms. split; [reflexivity |]. split; [reflexivity |].
  exact (delete_failures_are_aggregated Fake.isErrNotFound view ms
           (External "conflict") [External "conflict"] eq_refl eq_refl).
Defined.

End ControllerScenarios.

Section IdentityScenarios.
Import Identity IdentityExamples.

Lemma ca_certificate_threshold_witness :
  let long := clientWith (inl (credentials (Some longCert))) in
  let short := clientWith (inl (credentials (Some shortCert))) in
  CloudName (clusterOn "prod") <> ""%string /\
  Get long "default" "creds" = inl (credentials (Some longCert)) /\
  Data (credentials (Some longCert)) !! CloudsSecretKey = Some [x7b; x7d] /\
  (256 < length longCert)%nat /\
  (length shortCert <= 256)%nat /\
  (exists iCenter,
      NewClientFromCluster long (clusterOn "prod") = inl iCenter /\
      ICenterURL iCenter = "https://icenter.example"%string /\
      CACertFile iCenter = string_of_list_byte longCert /\
      Verify iCenter = Some true) /\
  NewClientFromCluster short (clusterOn "prod") = inl prod.
Proof.
  intros long short.
  assert (Hn : Name {| Kind := "Secret"; Name := "creds" |} <> ""%string)
    by discriminate.
  assert (Hc : CloudName (clusterOn "prod") <> ""%string) by discriminate.
  assert (Hlong : (256 < length longCert)%nat)
    by (unfold longCert; rewrite repeat_length; lia).
  assert (Hshort : (length shortCert <= 256)%nat)
    by (unfold shortCert; rewrite repeat_length; lia).
  split; [exact Hc |]. split; [reflexivity |]. split; [reflexivity |].
  split; [exact Hlong |]. split; [exact Hshort |]. split.
  - destruct (ca_certificate_threshold long (clusterOn "prod") _
                (credentials (Some longCert)) [x7b; x7d]
                {[ "prod"%string := prod ]} eq_refl Hn Hc eq_refl eq_refl
                eq_refl) as (iCenter & Hi & Hurl & _ & _ & Hcert).
    exists iCenter. split; [exact Hi |]. split; [exact Hurl |].
    exact (proj1 Hcert Hlong).
  - destruct (ca_certificate_threshold short (clusterOn "prod") _
                (credentials (Some shortCert)) [x7b; x7d]
                {[ "prod"%string := prod ]} eq_refl Hn Hc eq_refl eq_refl
                eq_refl) as (iCenter & Hi & _ & _ & _ & Hcert).
    rewrite Hi. f_equal. exact (proj2 Hcert Hshort).
Defined.

Lemma unknown_cloud_gives_empty_icenter_witness :
  let cl := clientWith (inl (credentials None)) in
  CloudName (clusterOn "staging") <> ""%string /\
  Get cl "default" "creds" = inl (credentials None) /\
  Unmarshal cl [x7b; x7d] = inl {[ "prod"%string := prod ]} /\
  ({[ "prod"%string := prod ]} : gmap string ICenter) !! "staging"%string = None /\
  Data (credentials None) !! CaSecretKey = None /\
  NewClientFromCluster cl (clusterOn "staging") = inl emptyCloud.
Proof.
  intros cl.
  assert (Hn : Name {| Kind := "Secret"; Name := "creds" |} <> ""%string)
    by discriminate.
  assert (Hc : CloudName (clusterOn "staging") <> ""%string) by discriminate.
  split; [exact Hc |]. split; [reflexivity |]. split; [reflexivity |].
  split; [reflexivity |]. split; [reflexivity |].
  exact (unknown_cloud_gives_empty_icenter cl (clusterOn "staging") _
           (credentials None) [x7b; x7d] {[ "prod"%string := prod ]}
           eq_refl Hn Hc eq_refl eq_refl eq_refl eq_refl eq_refl).
Defined.

Lemma identity_secret_failures_witness :
  let cl := clientWith (inr (External "forbidden")) in
  let empty := clientWith (inl {| Data := ∅ |}) in
  CloudName (clusterOn "prod") <> ""%string /\
  Get cl "default" "creds" = inr (External "forbidden") /\
  NewClientFromCluster cl (clusterOn "prod") = inr (External "forbidden") /\
  Get empty "default" "creds" = inl {| Data := ∅ |} /\
  exists err, NewClientFromCluster empty (clusterOn "prod") = inr err.
Proof.
  intros cl empty.
  assert (Hn : Name {| Kind := "Secret"; Name := "creds" |} <> ""%string)
    by discriminate.
  assert (Hc : CloudName (clusterOn "prod") <> ""%string) by discriminate.
  split; [exact Hc |]. split; [reflexivity |].
  split; [exact (identity_secret_failures cl (clusterOn "prod") _ eq_refl Hn Hc) |].
  split; [reflexivity |].
  exact (identity_secret_failures empty (clusterOn "prod") _ eq_refl Hn Hc).
Defined.

End IdentityScenarios.

Section ClusterReconcileScenarios.
Import ClusterController ClusterReconcile ControllerExamples IdentityExamples.

Lemma identity_ref_is_required_witness :
  let env := environment (inl (credentials None)) in
  Identity.IdentityRef anonymous = None /\
  reconcileNormal env view anonymous fresh Poller.initial
  = (Some (Wrapf (New "IdentityRef is required")
             "unexpected error while probing icenter for %s"
             [ArgContext (ContextString view)]),
     {| hasFinalizer := true; Ready := false; ICenterVersion := "";
        ControlPlaneEndpoint := zero; marks := [MarkFalseUnreachable] |},
     Poller.initial).
Proof.
  intros env. split; [reflexivity |].
  exact (identity_ref_is_required env view anonymous fresh Poller.initial
           eq_refl).
Defined.

Lemma ready_once_connected_witness :
  let env := environment (inl (credentials None)) in
  let r := reconcileNormal env view (clusterOn "prod") fresh Poller.initial in
  reconcileIdentitySecret env (clusterOn "prod") = None /\
  reconcileICenterConnectivity env (clusterOn "prod")
    = inl (inr (External "version unavailable")) /\
  fst (fst r) = None /\
  Ready (snd (fst r)) = true /\
  marks (snd (fst r))
    = [MarkTrue ICenterAvailableCondition; MarkFalseMissingVersion] /\
  ControlPlaneEndpoint (snd (fst r)) = {| Host := "10.0.0.8"; Port := 6443 |}.
Proof.
  intros env r. split; [reflexivity |]. split; [reflexivity |].
  pose proof (ready_once_connected env view (clusterOn "prod") fresh
                Poller.initial (inr (External "version unavailable"))
                eq_refl eq_refl) as H.
  vm_compute in H.
  destruct H as (Hready & _ & Hmarks & _ & Hep & _ & Herr).
  split; [exact Herr |]. split; [exact Hready |]. split; [exact Hmarks |].
  exact Hep.
Defined.

End ClusterReconcileScenarios.
